(** * pytest-testrail: a shallow embedding of [pytest_testrail/plugin.py]

    The plugin collects the TestRail case ids declared on tests, resolves
    (or creates) the remote test run during collection, accumulates one
    result record per declared case id while tests run, and publishes the
    records one by one when the session finishes.

    Python values are embedded as follows.
    - [int] is [Z]; [str] is [string]; a list is a [list].
    - A finite [float] is the rational it denotes ([Q]): the only float
      operations of the plugin are a comparison with [1] and [round],
      both exact on finite floats.
    - A parsed JSON response is a [json] tree.
    - A raised exception is [Raise e]; stateful code lives in a state
      monad that threads the plugin object and the outside world. *)

From Stdlib Require Import ZArith QArith Qround List String Ascii Bool Lia.
From Stdlib Require Import Permutation Sorted DecimalString Lqa.
From Stdlib Require Import DecimalPos DecimalZ.
Import ListNotations.
Local Open Scope string_scope.
Local Open Scope Z_scope.

(** ** Python primitives *)

Module Py.

(** The exceptions the plugin can raise. *)
Inductive exn : Type :=
| AttributeError
| KeyError
| TypeError
| ValueError.

Inductive result (A : Type) : Type :=
| Ok (a : A)
| Raise (e : exn).
Arguments Ok {A} a.
Arguments Raise {A} e.

Definition rbind {A B} (r : result A) (k : A -> result B) : result B :=
  match r with
  | Ok a => k a
  | Raise e => Raise e
  end.

(** [[f(x) for x in l]]: evaluation stops at the first exception. *)
Fixpoint rmap {A B} (f : A -> result B) (l : list A) : result (list B) :=
  match l with
  | [] => Ok []
  | x :: l' => rbind (f x) (fun y => rbind (rmap f l') (fun ys => Ok (y :: ys)))
  end.

(** The interpreter line: only [round] on a tie depends on it. *)
Inductive version : Type := Py2 | Py3.

(** *** Strings *)

Definition newline : ascii := "010"%char.
Definition nl : string := String newline "".

(** [str(n)] for an [int]. *)
Definition str_int (n : Z) : string := NilZero.string_of_int (Z.to_int n).

(** [len(s) > 0], the truth value of a [str]. *)
Definition str_truthy (s : string) : bool :=
  match s with
  | EmptyString => false
  | String _ _ => true
  end.

Fixpoint drop (n : nat) (s : string) : string :=
  match n, s with
  | O, _ => s
  | S n', String _ s' => drop n' s'
  | S _, EmptyString => EmptyString
  end.

(** [s[-n:]] for [n > 0]: the last [n] characters, all of [s] when it is
    shorter. *)
Definition last_chars (n : nat) (s : string) : string :=
  drop (String.length s - n) s.

(** [s.replace(c, new)] for a one-character pattern [c]. *)
Fixpoint replace_char (c : ascii) (new : string) (s : string) : string :=
  match s with
  | EmptyString => EmptyString
  | String a s' =>
      if Ascii.eqb a c then new ++ replace_char c new s'
      else String a (replace_char c new s')
  end.

(** [sep.join(l)]. *)
Definition join (sep : string) (l : list string) : string := String.concat sep l.

(** *** The regular expression [(?P<test_id>[0-9]+$)] *)

(** The class [[0-9]]. *)
Definition is_digit (c : ascii) : bool :=
  (48 <=? nat_of_ascii c)%nat && (nat_of_ascii c <=? 57)%nat.

(** [$] without [re.MULTILINE]: the end of the string, or the position
    just before a newline that is the last character. *)
Definition at_dollar (s : string) : bool :=
  match s with
  | EmptyString => true
  | String c EmptyString => Ascii.eqb c newline
  | String _ (String _ _) => false
  end.

(** [[0-9]+$] tried at the start of [s]: the greedy [+] takes the
    longest run first and gives characters back until [$] holds. *)
Fixpoint match_digits_dollar (s : string) : option string :=
  match s with
  | EmptyString => None
  | String c s' =>
      if is_digit c then
        match match_digits_dollar s' with
        | Some m => Some (String c m)
        | None => if at_dollar s' then Some (String c EmptyString) else None
        end
      else None
  end.

(** [re.search]: the match at the leftmost position that has one;
    the result is the text of the group [test_id]. *)
Fixpoint re_search (s : string) : option string :=
  match match_digits_dollar s with
  | Some m => Some m
  | None =>
      match s with
      | EmptyString => None
      | String _ s' => re_search s'
      end
  end.

Definition digit_value (c : ascii) : Z := Z.of_nat (nat_of_ascii c) - 48.

Fixpoint int_digits (acc : Z) (s : string) : result Z :=
  match s with
  | EmptyString => Ok acc
  | String c s' =>
      if is_digit c then int_digits (10 * acc + digit_value c) s'
      else Raise ValueError
  end.

(** [int(s)] on the strings the regular expression can return; any
    other text is answered with [ValueError]. *)
Definition int_of_str (s : string) : result Z :=
  match s with
  | EmptyString => Raise ValueError
  | String _ _ => int_digits 0 s
  end.

(** *** Numbers *)

Definition Qltb (x y : Q) : bool := negb (Qle_bool y x).

(** The truth value of a number: it is not zero. *)
Definition num_truthy (x : Q) : bool := negb (Qeq_bool x 0).

(** Python 2 [round]: to the nearest integer, a tie away from zero. *)
Definition round_half_away (x : Q) : Z :=
  if Qle_bool 0 x then Qfloor (x + (1 # 2)) else Qceiling (x - (1 # 2)).

(** Python 3 [round]: to the nearest integer, a tie to the even one. *)
Definition round_half_even (x : Q) : Z :=
  let f := Qfloor x in
  match Qcompare (x - inject_Z f) (1 # 2) with
  | Lt => f
  | Gt => f + 1
  | Eq => if Z.even f then f else f + 1
  end.

(** [int(round(x))]. *)
Definition int_round (v : version) (x : Q) : Z :=
  match v with
  | Py2 => round_half_away x
  | Py3 => round_half_even x
  end.

(** *** Parsed JSON *)

#[local] Unset Elimination Schemes.
Inductive json : Type :=
| JNull
| JBool (b : bool)
| JInt (n : Z)
| JStr (s : string)
| JList (l : list json)
| JObj (fields : list (string * json)).
#[local] Set Elimination Schemes.

Fixpoint assoc {A} (k : string) (l : list (string * A)) : option A :=
  match l with
  | [] => None
  | (k', v) :: l' => if String.eqb k k' then Some v else assoc k l'
  end.

(** [v[k]] for a string key [k]. *)
Definition getitem (v : json) (k : string) : result json :=
  match v with
  | JObj fields =>
      match assoc k fields with
      | Some x => Ok x
      | None => Raise KeyError
      end
  | _ => Raise TypeError
  end.

(** The truth value of a parsed value. *)
Definition truthy (v : json) : bool :=
  match v with
  | JNull => false
  | JBool b => b
  | JInt n => negb (n =? 0)
  | JStr s => str_truthy s
  | JList l => match l with [] => false | _ :: _ => true end
  | JObj f => match f with [] => false | _ :: _ => true end
  end.

(** [v is False]. *)
Definition is_False (v : json) : bool :=
  match v with
  | JBool false => true
  | _ => false
  end.

Fixpoint chars (s : string) : list json :=
  match s with
  | EmptyString => []
  | String c s' => JStr (String c EmptyString) :: chars s'
  end.

(** [for x in v]: the elements of a list, the keys of an object, the
    characters of a string. *)
Definition iter (v : json) : result (list json) :=
  match v with
  | JList l => Ok l
  | JObj f => Ok (map (fun kv => JStr (fst kv)) f)
  | JStr s => Ok (chars s)
  | _ => Raise TypeError
  end.

(** The remote service answers ids as integers. The source stores the
    value of [response['id']] as it comes; an id that is not an integer
    is outside the client's contract and is answered here with
    [TypeError]. *)
Definition as_int (v : json) : result Z :=
  match v with
  | JInt n => Ok n
  | _ => Raise TypeError
  end.

End Py.

(** ** [list.sort(key=...)]

    Python's sort is stable: records with equal keys keep their order.
    A stable sort has one possible result ([stable_sort_unique] below), so
    the insertion sort that puts each element before the first one that is
    not smaller computes the list Python computes. *)

Section StableSort.
Context {A : Type} (leb : A -> A -> bool).

Fixpoint insert (x : A) (l : list A) : list A :=
  match l with
  | [] => [x]
  | y :: l' => if leb x y then x :: l else y :: insert x l'
  end.

Definition stable_sort (l : list A) : list A := fold_right insert [] l.

(** Two elements no comparison tells apart. *)
Definition same_key (a b : A) : bool := leb a b && leb b a.
End StableSort.

(** [l.sort(key=key)] with integer keys, compared with [<]. *)
Definition list_sort {A : Type} (key : A -> Z) (l : list A) : list A :=
  stable_sort (fun a b => key a <=? key b) l.

(** ** plugin.py *)

Module Plugin.
Import Py.

Definition PYTEST_TO_TESTRAIL_STATUS : list (string * Z) :=
  [("passed", 1); ("failed", 5); ("skipped", 2)].

Definition TESTRAIL_PREFIX : string := "testrail".

Definition ADD_RESULT_URL (run case : Z) : string :=
  "add_result_for_case/" ++ str_int run ++ "/" ++ str_int case.
Definition ADD_TESTRUN_URL (project : Z) : string := "add_run/" ++ str_int project.
Definition GET_TESTRUN_URL (run : Z) : string := "get_run/" ++ str_int run.
Definition GET_TESTPLAN_URL (plan : Z) : string := "get_plan/" ++ str_int plan.
Definition GET_MILESTONE_URL (milestone : Z) : string :=
  "get_milestone/" ++ str_int milestone.
Definition CLOSE_TESTRUN_URL (run : Z) : string := "close_run/" ++ str_int run.

Definition COMMENT_SIZE_LIMIT : nat := 4000.

(** The double quote, and the tag [[testrail] ] that starts every line
    the plugin prints. *)
Definition dquote : string := String "034"%char EmptyString.
Definition tag : string := "[" ++ TESTRAIL_PREFIX ++ "] ".

(** *** What pytest hands to the hooks *)

(** The [testrail] mark of a test: [kwargs.get('ids')]. *)
Record Marker : Type := { kwargs_ids : option (list string) }.

(** A collected test: [item.get_marker(TESTRAIL_PREFIX)]. *)
Record Item : Type := { get_marker : option Marker }.

(** The report of one phase of one test; [longrepr] stands for
    [str(rep.longrepr)], empty when the value is [None]. *)
Record TestReport : Type :=
  { when : string; outcome : string; longrepr : string; rep_duration : Q }.

Record datetime : Type :=
  { year : Z; month : Z; day : Z; hour : Z; minute : Z; second : Z }.

Definition pad2 (n : Z) : string :=
  if n <? 10 then "0" ++ str_int n else str_int n.

(** [now.strftime(DT_FORMAT)], with [DT_FORMAT = '%d-%m-%Y %H:%M:%S']. *)
Definition strftime_DT_FORMAT (now : datetime) : string :=
  pad2 (day now) ++ "-" ++ pad2 (month now) ++ "-" ++ str_int (year now) ++ " "
  ++ pad2 (hour now) ++ ":" ++ pad2 (minute now) ++ ":" ++ pad2 (second now).

(** *** Module-level functions *)

Definition get_test_outcome (outcome : string) : result Z :=
  match assoc outcome PYTEST_TO_TESTRAIL_STATUS with
  | Some status => Ok status
  | None => Raise KeyError
  end.

Definition testrun_name (now : datetime) : string :=
  "Automated Run " ++ strftime_DT_FORMAT now.

(** [re.search(...).groupdict().get('test_id')]: without a match
    [re.search] returns [None], which has no [groupdict]. *)
Definition search_test_id (test_id : string) : result string :=
  match re_search test_id with
  | Some m => Ok m
  | None => Raise AttributeError
  end.

(** The list comprehension runs first, then [int] over its result.
    [None] in place of the list cannot be iterated. *)
Definition clean_test_ids (test_ids : option (list string)) : result (list Z) :=
  match test_ids with
  | None => Raise TypeError
  | Some ids => rbind (rmap search_test_id ids) (rmap int_of_str)
  end.

Fixpoint get_testrail_keys (items : list Item) : result (list Z) :=
  match items with
  | [] => Ok []
  | item :: items' =>
      match get_marker item with
      | Some marker =>
          rbind (clean_test_ids (kwargs_ids marker)) (fun ids =>
          rbind (get_testrail_keys items') (fun testcaseids =>
          Ok (ids ++ testcaseids)%list))
      | None => get_testrail_keys items'
      end
  end.

(** *** The remote client and the outside world *)

(** One accumulated result, the dict that [add_result] appends. *)
Record Result : Type :=
  { case_id : Z; status_id : Z; comment : string; duration : Q }.

(** The payload of [add_result_for_case]: a key that is absent from
    the dict is [None]. *)
Record ResultData : Type :=
  { data_status_id : Z;
    data_version : option string;
    data_comment : option string;
    data_elapsed : option string }.

(** The payload of [add_run]. *)
Record RunData : Type :=
  { data_suite_id : Z;
    data_name : string;
    data_assignedto_id : Z;
    data_include_all : bool;
    data_case_ids : list Z;
    data_milestone_id : Z }.

Inductive PostData : Type :=
| AddResult (data : ResultData)
| AddRun (data : RunData)
| NoData.

(** The client is a collaborator of the plugin: it answers every call
    with a parsed response and never raises. [get_error] returns the
    error text of a response, [None] when it has none. *)
Class Client (C : Type) : Type :=
  { send_get : C -> string -> bool -> json * C;
    send_post : C -> string -> PostData -> bool -> json * C;
    get_error : C -> json -> option string }.

(** A call made to the client. *)
Inductive Request : Type :=
| Get (url : string) (cert_check : bool)
| Post (url : string) (data : PostData) (cert_check : bool).

(** The world outside the plugin object: the client, the lines printed
    so far, the calls made so far (both oldest first) and the clock. *)
Record World (C : Type) : Type :=
  { client : C;
    stdout : list string;
    requests : list Request;
    utcnow : datetime }.
Arguments client {C} _.
Arguments stdout {C} _.
Arguments requests {C} _.
Arguments utcnow {C} _.

(** *** A state monad with exceptions

    A computation takes the state, and gives back a value or an
    exception together with the state it left behind. *)

Definition M (S A : Type) : Type := S -> result A * S.

Definition ret {S A} (a : A) : M S A := fun s => (Ok a, s).

Definition bind {S A B} (m : M S A) (k : A -> M S B) : M S B :=
  fun s =>
    match m s with
    | (Ok a, s') => k a s'
    | (Raise e, s') => (Raise e, s')
    end.

(** A pure computation that may raise. *)
Definition lift {S A} (r : result A) : M S A := fun s => (r, s).

Declare Scope py_scope.
Delimit Scope py_scope with py.
Notation "x <- m ;; k" := (bind m (fun x => k))
  (at level 61, m at next level, right associativity) : py_scope.
Notation "m ;; k" := (bind m (fun _ => k))
  (at level 61, right associativity) : py_scope.

(** [for x in l: body(x)]. *)
Fixpoint for_each {S X} (l : list X) (body : X -> M S unit) : M S unit :=
  match l with
  | [] => ret tt
  | x :: l' => bind (body x) (fun _ => for_each l' body)
  end.

(** The truth value and the text of what [get_error] returned. *)
Definition error_truthy (error : option string) : bool :=
  match error with
  | Some e => str_truthy e
  | None => false
  end.

Definition error_str (error : option string) : string :=
  match error with
  | Some e => e
  | None => "None"
  end.

(** The nested loops of [get_available_testruns], over a plan that was
    fetched without error. *)
Fixpoint open_runs (runs : list json) : result (list Z) :=
  match runs with
  | [] => Ok []
  | run :: runs' =>
      rbind (getitem run "is_completed") (fun completed =>
      if negb (truthy completed) then
        rbind (rbind (getitem run "id") as_int) (fun id =>
        rbind (open_runs runs') (fun testruns_list =>
        Ok (id :: testruns_list)))
      else open_runs runs')
  end.

Fixpoint open_runs_of_entries (entries : list json) : result (list Z) :=
  match entries with
  | [] => Ok []
  | entry :: entries' =>
      rbind (rbind (getitem entry "runs") iter) (fun runs =>
      rbind (open_runs runs) (fun here =>
      rbind (open_runs_of_entries entries') (fun testruns_list =>
      Ok (here ++ testruns_list)%list)))
  end.

(** *** class PyTestRailPlugin *)

Module PyTestRailPlugin.

(** The attributes of the plugin object; [self.client] is the
    [client] of the world. *)
Record t : Type :=
  { assign_user_id : Z;
    cert_check : bool;
    project_id : Z;
    results : list Result;
    suite_id : Z;
    testrun_name : option string;
    testrun_id : Z;
    testplan_id : Z;
    version : string;
    add_skips : bool;
    milestone_id : Z;
    close_run : bool }.

(** [__init__], the defaults of the keyword arguments written out
    by the caller. *)
Definition init (assign_user_id project_id suite_id : Z) (cert_check : bool)
    (tr_name : option string) (run_id plan_id : Z) (version : string)
    (add_skips : bool) (milestone_id : Z) (close_run : bool) : t :=
  {| assign_user_id := assign_user_id;
     cert_check := cert_check;
     project_id := project_id;
     results := [];
     suite_id := suite_id;
     testrun_name := tr_name;
     testrun_id := run_id;
     testplan_id := plan_id;
     version := version;
     add_skips := add_skips;
     milestone_id := milestone_id;
     close_run := close_run |}.

(** Attribute assignments. *)
Definition with_testrun_id (v : Z) (self : t) : t :=
  {| assign_user_id := assign_user_id self; cert_check := cert_check self;
     project_id := project_id self; results := results self;
     suite_id := suite_id self; testrun_name := testrun_name self;
     testrun_id := v; testplan_id := testplan_id self;
     version := version self; add_skips := add_skips self;
     milestone_id := milestone_id self; close_run := close_run self |}.

Definition with_testplan_id (v : Z) (self : t) : t :=
  {| assign_user_id := assign_user_id self; cert_check := cert_check self;
     project_id := project_id self; results := results self;
     suite_id := suite_id self; testrun_name := testrun_name self;
     testrun_id := testrun_id self; testplan_id := v;
     version := version self; add_skips := add_skips self;
     milestone_id := milestone_id self; close_run := close_run self |}.

Definition with_testrun_name (v : option string) (self : t) : t :=
  {| assign_user_id := assign_user_id self; cert_check := cert_check self;
     project_id := project_id self; results := results self;
     suite_id := suite_id self; testrun_name := v;
     testrun_id := testrun_id self; testplan_id := testplan_id self;
     version := version self; add_skips := add_skips self;
     milestone_id := milestone_id self; close_run := close_run self |}.

Definition with_results (v : list Result) (self : t) : t :=
  {| assign_user_id := assign_user_id self; cert_check := cert_check self;
     project_id := project_id self; results := v;
     suite_id := suite_id self; testrun_name := testrun_name self;
     testrun_id := testrun_id self; testplan_id := testplan_id self;
     version := version self; add_skips := add_skips self;
     milestone_id := milestone_id self; close_run := close_run self |}.

(** [pytest_report_header]. *)
Definition pytest_report_header (self : t) : string :=
  "pytest-testrail: " ++
  (if negb (testplan_id self =? 0) then
     "existing testplan #" ++ str_int (testplan_id self) ++ " selected"
   else if negb (testrun_id self =? 0) then
     "existing testrun #" ++ str_int (testrun_id self) ++ " selected"
   else "a new testrun will be created").

(** The [comment] entry of a payload, for a comment that is not
    empty. *)
Definition comment_field (comment : string) : string :=
  ("# Pytest result: #" ++ nl)
  ++ (if (COMMENT_SIZE_LIMIT <? String.length comment)%nat
      then "Log truncated" ++ nl ++ "..." ++ nl else "")
  ++ ("    " ++ replace_char newline (nl ++ "    ")
                  (last_chars COMMENT_SIZE_LIMIT comment)).

(** The [elapsed] entry of a payload, for a duration that is not
    zero. *)
Definition elapsed_field (py : Py.version) (duration : Q) : string :=
  let duration := if Qltb duration 1 then 1 else int_round py duration in
  str_int duration ++ "s".

(** The dict [data] that the loop of [add_results] builds for one
    record. *)
Definition result_data (py : Py.version) (self : t) (result : Result) : ResultData :=
  {| data_status_id := status_id result;
     data_version := if str_truthy (version self) then Some (version self) else None;
     data_comment :=
       if str_truthy (comment result) then Some (comment_field (comment result))
       else None;
     data_elapsed :=
       if num_truthy (duration result) then Some (elapsed_field py (duration result))
       else None |}.

Section Methods.
Context {C : Type} {client_ops : Client C} (py : Py.version).
Local Open Scope py_scope.

(** The state of a session: the plugin object and the world. *)
Definition State : Type := (t * World C)%type.

Definition get_self : M State t := fun s => (Ok (fst s), s).

Definition set_self (f : t -> t) : M State unit :=
  fun s => (Ok tt, (f (fst s), snd s)).

Definition get_utcnow : M State datetime := fun s => (Ok (utcnow (snd s)), s).

Definition print (line : string) : M State unit :=
  fun s =>
    let w := snd s in
    (Ok tt, (fst s, {| client := client w;
                       stdout := stdout w ++ [line];
                       requests := requests w;
                       utcnow := utcnow w |})).

(** [self.client.send_get(url, cert_check=self.cert_check)]. *)
Definition client_send_get (url : string) : M State json :=
  fun s =>
    let w := snd s in
    let cert := cert_check (fst s) in
    let (response, c) := send_get (client w) url cert in
    (Ok response, (fst s, {| client := c;
                             stdout := stdout w;
                             requests := requests w ++ [Get url cert];
                             utcnow := utcnow w |})).

(** [self.client.send_post(url, data, cert_check=self.cert_check)]. *)
Definition client_send_post (url : string) (data : PostData) : M State json :=
  fun s =>
    let w := snd s in
    let cert := cert_check (fst s) in
    let (response, c) := send_post (client w) url data cert in
    (Ok response, (fst s, {| client := c;
                             stdout := stdout w;
                             requests := requests w ++ [Post url data cert];
                             utcnow := utcnow w |})).

(** [self.client.get_error(response)]. *)
Definition client_get_error (response : json) : M State (option string) :=
  fun s => (Ok (get_error (client (snd s)) response), s).

Definition add_result (test_ids : list Z) (status : Z) (comment : string)
    (duration : Q) : M State unit :=
  for_each test_ids (fun test_id =>
    let data := {| case_id := test_id; status_id := status;
                   comment := comment; duration := duration |} in
    set_self (fun self => with_results (results self ++ [data]) self)).

(** The body of the loop of [add_results], for one record. *)
Definition publish_result (testrun_id : Z) (result : Result) : M State unit :=
  self <- get_self ;;
  let data := result_data py self result in
  skip <- (if negb (add_skips self) then
             skipped <- lift (get_test_outcome "skipped") ;;
             ret (data_status_id data =? skipped)
           else ret false) ;;
  if skip : bool then ret tt
  else
    response <- client_send_post
                  (ADD_RESULT_URL testrun_id (case_id result)) (AddResult data) ;;
    error <- client_get_error response ;;
    if error_truthy error then
      print (tag ++ "Info: Testcase #" ++ str_int (case_id result)
             ++ " not published for following reason: "
             ++ dquote ++ error_str error ++ dquote)
    else ret tt.

Definition add_results (testrun_id : Z) : M State unit :=
  set_self (fun self => with_results (list_sort status_id (results self)) self) ;;
  set_self (fun self => with_results (list_sort case_id (results self)) self) ;;
  self <- get_self ;;
  for_each (results self) (publish_result testrun_id).

Definition create_test_run (assign_user_id project_id suite_id : Z)
    (testrun_name : string) (tr_keys : list Z) (milestone_id : Z) : M State unit :=
  let data := {| data_suite_id := suite_id;
                 data_name := testrun_name;
                 data_assignedto_id := assign_user_id;
                 data_include_all := false;
                 data_case_ids := tr_keys;
                 data_milestone_id := milestone_id |} in
  response <- client_send_post (ADD_TESTRUN_URL project_id) (AddRun data) ;;
  error <- client_get_error response ;;
  if error_truthy error then
    print (tag ++ "Failed to create testrun: " ++ dquote ++ error_str error ++ dquote)
  else
    id <- lift (rbind (getitem response "id") as_int) ;;
    set_self (with_testrun_id id) ;;
    self <- get_self ;;
    print (tag ++ "New testrun created with name " ++ dquote ++ testrun_name
           ++ dquote ++ " and ID=" ++ str_int (testrun_id self)).

Definition close_test_run : M State unit :=
  self <- get_self ;;
  response <- client_send_post (CLOSE_TESTRUN_URL (testrun_id self)) NoData ;;
  error <- client_get_error response ;;
  if error_truthy error then
    print (tag ++ "Failed to close testrun: " ++ dquote ++ error_str error ++ dquote)
  else
    id <- lift (rbind (getitem response "id") as_int) ;;
    set_self (with_testrun_id id) ;;
    self <- get_self ;;
    print (tag ++ "Testrun closed with ID=" ++ str_int (testrun_id self)).

Definition is_testrun_available : M State bool :=
  self <- get_self ;;
  response <- client_send_get (GET_TESTRUN_URL (testrun_id self)) ;;
  error <- client_get_error response ;;
  if error_truthy error then
    print (tag ++ "Failed to retrieve testrun: " ++ dquote ++ error_str error ++ dquote) ;;
    ret false
  else
    completed <- lift (getitem response "is_completed") ;;
    ret (is_False completed).

Definition is_testplan_available : M State bool :=
  self <- get_self ;;
  response <- client_send_get (GET_TESTPLAN_URL (testplan_id self)) ;;
  error <- client_get_error response ;;
  if error_truthy error then
    print (tag ++ "Failed to retrieve testplan: " ++ dquote ++ error_str error ++ dquote) ;;
    ret false
  else
    completed <- lift (getitem response "is_completed") ;;
    ret (is_False completed).

Definition is_milestone_available : M State bool :=
  self <- get_self ;;
  response <- client_send_get (GET_MILESTONE_URL (milestone_id self)) ;;
  error <- client_get_error response ;;
  if error_truthy error then
    print (tag ++ "Failed to retrieve milestone: " ++ dquote ++ error_str error ++ dquote) ;;
    ret false
  else
    completed <- lift (getitem response "is_completed") ;;
    ret (is_False completed).

Definition get_available_testruns (plan_id : Z) : M State (list Z) :=
  response <- client_send_get (GET_TESTPLAN_URL plan_id) ;;
  error <- client_get_error response ;;
  if error_truthy error then
    print (tag ++ "Failed to retrieve testplan: " ++ dquote ++ error_str error ++ dquote) ;;
    ret []
  else
    lift (rbind (rbind (getitem response "entries") iter) open_runs_of_entries).

(** [x and m]: [m] runs only when [x] is true. *)
Definition and_then (x : bool) (m : M State bool) : M State bool :=
  if x then m else ret false.

(** The attributes the two conditions read are those of the object at
    entry: the availability checks assign none. *)
Definition pytest_collection_modifyitems (items : list Item) : M State unit :=
  tr_keys <- lift (get_testrail_keys items) ;;
  self <- get_self ;;
  plan <- and_then (negb (testplan_id self =? 0)) is_testplan_available ;;
  if plan : bool then set_self (with_testrun_id 0)
  else
    run <- and_then (negb (testrun_id self =? 0)) is_testrun_available ;;
    if run : bool then set_self (with_testplan_id 0)
    else
      (match testrun_name self with
       | None =>
           now <- get_utcnow ;;
           set_self (with_testrun_name (Some (Plugin.testrun_name now)))
       | Some _ => ret tt
       end) ;;
      self <- get_self ;;
      create_test_run (assign_user_id self) (project_id self) (suite_id self)
        (match testrun_name self with Some name => name | None => "None" end)
        tr_keys (milestone_id self).

(** The truth value of [kwargs.get('ids')]. *)
Definition ids_truthy (ids : option (list string)) : bool :=
  match ids with
  | Some (_ :: _) => true
  | _ => false
  end.

(** [pytest_runtest_makereport]; [rep] is the report the wrapped
    hooks produced. *)
Definition pytest_runtest_makereport (item : Item) (rep : TestReport) : M State unit :=
  match get_marker item with
  | Some marker =>
      let testcaseids := kwargs_ids marker in
      if String.eqb (when rep) "call" && ids_truthy testcaseids then
        test_ids <- lift (clean_test_ids testcaseids) ;;
        status <- lift (get_test_outcome (outcome rep)) ;;
        add_result test_ids status (longrepr rep) (rep_duration rep)
      else ret tt
  | None => ret tt
  end.

Definition pytest_sessionfinish : M State unit :=
  print (tag ++ "Start publishing") ;;
  self <- get_self ;;
  (match results self with
   | _ :: _ =>
       let tests_list := map (fun result => str_int (case_id result)) (results self) in
       print (tag ++ "Testcases to publish: " ++ join ", " tests_list) ;;
       if negb (testrun_id self =? 0) then add_results (testrun_id self)
       else if negb (testplan_id self =? 0) then
         testruns <- get_available_testruns (testplan_id self) ;;
         print (tag ++ "Testruns to update: " ++ join ", " (map str_int testruns)) ;;
         for_each testruns add_results
       else print (tag ++ "No data published")
   | [] => ret tt
   end) ;;
  print (tag ++ "End publishing").

End Methods.

End PyTestRailPlugin.

End Plugin.

(** ** Vocabulary of the properties *)

Module Spec.
Import Py Plugin.

(** Every character is a decimal digit. *)
Fixpoint all_digits (s : string) : bool :=
  match s with
  | EmptyString => true
  | String c s' => is_digit c && all_digits s'
  end.

(** The trailing run of decimal digits of [s]: its longest suffix made
    of digits only, empty when [s] does not end in a digit. *)
Fixpoint trailing_digits (s : string) : string :=
  match s with
  | EmptyString => EmptyString
  | String c s' => if all_digits s then s else trailing_digits s'
  end.

(** [s] without its last character when that is a newline. *)
Fixpoint chomp (s : string) : string :=
  match s with
  | EmptyString => EmptyString
  | String c s' =>
      match s' with
      | EmptyString => if Ascii.eqb c newline then EmptyString else s
      | String _ _ => String c (chomp s')
      end
  end.

(** The number a run of decimal digits denotes. *)
Fixpoint decimal_value (d : string) : Z :=
  match d with
  | EmptyString => 0
  | String c d' => digit_value c * 10 ^ Z.of_nat (String.length d') + decimal_value d'
  end.

(** The lines of a text: the pieces between its newlines. *)
Fixpoint lines (s : string) : list string :=
  match s with
  | EmptyString => [EmptyString]
  | String c s' =>
      if Ascii.eqb c newline then EmptyString :: lines s'
      else
        match lines s' with
        | [] => [String c EmptyString]
        | l :: ls => String c l :: ls
        end
  end.

(** Every line of a text moved right by four spaces. *)
Definition indent (s : string) : string :=
  join nl (map (fun l => "    " ++ l) (lines s)).

Fixpoint has_newline (s : string) : bool :=
  match s with
  | EmptyString => false
  | String c s' => Ascii.eqb c newline || has_newline s'
  end.

Definition banner : string := "# Pytest result: #" ++ nl.
Definition truncation_marker : string := "Log truncated" ++ nl ++ "..." ++ nl.

(** The lines of a text with the first one behind [p] and the others
    behind four spaces. *)
Definition indent_after (p : string) (s : string) : string :=
  match lines s with
  | [] => p
  | l :: ls => join nl ((p ++ l) :: map (fun l => "    " ++ l) ls)
  end.

(** The order of the published records: by case id, and by status id
    among the records of one case. *)
Definition case_then_status (a b : Result) : Prop :=
  case_id a < case_id b \/ (case_id a = case_id b /\ status_id a <= status_id b).

(** The comparisons of the two passes. *)
Definition case_leb (a b : Result) : bool := case_id a <=? case_id b.
Definition status_leb (a b : Result) : bool := status_id a <=? status_id b.

(** The comparison of a single sort on the pair (case id, status id). *)
Definition composite_leb (a b : Result) : bool :=
  (case_id a <? case_id b) || ((case_id a =? case_id b) && (status_id a <=? status_id b)).

(** A record that [add_results] sends nothing for. *)
Definition suppressed (add_skips : bool) (r : Result) : bool :=
  negb add_skips && (status_id r =? 2).

(** The call [add_results] makes for a record it publishes to run
    [run]. *)
Definition submission (py : Py.version) (self : PyTestRailPlugin.t) (run : Z)
    (r : Result) : Request :=
  Post (ADD_RESULT_URL run (case_id r))
       (AddResult (PyTestRailPlugin.result_data py self r))
       (PyTestRailPlugin.cert_check self).

(** The calls for a list of records, in the order of the list. *)
Definition submissions (py : Py.version) (self : PyTestRailPlugin.t) (run : Z)
    (l : list Result) : list Request :=
  map (submission py self run)
      (filter (fun r => negb (suppressed (PyTestRailPlugin.add_skips self) r)) l).

(** The line printed when the client reports [error] for a record. *)
Definition not_published_line (r : Result) (error : string) : string :=
  tag ++ "Info: Testcase #" ++ str_int (case_id r)
  ++ " not published for following reason: " ++ dquote ++ error ++ dquote.

(** The records as [add_results] leaves them. *)
Definition sorted_results (l : list Result) : list Result :=
  list_sort case_id (list_sort status_id l).

Definition is_add_result (q : Request) : bool :=
  match q with
  | Post _ (AddResult _) _ => true
  | _ => false
  end.

Definition is_skipped_result (q : Request) : bool :=
  match q with
  | Post _ (AddResult d) _ => data_status_id d =? 2
  | _ => false
  end.

(** *** Run-target resolution *)

Section Resolution.
Context {C : Type} {client_ops : Client C}.

(** The entity at [url] is confirmed open: the fetch reports no error
    and the completion flag of the answer is [False]. *)
Definition confirmed_open (c : C) (url : string) (cert : bool) : bool :=
  let (response, c') := send_get c url cert in
  negb (error_truthy (get_error c' response))
  && match getitem response "is_completed" with
     | Ok completed => is_False completed
     | Raise _ => false
     end.

(** The entity at [url] is not available: the fetch reports an error, or
    the completion flag of the answer is something else than [False]. *)
Definition not_available (c : C) (url : string) (cert : bool) : bool :=
  let (response, c') := send_get c url cert in
  error_truthy (get_error c' response)
  || match getitem response "is_completed" with
     | Ok completed => negb (is_False completed)
     | Raise _ => false
     end.

(** [w'] is [w] after one fetch of [url], and maybe some printing. *)
Definition fetched (w w' : World C) (url : string) (cert : bool) : Prop :=
  requests w' = (requests w ++ [Get url cert])%list
  /\ client w' = snd (send_get (client w) url cert)
  /\ utcnow w' = utcnow w.

Definition plan_url (self : PyTestRailPlugin.t) : string :=
  GET_TESTPLAN_URL (PyTestRailPlugin.testplan_id self).
Definition run_url (self : PyTestRailPlugin.t) : string :=
  GET_TESTRUN_URL (PyTestRailPlugin.testrun_id self).

(** A plan id is configured and the plan is confirmed open. *)
Definition plan_selected (self : PyTestRailPlugin.t) (w : World C) : bool :=
  negb (PyTestRailPlugin.testplan_id self =? 0)
  && confirmed_open (client w) (plan_url self) (PyTestRailPlugin.cert_check self).

(** No plan id is configured, or the plan is not available. *)
Definition plan_rejected (self : PyTestRailPlugin.t) (w : World C) : bool :=
  (PyTestRailPlugin.testplan_id self =? 0)
  || not_available (client w) (plan_url self) (PyTestRailPlugin.cert_check self).

(** The client once the plan was looked at. *)
Definition client_after_plan (self : PyTestRailPlugin.t) (w : World C) : C :=
  if PyTestRailPlugin.testplan_id self =? 0 then client w
  else snd (send_get (client w) (plan_url self) (PyTestRailPlugin.cert_check self)).

Definition run_selected (self : PyTestRailPlugin.t) (w : World C) : bool :=
  negb (PyTestRailPlugin.testrun_id self =? 0)
  && confirmed_open (client_after_plan self w) (run_url self)
       (PyTestRailPlugin.cert_check self).

Definition run_rejected (self : PyTestRailPlugin.t) (w : World C) : bool :=
  (PyTestRailPlugin.testrun_id self =? 0)
  || not_available (client_after_plan self w) (run_url self)
       (PyTestRailPlugin.cert_check self).

(** The request that creates a run for the case ids [keys]. *)
Definition add_run_request (self : PyTestRailPlugin.t) (w : World C) (keys : list Z)
    : Request :=
  Post (ADD_TESTRUN_URL (PyTestRailPlugin.project_id self))
       (AddRun {| data_suite_id := PyTestRailPlugin.suite_id self;
                  data_name := match PyTestRailPlugin.testrun_name self with
                               | Some name => name
                               | None => testrun_name (utcnow w)
                               end;
                  data_assignedto_id := PyTestRailPlugin.assign_user_id self;
                  data_include_all := false;
                  data_case_ids := keys;
                  data_milestone_id := PyTestRailPlugin.milestone_id self |})
       (PyTestRailPlugin.cert_check self).

End Resolution.

(** The runs of a fetched plan that are not completed. *)
Definition open_runs_of_plan (response : json) : result (list Z) :=
  rbind (rbind (getitem response "entries") iter) open_runs_of_entries.

(** The target of the publisher: its run id and its plan id. *)
Definition target (self : PyTestRailPlugin.t) : Z * Z :=
  (PyTestRailPlugin.testrun_id self, PyTestRailPlugin.testplan_id self).

(** *** The world after a batch *)

Section Batch.
Context {C : Type} {client_ops : Client C}.

(** What one record of a batch for run [run] does to the world. Nothing
    when it is suppressed. Otherwise its submission is sent, and when the
    client reports an error for the answer, one line with the case id of
    the record and the error is printed. *)
Definition world_after_record (py : Py.version) (self : PyTestRailPlugin.t) (run : Z)
    (w : World C) (r : Result) : World C :=
  if suppressed (PyTestRailPlugin.add_skips self) r then w
  else
    let (response, c) :=
      send_post (client w) (ADD_RESULT_URL run (case_id r))
        (AddResult (PyTestRailPlugin.result_data py self r))
        (PyTestRailPlugin.cert_check self) in
    {| client := c;
       stdout := stdout w ++
                 (if error_truthy (get_error c response)
                  then [not_published_line r (error_str (get_error c response))]
                  else []);
       requests := requests w ++ [submission py self run r];
       utcnow := utcnow w |}.

(** The world after the records of a batch, one after the other. *)
Definition world_after_batch (py : Py.version) (self : PyTestRailPlugin.t) (run : Z)
    (l : list Result) (w : World C) : World C :=
  fold_left (world_after_record py self run) l w.

End Batch.

Definition is_get (q : Request) : bool :=
  match q with
  | Get _ _ => true
  | Post _ _ _ => false
  end.

Definition is_add_run (q : Request) : bool :=
  match q with
  | Post _ (AddRun _) _ => true
  | _ => false
  end.

(** The case ids a collected test declares. *)
Definition declared_ids (item : Item) : result (list Z) :=
  match get_marker item with
  | Some marker => clean_test_ids (kwargs_ids marker)
  | None => Ok []
  end.

End Spec.

(** ** A client for concrete sessions

    The remote service is a table from paths to answers; a path that is
    not in the table is answered with an error. The error of an answer is
    its [error] entry. *)

Module Fake.
Import Py Plugin.

Definition Server : Type := list (string * json).

Definition answer (srv : Server) (url : string) : json :=
  match assoc url srv with
  | Some response => response
  | None => JObj [("error", JStr "not found")]
  end.

Definition error_of (response : json) : option string :=
  match response with
  | JObj fields =>
      match assoc "error" fields with
      | Some (JStr e) => Some e
      | _ => None
      end
  | _ => None
  end.

#[global] Instance fake_client : Client Server :=
  {| send_get := fun srv url _ => (answer srv url, srv);
     send_post := fun srv url _ _ => (answer srv url, srv);
     get_error := fun _ => error_of |}.

Definition world (srv : Server) : World Server :=
  {| Plugin.client := srv;
     stdout := [];
     requests := [];
     utcnow := {| year := 2018; month := 3; day := 9;
                  hour := 14; minute := 5; second := 7 |} |}.

End Fake.

(** ** Concrete sessions *)

Module Scenario.
Import Py Plugin.

(** A plugin configured with a run id and a plan id. *)
Definition configured (run_id plan_id : Z) (add_skips : bool) : PyTestRailPlugin.t :=
  PyTestRailPlugin.init 42 1 2 true (Some "Nightly") run_id plan_id "1.0" add_skips 0 true.

Definition marked (ids : list string) : Item :=
  {| get_marker := Some {| kwargs_ids := Some ids |} |}.
Definition unmarked : Item := {| get_marker := None |}.

Definition items : list Item := [marked ["C1"; "C2"]; unmarked; marked ["C3"]].

Definition open_entity : json := JObj [("is_completed", JBool false)].
Definition closed_entity : json := JObj [("is_completed", JBool true)].

Definition run_entry (id : Z) (completed : bool) : json :=
  JObj [("id", JInt id); ("is_completed", JBool completed)].

(** Plan 5 is open, with the open runs 11 and 13 and the closed run 12;
    run 7 is open, run 8 is closed; runs can be created in project 1,
    the new run is 77. *)
Definition service : Fake.Server :=
  [("get_plan/5",
    JObj [("is_completed", JBool false);
          ("entries",
           JList [JObj [("runs", JList [run_entry 11 false; run_entry 12 true])];
                  JObj [("runs", JList [run_entry 13 false])]])]);
   ("get_run/7", open_entity);
   ("get_run/8", closed_entity);
   ("get_plan/6", closed_entity);
   ("add_run/1", JObj [("id", JInt 77)]);
   ("add_result_for_case/7/1", JObj []);
   ("add_result_for_case/8/1", JObj []);
   ("add_result_for_case/11/1", JObj []);
   ("add_result_for_case/13/1", JObj []);
   ("add_result_for_case/13/2", JObj [])].

(** The same service when it refuses to create runs. *)
Definition service_no_create : Fake.Server :=
  [("get_run/7", open_entity);
   ("get_run/8", closed_entity);
   ("get_plan/6", closed_entity);
   ("add_result_for_case/8/1", JObj [])].

Definition passed_report : TestReport :=
  {| when := "call"; outcome := "passed"; longrepr := ""; rep_duration := 3 # 10 |}.

(** A whole session with one test that declares case [C1] and passes. *)
Definition session (py : Py.version) : M (PyTestRailPlugin.State (C := Fake.Server)) unit :=
  bind (PyTestRailPlugin.pytest_collection_modifyitems [marked ["C1"]]) (fun _ =>
  bind (PyTestRailPlugin.pytest_runtest_makereport (marked ["C1"]) passed_report) (fun _ =>
  PyTestRailPlugin.pytest_sessionfinish py)).

Definition skipped_result : Result :=
  {| case_id := 1; status_id := 2; comment := "skipped"; duration := 0 |}.
Definition passed_result : Result :=
  {| case_id := 1; status_id := 1; comment := ""; duration := 3 # 10 |}.
Definition failed_result : Result :=
  {| case_id := 2; status_id := 5; comment := "assert 1 == 2"; duration := 26 # 10 |}.

(** A plugin that accumulated [l]. *)
Definition accumulated (run_id plan_id : Z) (add_skips : bool) (l : list Result)
    : PyTestRailPlugin.t :=
  PyTestRailPlugin.with_results l (configured run_id plan_id add_skips).

Fixpoint repeat_char (n : nat) (c : ascii) : string :=
  match n with
  | O => EmptyString
  | S n' => String c (repeat_char n' c)
  end.

(** A comment of 4001 characters whose second character is a newline. *)
Definition long_comment : string :=
  String "a" (String newline (repeat_char 3999 "a")).


End Scenario.

(** ** The decorators of plugin.py *)

(** [pytest.mark.testrail(ids=ids)]: the mark carries the tuple of ids. *)
Module pytestrail.
Definition case (ids : list string) : Plugin.Marker :=
  {| Plugin.kwargs_ids := Some ids |}.
End pytestrail.

Definition deprecation_msg : string :=
  "pytest_testrail: the @testrail decorator is deprecated and will be removed. "
  ++ "Please use the @pytestrail.case decorator instead.".

(** The deprecated decorator: the warning it issues, and the mark. *)
Definition testrail (ids : list string) : string * Plugin.Marker :=
  (deprecation_msg, pytestrail.case ids).

(** ** Vocabulary of the further properties *)

Module Vocabulary.
Import Py Plugin.

(** A test decorated with [@pytestrail.case] and the given ids. *)
Definition test_with_case (ids : list string) : Item :=
  {| get_marker := Some (pytestrail.case ids) |}.

(** The record [add_result] appends for one case id. *)
Definition record_for (status : Z) (text : string) (d : Q) (test_id : Z) : Result :=
  {| case_id := test_id; status_id := status; comment := text; duration := d |}.

(** The answer of [get_plan] for a plan with the given entries, each a
    list of runs with their id and completion flag. *)
Definition run_json (run : Z * bool) : json :=
  JObj [("id", JInt (fst run)); ("is_completed", JBool (snd run))].

Definition entry_json (runs : list (Z * bool)) : json :=
  JObj [("runs", JList (map run_json runs))].

Definition plan_json (completed : bool) (entries : list (list (Z * bool))) : json :=
  JObj [("is_completed", JBool completed); ("entries", JList (map entry_json entries))].

Fixpoint count_newlines (s : string) : nat :=
  match s with
  | EmptyString => O
  | String c s' => ((if Ascii.eqb c newline then 1 else 0) + count_newlines s')%nat
  end.

Fixpoint has_slash (s : string) : bool :=
  match s with
  | EmptyString => false
  | String c s' => Ascii.eqb c "/" || has_slash s'
  end.

Section Requests.
Context {C : Type} {client_ops : Client C}.

(** What a computation adds to the calls made so far: whatever the state
    it starts in, the calls are extended by requests that satisfy [P]. *)
Definition emits {A : Type} (P : Request -> Prop)
    (m : M (PyTestRailPlugin.State (C := C)) A) : Prop :=
  forall s, exists new,
    requests (snd (snd (m s))) = (requests (snd s) ++ new)%list /\ Forall P new.

End Requests.

(** Two plugin objects that differ at most in their run id, their plan
    id and their run name. *)
Definition same_but_target (a b : PyTestRailPlugin.t) : Prop :=
  PyTestRailPlugin.assign_user_id a = PyTestRailPlugin.assign_user_id b
  /\ PyTestRailPlugin.cert_check a = PyTestRailPlugin.cert_check b
  /\ PyTestRailPlugin.project_id a = PyTestRailPlugin.project_id b
  /\ PyTestRailPlugin.results a = PyTestRailPlugin.results b
  /\ PyTestRailPlugin.suite_id a = PyTestRailPlugin.suite_id b
  /\ PyTestRailPlugin.version a = PyTestRailPlugin.version b
  /\ PyTestRailPlugin.add_skips a = PyTestRailPlugin.add_skips b
  /\ PyTestRailPlugin.milestone_id a = PyTestRailPlugin.milestone_id b
  /\ PyTestRailPlugin.close_run a = PyTestRailPlugin.close_run b.

(** A computation that relates the plugin it ends with to the one it
    started with by [R], whatever the state it starts in. *)
Definition maintains {C : Type} {A : Type}
    (R : PyTestRailPlugin.t -> PyTestRailPlugin.t -> Prop)
    (m : M (PyTestRailPlugin.State (C := C)) A) : Prop :=
  forall s, R (fst s) (fst (snd (m s))).

(** The requests of the collection hook: a fetch of a plan or of a run,
    or the creation of a run. *)
Definition collection_request (q : Request) : Prop :=
  (exists plan cert, q = Get (GET_TESTPLAN_URL plan) cert)
  \/ (exists run cert, q = Get (GET_TESTRUN_URL run) cert)
  \/ (exists project data cert, q = Post (ADD_TESTRUN_URL project) (AddRun data) cert).

(** The requests of the session-finish hook: a fetch of a plan, or the
    submission of a result. *)
Definition finish_request (q : Request) : Prop :=
  (exists plan cert, q = Get (GET_TESTPLAN_URL plan) cert)
  \/ (exists run case data cert,
        q = Post (ADD_RESULT_URL run case) (AddResult data) cert).

End Vocabulary.

(** * Properties *)

Import Py Plugin Plugin.PyTestRailPlugin Spec.

(** ** Case-id extraction *)

Section CaseIds.

Lemma newline_not_digit : is_digit newline = false.
Proof. reflexivity. Qed.

Lemma all_digits_app (a b : string) :
  all_digits (a ++ b) = all_digits a && all_digits b.
Proof.
  induction a as [|c a IH]; simpl.
  - reflexivity.
  - rewrite IH. now rewrite andb_assoc.
Qed.

(** What a match of [[0-9]+$] at the start of [s] looks like: a run of
    digits that reaches the end of [s], or its final newline. *)
Lemma match_digits_dollar_sound (s m : string) :
  match_digits_dollar s = Some m ->
  all_digits m = true /\ m <> EmptyString /\ (s = m \/ s = m ++ nl).
Proof.
  revert m. induction s as [|c s IH]; simpl; intros m Hm.
  - discriminate.
  - destruct (is_digit c) eqn:Hc; [|discriminate].
    destruct (match_digits_dollar s) as [m'|] eqn:Hs.
    + injection Hm as <-. destruct (IH m' eq_refl) as (Hd & _ & Hs').
      simpl. rewrite Hc, Hd. repeat split; [discriminate|].
      destruct Hs' as [->| ->]; auto.
    + destruct (at_dollar s) eqn:Hat; [|discriminate].
      injection Hm as <-. simpl. rewrite Hc. repeat split; [discriminate|].
      destruct s as [|c' [|c'' s]]; simpl in Hat; try discriminate; auto.
      apply Ascii.eqb_eq in Hat. subst c'. now right.
Qed.

(** The greedy match takes a whole run of digits that ends the text. *)
Lemma match_digits_dollar_run (d : string) :
  all_digits d = true -> d <> EmptyString -> match_digits_dollar d = Some d.
Proof.
  induction d as [|c d IH]; simpl; intros Hd Hne.
  - congruence.
  - apply andb_true_iff in Hd as [Hc Hd]. rewrite Hc.
    destruct d as [|c' d].
    + reflexivity.
    + rewrite IH; [reflexivity|assumption|discriminate].
Qed.

Lemma match_digits_dollar_run_nl (d : string) :
  all_digits d = true -> d <> EmptyString -> match_digits_dollar (d ++ nl) = Some d.
Proof.
  induction d as [|c d IH]; simpl; intros Hd Hne.
  - congruence.
  - apply andb_true_iff in Hd as [Hc Hd]. rewrite Hc.
    destruct d as [|c' d].
    + reflexivity.
    + rewrite IH; [reflexivity|assumption|discriminate].
Qed.

Lemma trailing_digits_all (s : string) : all_digits (trailing_digits s) = true.
Proof.
  induction s as [|c s IH]; [reflexivity|].
  cbn [trailing_digits]. destruct (all_digits (String c s)) eqn:E; assumption.
Qed.

Lemma trailing_digits_nl (x : string) : trailing_digits (x ++ nl) = EmptyString.
Proof.
  induction x as [|c x IH].
  - reflexivity.
  - change (String c x ++ nl) with (String c (x ++ nl)).
    cbn [trailing_digits]. rewrite IH.
    change (String c (x ++ nl)) with (String c x ++ nl).
    rewrite all_digits_app. simpl. now rewrite andb_false_r.
Qed.

Lemma chomp_app_nl (x : string) : chomp (x ++ nl) = x.
Proof.
  induction x as [|c x IH]; [reflexivity|].
  simpl. simpl in IH. rewrite IH. destruct x; reflexivity.
Qed.

Lemma chomp_digits (s : string) :
  trailing_digits s <> EmptyString -> chomp s = s.
Proof.
  induction s as [|c s IH]; [reflexivity|].
  intros H. destruct s as [|c' s].
  - simpl in *. destruct (Ascii.eqb c newline) eqn:E; [|reflexivity].
    apply Ascii.eqb_eq in E. subst c. simpl in H. congruence.
  - change (chomp (String c (String c' s))) with (String c (chomp (String c' s))).
    f_equal. apply IH. intros E. apply H.
    cbn [trailing_digits]. cbn [trailing_digits] in E.
    destruct (all_digits (String c (String c' s))) eqn:A; [|exact E].
    simpl in A. apply andb_true_iff in A as [_ A]. simpl in E. rewrite A in E.
    discriminate.
Qed.

Lemma chomp_cases (s : string) : s = chomp s \/ s = chomp s ++ nl.
Proof.
  induction s as [|c s IH]; [now left|].
  destruct s as [|c' s].
  - simpl. destruct (Ascii.eqb c newline) eqn:E; [|now left].
    apply Ascii.eqb_eq in E. subst c. now right.
  - change (chomp (String c (String c' s))) with (String c (chomp (String c' s))).
    destruct IH as [IH|IH]; [left|right]; simpl; f_equal; exact IH.
Qed.

Lemma trailing_digits_id (d : string) : all_digits d = true -> trailing_digits d = d.
Proof.
  destruct d as [|c d]; [reflexivity|].
  intros H. cbn [trailing_digits]. now rewrite H.
Qed.

(** [re.search] finds the trailing run of digits of the text, looking
    past one final newline, and nothing else. *)
Lemma re_search_spec (s : string) :
  re_search s =
  match trailing_digits (chomp s) with
  | EmptyString => None
  | String c d => Some (String c d)
  end.
Proof.
  induction s as [|c s IH]; [reflexivity|].
  cbn [re_search].
  destruct (match_digits_dollar (String c s)) as [m|] eqn:Hm.
  - apply match_digits_dollar_sound in Hm as (Hd & Hne & Hs).
    assert (chomp (String c s) = m) as ->.
    { destruct Hs as [->| ->].
      - apply chomp_digits. now rewrite trailing_digits_id.
      - apply chomp_app_nl. }
    rewrite trailing_digits_id by assumption.
    destruct m; [congruence|reflexivity].
  - rewrite IH. destruct s as [|c' s].
    + simpl in Hm. simpl.
      destruct (is_digit c) eqn:Hc; [discriminate|].
      destruct (Ascii.eqb c newline); simpl; now rewrite ?Hc.
    + change (chomp (String c (String c' s))) with (String c (chomp (String c' s))).
      set (X := chomp (String c' s)) in *.
      cbn [trailing_digits].
      destruct (all_digits (String c X)) eqn:A; [|reflexivity].
      exfalso.
      assert (match_digits_dollar (String c (String c' s)) = Some (String c X)) as E.
      { destruct (chomp_cases (String c' s)) as [E|E]; fold X in E; rewrite E.
        - now apply match_digits_dollar_run.
        - now apply (match_digits_dollar_run_nl (String c X)). }
      congruence.
Qed.

Lemma int_digits_spec (d : string) (acc : Z) :
  all_digits d = true ->
  int_digits acc d = Ok (acc * 10 ^ Z.of_nat (String.length d) + decimal_value d).
Proof.
  revert acc. induction d as [|c d IH]; intros acc Hd.
  - simpl. f_equal. lia.
  - simpl in Hd. apply andb_true_iff in Hd as [Hc Hd].
    cbn [int_digits]. rewrite Hc, IH by assumption. f_equal.
    cbn [decimal_value String.length]. rewrite Nat2Z.inj_succ, Z.pow_succ_r by lia.
    ring.
Qed.

Lemma int_of_str_spec (d : string) :
  all_digits d = true -> d <> EmptyString -> int_of_str d = Ok (decimal_value d).
Proof.
  intros Hd Hne. destruct d as [|c d]; [congruence|].
  unfold int_of_str. rewrite int_digits_spec by assumption. f_equal.
Qed.

(** A text [re.search] does not match anywhere makes the whole list
    comprehension raise. *)
Lemma rmap_search_raises (ids : list string) (s : string) :
  In s ids -> re_search s = None -> rmap search_test_id ids = Raise AttributeError.
Proof.
  intros Hin Hs. induction ids as [|x ids IH]; [contradiction|].
  simpl. unfold search_test_id at 1.
  destruct (re_search x) eqn:Hx.
  - simpl. destruct Hin as [->|Hin]; [congruence|]. now rewrite IH.
  - reflexivity.
Qed.

End CaseIds.

(** ** The stable sort *)

Section StableSortFacts.
Context {A : Type} (leb : A -> A -> bool).
Hypothesis leb_total : forall a b, leb a b = true \/ leb b a = true.
Hypothesis leb_trans : forall a b c, leb a b = true -> leb b c = true -> leb a c = true.

Let le (a b : A) : Prop := leb a b = true.

Lemma insert_perm (x : A) (l : list A) : Permutation (insert leb x l) (x :: l).
Proof.
  induction l as [|y l IH]; simpl.
  - apply Permutation_refl.
  - destruct (leb x y).
    + apply Permutation_refl.
    + eapply perm_trans; [apply perm_skip, IH|apply perm_swap].
Qed.

Lemma stable_sort_perm (l : list A) : Permutation (stable_sort leb l) l.
Proof.
  induction l as [|x l IH]; simpl.
  - apply perm_nil.
  - eapply perm_trans; [apply insert_perm|apply perm_skip, IH].
Qed.

Lemma insert_sorted (x : A) (l : list A) :
  StronglySorted le l -> StronglySorted le (insert leb x l).
Proof.
  induction 1 as [|y l Hl IH Hy]; simpl.
  - repeat constructor.
  - destruct (leb x y) eqn:E.
    + constructor; [now constructor|].
      constructor; [exact E|].
      eapply Forall_impl; [|exact Hy]. intros z Hz. exact (leb_trans _ _ _ E Hz).
    + constructor; [exact IH|].
      eapply Permutation_Forall; [apply Permutation_sym, insert_perm|].
      constructor; [|exact Hy].
      destruct (leb_total x y) as [H|H]; [congruence|exact H].
Qed.

Lemma stable_sort_sorted (l : list A) : StronglySorted le (stable_sort leb l).
Proof.
  induction l as [|x l IH]; simpl.
  - constructor.
  - now apply insert_sorted.
Qed.

(** Stability: the elements with the key of [a] are in the result in
    the order they had. *)
Lemma insert_stable (a x : A) (l : list A) :
  filter (same_key leb a) (insert leb x l) = filter (same_key leb a) (x :: l).
Proof.
  induction l as [|y l IH]; [reflexivity|].
  cbn [insert]. destruct (leb x y) eqn:E; [reflexivity|].
  cbn [filter] in *. rewrite IH.
  destruct (same_key leb a x) eqn:Hx; [|reflexivity].
  destruct (same_key leb a y) eqn:Hy; [|reflexivity].
  exfalso. unfold same_key in Hx, Hy.
  apply andb_true_iff in Hx as [_ Hx]. apply andb_true_iff in Hy as [Hy _].
  rewrite (leb_trans _ _ _ Hx Hy) in E. discriminate.
Qed.

Lemma stable_sort_stable (a : A) (l : list A) :
  filter (same_key leb a) (stable_sort leb l) = filter (same_key leb a) l.
Proof.
  induction l as [|x l IH]; [reflexivity|].
  cbn [stable_sort fold_right]. rewrite insert_stable.
  cbn [filter]. fold (stable_sort leb l). now rewrite IH.
Qed.

Lemma same_key_refl (a : A) : same_key leb a a = true.
Proof.
  unfold same_key. destruct (leb_total a a) as [H|H]; now rewrite H.
Qed.

(** A sorted list is determined by the sublists of its keys: a stable
    sort has one possible result. *)
Lemma stable_sort_unique (l1 l2 : list A) :
  StronglySorted le l1 -> StronglySorted le l2 ->
  (forall a, filter (same_key leb a) l1 = filter (same_key leb a) l2) ->
  l1 = l2.
Proof.
  intros H1. revert l2. induction H1 as [|x l1 Hl1 IH Hx]; intros l2 H2 Hf.
  - destruct l2 as [|y l2]; [reflexivity|].
    specialize (Hf y). cbn [filter] in Hf. rewrite same_key_refl in Hf. discriminate.
  - destruct H2 as [|y l2 Hl2 Hy].
    + specialize (Hf x). cbn [filter] in Hf. rewrite same_key_refl in Hf. discriminate.
    + assert (same_key leb x y = true) as Hxy.
      { pose proof (Hf x) as Fx. pose proof (Hf y) as Fy.
        cbn [filter] in Fx, Fy. rewrite same_key_refl in Fx, Fy.
        unfold same_key. apply andb_true_iff. split.
    - destruct (same_key leb y x) eqn:E.
      + unfold same_key in E. now apply andb_true_iff in E as [_ E].
      + assert (In y (filter (same_key leb y) l1)) as Hin
          by (rewrite Fy; now left).
        apply filter_In in Hin as [Hin _].
        rewrite Forall_forall in Hx. exact (Hx y Hin).
    - destruct (same_key leb x y) eqn:E.
      + unfold same_key in E. now apply andb_true_iff in E as [_ E].
      + assert (In x (filter (same_key leb x) l2)) as Hin
          by (rewrite <- Fx; now left).
        apply filter_In in Hin as [Hin _].
        rewrite Forall_forall in Hy. exact (Hy x Hin). }
  assert (x = y) as <-.
      { pose proof (Hf x) as Fx. cbn [filter] in Fx.
        rewrite same_key_refl, Hxy in Fx. congruence. }
      f_equal. apply IH; [exact Hl2|].
      intros a. specialize (Hf a). cbn [filter] in Hf.
      destruct (same_key leb a x); congruence.
Qed.

(** Sorting a sorted list changes nothing. *)
Lemma stable_sort_sorted_id (l : list A) :
  StronglySorted le l -> stable_sort leb l = l.
Proof.
  intros H. apply stable_sort_unique.
  - apply stable_sort_sorted.
  - exact H.
  - intros a. apply stable_sort_stable.
Qed.

End StableSortFacts.

(** ** The two sort passes of [add_results] *)

Section TwoPasses.

Lemma composite_leb_iff (a b : Result) :
  composite_leb a b = true <-> case_then_status a b.
Proof.
  unfold composite_leb, case_then_status.
  rewrite orb_true_iff, andb_true_iff, Z.ltb_lt, Z.eqb_eq, Z.leb_le. tauto.
Qed.

Lemma case_leb_total a b : case_leb a b = true \/ case_leb b a = true.
Proof. unfold case_leb. rewrite !Z.leb_le. lia. Qed.

Lemma case_leb_trans a b c :
  case_leb a b = true -> case_leb b c = true -> case_leb a c = true.
Proof. unfold case_leb. rewrite !Z.leb_le. lia. Qed.

Lemma status_leb_total a b : status_leb a b = true \/ status_leb b a = true.
Proof. unfold status_leb. rewrite !Z.leb_le. lia. Qed.

Lemma status_leb_trans a b c :
  status_leb a b = true -> status_leb b c = true -> status_leb a c = true.
Proof. unfold status_leb. rewrite !Z.leb_le. lia. Qed.

Lemma composite_leb_total a b : composite_leb a b = true \/ composite_leb b a = true.
Proof. rewrite !composite_leb_iff. unfold case_then_status. lia. Qed.

Lemma composite_leb_trans a b c :
  composite_leb a b = true -> composite_leb b c = true -> composite_leb a c = true.
Proof. rewrite !composite_leb_iff. unfold case_then_status. lia. Qed.

Lemma same_key_composite (a b : Result) :
  same_key composite_leb a b = same_key status_leb a b && same_key case_leb a b.
Proof.
  unfold same_key, composite_leb, status_leb, case_leb.
  destruct (Z.ltb_spec (case_id a) (case_id b)), (Z.ltb_spec (case_id b) (case_id a)),
    (Z.eqb_spec (case_id a) (case_id b)), (Z.eqb_spec (case_id b) (case_id a)),
    (Z.leb_spec (case_id a) (case_id b)), (Z.leb_spec (case_id b) (case_id a)),
    (Z.leb_spec (status_id a) (status_id b)), (Z.leb_spec (status_id b) (status_id a));
    simpl; try reflexivity; lia.
Qed.

Lemma filter_andb {A} (f g : A -> bool) (l : list A) :
  filter (fun x => f x && g x) l = filter f (filter g l).
Proof.
  induction l as [|x l IH]; [reflexivity|].
  simpl. destruct (g x), (f x) eqn:F; simpl; rewrite ?F, IH; reflexivity.
Qed.

Lemma filter_comm {A} (f g : A -> bool) (l : list A) :
  filter f (filter g l) = filter g (filter f l).
Proof.
  rewrite <- !filter_andb. apply filter_ext. intros x. apply andb_comm.
Qed.

Lemma StronglySorted_filter_keep {A} (R : A -> A -> Prop) (f : A -> bool) (l : list A) :
  StronglySorted R l -> StronglySorted R (filter f l).
Proof.
  induction 1 as [|x l Hl IH Hx]; simpl; [constructor|].
  destruct (f x); [|exact IH].
  constructor; [exact IH|].
  rewrite Forall_forall in *. intros y Hy. apply filter_In in Hy as [Hy _]. auto.
Qed.

(** Both passes keep, for every record, the records of its case and
    status in the order they had. *)
Lemma two_passes_stable (a : Result) (l : list Result) :
  filter (same_key composite_leb a) (list_sort case_id (list_sort status_id l))
  = filter (same_key composite_leb a) l.
Proof.
  unfold list_sort.
  rewrite !(filter_ext _ _ (same_key_composite a)), !filter_andb.
  change (fun a0 b : Result => case_id a0 <=? case_id b) with case_leb.
  change (fun a0 b : Result => status_id a0 <=? status_id b) with status_leb.
  rewrite (stable_sort_stable case_leb case_leb_trans).
  rewrite (filter_comm _ _ (stable_sort status_leb l)).
  rewrite (stable_sort_stable status_leb status_leb_trans).
  apply filter_comm.
Qed.

(** A list in case order whose records of each case are in status order
    is in the order of the pair. *)
Lemma sorted_by_case_then_status (l : list Result) :
  StronglySorted (fun a b => case_leb a b = true) l ->
  (forall a, StronglySorted (fun a b => status_leb a b = true)
               (filter (same_key case_leb a) l)) ->
  StronglySorted case_then_status l.
Proof.
  induction 1 as [|x l Hl IH Hx]; intros Hf; [constructor|].
  constructor.
  - apply IH. intros a. specialize (Hf a). cbn [filter] in Hf.
    destruct (same_key case_leb a x); [now inversion Hf|exact Hf].
  - specialize (Hf x). cbn [filter] in Hf.
    rewrite (same_key_refl case_leb case_leb_total) in Hf.
    inversion Hf as [|? ? _ Hall]; subst.
    rewrite Forall_forall in *. intros y Hy.
    pose proof (Hx y Hy) as Hc. unfold case_leb in Hc. apply Z.leb_le in Hc.
    unfold case_then_status.
    destruct (Z.eq_dec (case_id x) (case_id y)) as [E|E]; [right|left; lia].
    split; [exact E|].
    assert (In y (filter (same_key case_leb x) l)) as Hin.
    { apply filter_In. split; [exact Hy|].
      unfold same_key, case_leb. rewrite E, Z.leb_refl. reflexivity. }
    specialize (Hall y Hin). unfold status_leb in Hall. now apply Z.leb_le.
Qed.

Lemma two_passes_sorted (l : list Result) :
  StronglySorted case_then_status (list_sort case_id (list_sort status_id l)).
Proof.
  apply sorted_by_case_then_status.
  - apply (stable_sort_sorted case_leb case_leb_total case_leb_trans).
  - intros a. unfold list_sort.
    change (fun a0 b : Result => case_id a0 <=? case_id b) with case_leb.
    rewrite (stable_sort_stable case_leb case_leb_trans).
    apply StronglySorted_filter_keep.
    apply (stable_sort_sorted status_leb status_leb_total status_leb_trans).
Qed.

Lemma two_passes_perm (l : list Result) :
  Permutation (list_sort case_id (list_sort status_id l)) l.
Proof.
  unfold list_sort.
  eapply perm_trans; apply stable_sort_perm.
Qed.

Lemma StronglySorted_composite (l : list Result) :
  StronglySorted case_then_status l ->
  StronglySorted (fun a b => composite_leb a b = true) l.
Proof.
  induction 1 as [|x l Hl IH Hx]; constructor; [exact IH|].
  eapply Forall_impl; [|exact Hx]. intros y. apply composite_leb_iff.
Qed.

(** The two passes are one stable sort on the pair (case id, status id). *)
Lemma two_passes_composite (l : list Result) :
  list_sort case_id (list_sort status_id l) = stable_sort composite_leb l.
Proof.
  apply (stable_sort_unique composite_leb composite_leb_total).
  - apply StronglySorted_composite, two_passes_sorted.
  - apply (stable_sort_sorted composite_leb composite_leb_total composite_leb_trans).
  - intros a. rewrite two_passes_stable.
    symmetry. apply (stable_sort_stable composite_leb composite_leb_trans).
Qed.

(** Sorting again changes nothing. *)
Lemma two_passes_idempotent (l : list Result) :
  let sorted := list_sort case_id (list_sort status_id l) in
  list_sort case_id (list_sort status_id sorted) = sorted.
Proof.
  intros sorted. rewrite two_passes_composite.
  apply (stable_sort_sorted_id composite_leb composite_leb_total composite_leb_trans).
  apply StronglySorted_composite, two_passes_sorted.
Qed.

End TwoPasses.

(** ** Publishing a batch *)

Section Publishing.
Context {C : Type} {client_ops : Client C} (py : Py.version).

Lemma result_data_with_results (l : list Result) (self : t) (r : Result) :
  result_data py (with_results l self) r = result_data py self r.
Proof. reflexivity. Qed.

Lemma submissions_with_results (l l' : list Result) (self : t) (run : Z) :
  submissions py (with_results l self) run l' = submissions py self run l'.
Proof. reflexivity. Qed.

(** One turn of the loop: nothing at all for a suppressed record; else
    one call, and one printed line when the client reports an error. The
    plugin object is not touched and nothing is raised. *)
Lemma publish_result_spec (run : Z) (r : Result) (self : t) (w : World C) :
  publish_result py run r (self, w) =
  if suppressed (add_skips self) r then (Ok tt, (self, w))
  else
    let (response, c) :=
      send_post (client w) (ADD_RESULT_URL run (case_id r))
                (AddResult (result_data py self r)) (cert_check self) in
    (Ok tt,
     (self,
      {| client := c;
         stdout := stdout w ++
                   (if error_truthy (get_error c response)
                    then [not_published_line r (error_str (get_error c response))]
                    else []);
         requests := requests w ++ [submission py self run r];
         utcnow := utcnow w |})).
Proof.
  unfold publish_result, suppressed, bind, get_self, ret, lift, client_send_post,
    client_get_error, print, submission, not_published_line.
  cbn [fst snd].
  destruct (add_skips self); cbn [negb andb get_test_outcome assoc
    PYTEST_TO_TESTRAIL_STATUS String.eqb Ascii.eqb Bool.eqb data_status_id result_data].
  - destruct (send_post _ _ _ _) as [response c]. cbn [fst snd client stdout requests utcnow].
    destruct (error_truthy (get_error c response)).
    + reflexivity.
    + rewrite app_nil_r. reflexivity.
  - destruct (status_id r =? 2); [destruct w; reflexivity|].
    destruct (send_post _ _ _ _) as [response c]. cbn [fst snd client stdout requests utcnow].
    destruct (error_truthy (get_error c response)).
    + reflexivity.
    + rewrite app_nil_r. reflexivity.
Qed.

(** The loop over a batch: every record that is not suppressed is
    submitted, in order, whatever the client answers. *)
Lemma publish_loop_spec (run : Z) (l : list Result) (self : t) (w : World C) :
  exists w',
    for_each l (publish_result py run) (self, w) = (Ok tt, (self, w'))
    /\ requests w' = (requests w ++ submissions py self run l)%list
    /\ utcnow w' = utcnow w.
Proof.
  revert w. induction l as [|r l IH]; intros w.
  - exists w. cbn. rewrite app_nil_r. auto.
  - cbn [for_each]. unfold bind at 1. rewrite publish_result_spec.
    unfold submissions. cbn [filter].
    destruct (suppressed (add_skips self) r); cbn [negb].
    + apply IH.
    + destruct (send_post _ _ _ _) as [response c].
      destruct (IH {| client := c;
                      stdout := stdout w ++
                        (if error_truthy (get_error c response)
                         then [not_published_line r (error_str (get_error c response))]
                         else []);
                      requests := requests w ++ [submission py self run r];
                      utcnow := utcnow w |}) as (w' & E & Hr & Hu).
      exists w'. split; [exact E|]. split; [|exact Hu].
      rewrite Hr. cbn [requests map]. rewrite <- app_assoc. reflexivity.
Qed.

Lemma add_results_spec (run : Z) (self : t) (w : World C) :
  exists w',
    add_results py run (self, w)
    = (Ok tt, (with_results (sorted_results (results self)) self, w'))
    /\ requests w'
       = (requests w ++ submissions py self run (sorted_results (results self)))%list
    /\ utcnow w' = utcnow w.
Proof.
  unfold add_results, bind at 1 2 3, set_self, get_self. cbn [fst snd].
  destruct (publish_loop_spec run (sorted_results (results self))
              (with_results (sorted_results (results self)) self) w)
    as (w' & E & Hr & Hu).
  exists w'. split; [|split; [exact Hr|exact Hu]].
  exact E.
Qed.

End Publishing.

(** ** The comment of a payload *)

Section Comments.

Lemma append_assoc (a b c : string) : (a ++ b) ++ c = a ++ (b ++ c).
Proof. induction a as [|x a IH]; simpl; [reflexivity|now rewrite IH]. Qed.

Lemma append_nil_r (a : string) : a ++ "" = a.
Proof. induction a as [|x a IH]; simpl; [reflexivity|now rewrite IH]. Qed.

Lemma append_length (a b : string) :
  String.length (a ++ b) = (String.length a + String.length b)%nat.
Proof. induction a as [|x a IH]; simpl; [reflexivity|now rewrite IH]. Qed.

Lemma lines_nonempty (s : string) : lines s <> [].
Proof.
  induction s as [|c s IH]; simpl; [discriminate|].
  destruct (Ascii.eqb c newline); [discriminate|].
  destruct (lines s); discriminate.
Qed.

Lemma indent_after_spaces (s : string) : indent_after "    " s = indent s.
Proof.
  unfold indent_after, indent. destruct (lines s) eqn:E; [|reflexivity].
  now apply lines_nonempty in E.
Qed.

(** The code's [replace] puts the four spaces where the lines start. *)
Lemma replace_indent_after (p s : string) :
  p ++ replace_char newline (nl ++ "    ") s = indent_after p s.
Proof.
  revert p. induction s as [|c s IH]; intros p.
  - reflexivity.
  - unfold indent_after. cbn [replace_char lines].
    destruct (Ascii.eqb c newline) eqn:E.
    + specialize (IH "    "). rewrite indent_after_spaces in IH. unfold indent in IH.
      rewrite append_assoc, IH. unfold join. cbn [String.concat].
      destruct (lines s) as [|l ls] eqn:L; [now apply lines_nonempty in L|].
      cbn [map]. rewrite append_nil_r. reflexivity.
    + specialize (IH (p ++ String c "")). unfold indent_after in IH.
      destruct (lines s) as [|l ls] eqn:L; [now apply lines_nonempty in L|].
      transitivity ((p ++ String c "") ++ replace_char newline (nl ++ "    ") s).
      * now rewrite append_assoc.
      * rewrite IH, append_assoc. reflexivity.
Qed.

Lemma comment_field_spec (c : string) :
  comment_field c =
  banner ++ (if (COMMENT_SIZE_LIMIT <? String.length c)%nat then truncation_marker else "")
  ++ indent (last_chars COMMENT_SIZE_LIMIT c).
Proof.
  unfold comment_field. rewrite replace_indent_after, indent_after_spaces. reflexivity.
Qed.

Lemma drop_all (n : nat) (s : string) :
  (n <= String.length s)%nat ->
  exists pre, s = pre ++ drop n s /\ String.length pre = n.
Proof.
  revert s. induction n as [|n IH]; intros s Hn.
  - exists "". auto.
  - destruct s as [|c s]; simpl in Hn; [lia|].
    destruct (IH s) as (pre & E & L); [lia|].
    exists (String c pre). simpl. split; [now rewrite <- E|now rewrite L].
Qed.

(** [last_chars n s] is the suffix of [s] of length [n]. *)
Lemma last_chars_suffix (n : nat) (s : string) :
  (n <= String.length s)%nat ->
  exists pre, s = pre ++ last_chars n s /\ String.length (last_chars n s) = n.
Proof.
  intros Hn. unfold last_chars.
  destruct (drop_all (String.length s - n) s) as (pre & E & L); [lia|].
  exists pre. split; [exact E|].
  apply (f_equal String.length) in E. rewrite append_length in E. lia.
Qed.

Lemma last_chars_short (n : nat) (s : string) :
  (String.length s <= n)%nat -> last_chars n s = s.
Proof.
  intros H. unfold last_chars. replace (String.length s - n)%nat with O by lia.
  reflexivity.
Qed.

Lemma drop_app (a b : string) : drop (String.length a) (a ++ b) = b.
Proof. induction a as [|x a IH]; simpl; [reflexivity|exact IH]. Qed.

Lemma last_chars_app (a b : string) : last_chars (String.length b) (a ++ b) = b.
Proof.
  unfold last_chars. rewrite append_length.
  replace (String.length a + String.length b - String.length b)%nat
    with (String.length a) by lia.
  apply drop_app.
Qed.

Lemma lines_one (s : string) : has_newline s = false -> lines s = [s].
Proof.
  induction s as [|c s IH]; simpl; [reflexivity|].
  destruct (Ascii.eqb c newline); simpl; [discriminate|].
  intros H. now rewrite IH.
Qed.

Lemma indent_one_line (s : string) : has_newline s = false -> indent s = "    " ++ s.
Proof. intros H. unfold indent. now rewrite lines_one. Qed.

End Comments.

(** ** The elapsed time of a payload *)

Section Elapsed.
Local Open Scope Q_scope.

Lemma inject_Z_succ (n : Z) : inject_Z (n + 1) == inject_Z n + 1.
Proof. rewrite inject_Z_plus. reflexivity. Qed.

Lemma inject_Z_pred (n : Z) : inject_Z (n - 1) == inject_Z n - 1.
Proof. unfold Z.sub. rewrite inject_Z_plus, inject_Z_opp. reflexivity. Qed.

Lemma round_half_away_nearest (x : Q) :
  inject_Z (round_half_away x) - (1 # 2) <= x
  /\ x <= inject_Z (round_half_away x) + (1 # 2).
Proof.
  unfold round_half_away. destruct (Qle_bool 0 x).
  - pose proof (Qfloor_le (x + (1 # 2))) as L.
    pose proof (Qlt_floor (x + (1 # 2))) as U.
    rewrite inject_Z_succ in U. split; lra.
  - pose proof (Qle_ceiling (x - (1 # 2))) as U.
    pose proof (Qceiling_lt (x - (1 # 2))) as L.
    rewrite inject_Z_pred in L. split; lra.
Qed.

Lemma round_half_even_nearest (x : Q) :
  inject_Z (round_half_even x) - (1 # 2) <= x
  /\ x <= inject_Z (round_half_even x) + (1 # 2).
Proof.
  unfold round_half_even.
  pose proof (Qfloor_le x) as L. pose proof (Qlt_floor x) as U.
  rewrite inject_Z_succ in U.
  destruct (Qcompare (x - inject_Z (Qfloor x)) (1 # 2)) eqn:E.
  - apply Qeq_alt in E.
    destruct (Z.even (Qfloor x)); rewrite ?inject_Z_succ; split; lra.
  - apply Qlt_alt in E. split; lra.
  - apply Qgt_alt in E. rewrite inject_Z_succ. split; lra.
Qed.

Lemma int_round_nearest (py : Py.version) (x : Q) :
  inject_Z (int_round py x) - (1 # 2) <= x
  /\ x <= inject_Z (int_round py x) + (1 # 2).
Proof.
  destruct py; [apply round_half_away_nearest|apply round_half_even_nearest].
Qed.

Lemma int_round_ge_1 (py : Py.version) (x : Q) : 1 <= x -> (1 <= int_round py x)%Z.
Proof.
  intros H. destruct (int_round_nearest py x) as [_ U].
  assert (inject_Z 0 < inject_Z (int_round py x)) as P
    by (change (inject_Z 0) with 0%Q; lra).
  rewrite <- Zlt_Qlt in P. lia.
Qed.

Lemma Qltb_lt (x y : Q) : Qltb x y = true <-> x < y.
Proof.
  unfold Qltb. rewrite negb_true_iff. split.
  - intros H. apply Qnot_le_lt. intros L. apply Qle_bool_iff in L. congruence.
  - intros H. destruct (Qle_bool y x) eqn:E; [|reflexivity].
    apply Qle_bool_iff in E. lra.
Qed.


End Elapsed.

(** ** Resolving the run target *)

Section ResolutionFacts.
Context {C : Type} {client_ops : Client C} (py : Py.version).

Lemma is_testplan_available_open (self : t) (w : World C) :
  confirmed_open (client w) (plan_url self) (cert_check self) = true ->
  exists w', is_testplan_available (self, w) = (Ok true, (self, w'))
             /\ fetched w w' (plan_url self) (cert_check self).
Proof.
  unfold confirmed_open, is_testplan_available, bind, get_self, client_send_get,
    client_get_error, print, ret, lift, fetched, plan_url. cbn [fst snd].
  destruct (send_get _ _ _) as [response c]. cbn [fst snd client].
  destruct (error_truthy (get_error c response)); cbn [negb andb]; [discriminate|].
  destruct (getitem response "is_completed") as [v|e]; [|discriminate].
  intros ->. eexists. split; [reflexivity|]. cbn. auto.
Qed.

Lemma is_testplan_available_closed (self : t) (w : World C) :
  not_available (client w) (plan_url self) (cert_check self) = true ->
  exists w', is_testplan_available (self, w) = (Ok false, (self, w'))
             /\ fetched w w' (plan_url self) (cert_check self).
Proof.
  unfold not_available, is_testplan_available, bind, get_self, client_send_get,
    client_get_error, print, ret, lift, fetched, plan_url. cbn [fst snd].
  destruct (send_get _ _ _) as [response c]. cbn [fst snd client].
  destruct (error_truthy (get_error c response)); cbn [orb].
  - intros _. eexists. split; [reflexivity|]. cbn. auto.
  - destruct (getitem response "is_completed") as [v|e]; [|discriminate].
    intros H. apply negb_true_iff in H. rewrite H.
    eexists. split; [reflexivity|]. cbn. auto.
Qed.

Lemma is_testrun_available_open (self : t) (w : World C) :
  confirmed_open (client w) (run_url self) (cert_check self) = true ->
  exists w', is_testrun_available (self, w) = (Ok true, (self, w'))
             /\ fetched w w' (run_url self) (cert_check self).
Proof.
  unfold confirmed_open, is_testrun_available, bind, get_self, client_send_get,
    client_get_error, print, ret, lift, fetched, run_url. cbn [fst snd].
  destruct (send_get _ _ _) as [response c]. cbn [fst snd client].
  destruct (error_truthy (get_error c response)); cbn [negb andb]; [discriminate|].
  destruct (getitem response "is_completed") as [v|e]; [|discriminate].
  intros ->. eexists. split; [reflexivity|]. cbn. auto.
Qed.

Lemma is_testrun_available_closed (self : t) (w : World C) :
  not_available (client w) (run_url self) (cert_check self) = true ->
  exists w', is_testrun_available (self, w) = (Ok false, (self, w'))
             /\ fetched w w' (run_url self) (cert_check self).
Proof.
  unfold not_available, is_testrun_available, bind, get_self, client_send_get,
    client_get_error, print, ret, lift, fetched, run_url. cbn [fst snd].
  destruct (send_get _ _ _) as [response c]. cbn [fst snd client].
  destruct (error_truthy (get_error c response)); cbn [orb].
  - intros _. eexists. split; [reflexivity|]. cbn. auto.
  - destruct (getitem response "is_completed") as [v|e]; [|discriminate].
    intros H. apply negb_true_iff in H. rewrite H.
    eexists. split; [reflexivity|]. cbn. auto.
Qed.

(** [create_test_run] posts the run once, with the case ids it was
    given, and never touches the plan id. *)
Lemma create_test_run_spec (a p u : Z) (name : string) (keys : list Z) (m : Z)
    (self : t) (w : World C) :
  exists r self' w',
    create_test_run a p u name keys m (self, w) = (r, (self', w'))
    /\ requests w'
       = (requests w ++
          [Post (ADD_TESTRUN_URL p)
             (AddRun {| data_suite_id := u; data_name := name;
                        data_assignedto_id := a; data_include_all := false;
                        data_case_ids := keys; data_milestone_id := m |})
             (cert_check self)])%list
    /\ testplan_id self' = testplan_id self
    /\ results self' = results self.
Proof.
  unfold create_test_run, bind, get_self, set_self, client_send_post,
    client_get_error, print, ret, lift. cbn [fst snd].
  destruct (send_post _ _ _ _) as [response c]. cbn [fst snd client].
  destruct (error_truthy (get_error c response)).
  - do 3 eexists. split; [reflexivity|]. cbn. auto.
  - destruct (rbind (getitem response "id") as_int) as [id|e].
    + do 3 eexists. split; [reflexivity|]. cbn. auto.
    + do 3 eexists. split; [reflexivity|]. cbn. auto.
Qed.

Lemma collection_selects_plan (items : list Item) (keys : list Z) (self : t)
    (w : World C) :
  get_testrail_keys items = Ok keys ->
  plan_selected self w = true ->
  exists w',
    pytest_collection_modifyitems items (self, w) = (Ok tt, (with_testrun_id 0 self, w'))
    /\ requests w' = (requests w ++ [Get (plan_url self) (cert_check self)])%list.
Proof.
  intros Hk Hp. unfold plan_selected in Hp. apply andb_true_iff in Hp as [Hid Hopen].
  destruct (is_testplan_available_open self w Hopen) as (w' & E & Hr & _).
  exists w'. split; [|exact Hr].
  unfold pytest_collection_modifyitems, bind, lift, get_self, and_then, set_self.
  rewrite Hk. cbn [fst snd]. rewrite Hid, E. reflexivity.
Qed.

Lemma plan_step (self : t) (w : World C) :
  plan_rejected self w = true ->
  exists w1 fetches,
    and_then (negb (testplan_id self =? 0)) is_testplan_available (self, w)
    = (Ok false, (self, w1))
    /\ requests w1 = (requests w ++ fetches)%list
    /\ forallb is_get fetches = true
    /\ client w1 = client_after_plan self w
    /\ utcnow w1 = utcnow w.
Proof.
  unfold plan_rejected, client_after_plan, and_then. intros H.
  destruct (testplan_id self =? 0) eqn:Hid; cbn [negb orb] in *.
  - exists w, []. unfold ret. rewrite app_nil_r. auto.
  - destruct (is_testplan_available_closed self w H) as (w1 & E & Hr & Hc & Hu).
    exists w1, [Get (plan_url self) (cert_check self)]. auto.
Qed.

Lemma collection_selects_run (items : list Item) (keys : list Z) (self : t)
    (w : World C) :
  get_testrail_keys items = Ok keys ->
  plan_rejected self w = true ->
  run_selected self w = true ->
  exists w',
    pytest_collection_modifyitems items (self, w) = (Ok tt, (with_testplan_id 0 self, w'))
    /\ filter is_add_run (requests w') = filter is_add_run (requests w).
Proof.
  intros Hk Hp Hr. unfold run_selected in Hr. apply andb_true_iff in Hr as [Hid Hopen].
  destruct (plan_step self w Hp) as (w1 & f1 & E1 & R1 & G1 & C1 & _).
  rewrite <- C1 in Hopen.
  destruct (is_testrun_available_open self w1 Hopen) as (w' & E & R & _).
  exists w'. split.
  - unfold pytest_collection_modifyitems, bind at 1, lift at 1. rewrite Hk.
    unfold bind at 1, get_self at 1. cbn [fst snd].
    unfold bind at 1. rewrite E1.
    unfold bind at 1. unfold and_then. rewrite Hid, E. reflexivity.
  - rewrite R, R1, !filter_app. cbn [filter is_add_run]. rewrite !app_nil_r.
    replace (filter is_add_run f1) with (@nil Request); [now rewrite app_nil_r|].
    clear -G1. induction f1 as [|q f1 IH]; [reflexivity|].
    cbn [forallb] in G1. apply andb_true_iff in G1 as [Hq G1].
    cbn [filter]. destruct q; [|discriminate]. cbn [is_add_run]. auto.
Qed.

Lemma run_step (self : t) (w1 : World C) :
  (testrun_id self =? 0) || not_available (client w1) (run_url self) (cert_check self)
  = true ->
  exists w2 fetches,
    and_then (negb (testrun_id self =? 0)) is_testrun_available (self, w1)
    = (Ok false, (self, w2))
    /\ requests w2 = (requests w1 ++ fetches)%list
    /\ forallb is_get fetches = true
    /\ utcnow w2 = utcnow w1.
Proof.
  unfold and_then. intros H.
  destruct (testrun_id self =? 0) eqn:Hid; cbn [negb orb] in *.
  - exists w1, []. unfold ret. rewrite app_nil_r. auto.
  - destruct (is_testrun_available_closed self w1 H) as (w2 & E & Hr & Hc & Hu).
    exists w2, [Get (run_url self) (cert_check self)]. auto.
Qed.

Lemma collection_creates_run (items : list Item) (keys : list Z) (self : t)
    (w : World C) :
  get_testrail_keys items = Ok keys ->
  plan_rejected self w = true ->
  run_rejected self w = true ->
  exists r self' w' fetches,
    pytest_collection_modifyitems items (self, w) = (r, (self', w'))
    /\ requests w' = (requests w ++ fetches ++ [add_run_request self w keys])%list
    /\ forallb is_get fetches = true
    /\ testplan_id self' = testplan_id self.
Proof.
  intros Hk Hp Hr.
  destruct (plan_step self w Hp) as (w1 & f1 & E1 & R1 & G1 & C1 & U1).
  unfold run_rejected in Hr. rewrite <- C1 in Hr.
  destruct (run_step self w1 Hr) as (w2 & f2 & E2 & R2 & G2 & U2).
  unfold pytest_collection_modifyitems, bind at 1, lift at 1. rewrite Hk.
  unfold bind at 1, get_self at 1. cbn [fst snd].
  unfold bind at 1. rewrite E1.
  unfold bind at 1. rewrite E2.
  unfold bind at 1.
  set (name := match testrun_name self with
               | Some name => name
               | None => Plugin.testrun_name (utcnow w)
               end).
  assert (exists self2,
            (match testrun_name self with
             | Some _ => ret tt
             | None => bind get_utcnow (fun now =>
                         set_self (with_testrun_name (Some (Plugin.testrun_name now))))
             end) (self, w2) = (Ok tt, (self2, w2))
            /\ match testrun_name self2 with Some n => n | None => "None" end = name
            /\ assign_user_id self2 = assign_user_id self
            /\ project_id self2 = project_id self
            /\ suite_id self2 = suite_id self
            /\ milestone_id self2 = milestone_id self
            /\ cert_check self2 = cert_check self
            /\ testplan_id self2 = testplan_id self) as (self2 & E3 & N & A & P & S & M & K & T).
  { subst name. destruct (testrun_name self) as [n|] eqn:Hn.
    - exists self. rewrite Hn. unfold ret. auto 10.
    - eexists. unfold bind, get_utcnow, set_self. cbn [fst snd].
      split; [reflexivity|]. cbn. rewrite U2, U1. auto 10. }
  rewrite E3. unfold bind at 1, get_self at 1. cbn [fst snd].
  rewrite N, A, P, S, M.
  destruct (create_test_run_spec (assign_user_id self) (project_id self) (suite_id self)
              name keys (milestone_id self) self2 w2) as (r & self' & w' & E4 & R4 & T4 & _).
  exists r, self', w', (f1 ++ f2)%list. split; [exact E4|].
  split; [|split].
  - rewrite R4, R2, R1, K, <- !app_assoc. reflexivity.
  - rewrite forallb_app, G1, G2. reflexivity.
  - now rewrite T4.
Qed.

(** The keys of the collected tests are the declared ids of each test,
    one test after the other. *)
Lemma get_testrail_keys_concat (items : list Item) (keys : list Z) :
  get_testrail_keys items = Ok keys ->
  exists idss,
    Forall2 (fun item ids => declared_ids item = Ok ids) items idss
    /\ keys = List.concat idss.
Proof.
  revert keys. induction items as [|item items IH]; intros keys H.
  - injection H as <-. exists []. split; [constructor|reflexivity].
  - cbn [get_testrail_keys] in H.
    destruct (get_marker item) as [marker|] eqn:Hm.
    + destruct (clean_test_ids (kwargs_ids marker)) as [ids|e] eqn:Hc; [|discriminate].
      cbn [rbind] in H. destruct (get_testrail_keys items) as [rest|e]; [|discriminate].
      injection H as <-. destruct (IH rest eq_refl) as (idss & F & ->).
      exists (ids :: idss). split; [|reflexivity].
      constructor; [|exact F]. unfold declared_ids. now rewrite Hm.
    + destruct (IH keys H) as (idss & F & ->).
      exists ([] :: idss). split; [|reflexivity].
      constructor; [|exact F]. unfold declared_ids. now rewrite Hm.
Qed.

End ResolutionFacts.

(** * The claims *)

(** C9, amended. For every list of case-id strings that each end in a
    run of decimal digits, or in such a run followed by one final newline,
    [clean_test_ids] returns the numbers those runs denote (a string that
    ends in a digit is its own [chomp]). When one string of the list
    neither ends in a digit nor in a digit followed by one final newline,
    [clean_test_ids] raises [AttributeError]; the error leaves
    [get_testrail_keys] and [pytest_runtest_makereport] too, and no
    result is recorded. *)
Theorem clean_test_ids_trailing_run :
  (forall ids : list string,
      Forall (fun s => trailing_digits (chomp s) <> "") ids ->
      clean_test_ids (Some ids)
      = Ok (map (fun s => decimal_value (trailing_digits (chomp s))) ids))
  /\ (forall s, trailing_digits s <> "" -> chomp s = s)
  /\ (forall x, chomp (x ++ nl) = x)
  /\ (forall (ids : list string) (s : string),
        In s ids -> trailing_digits (chomp s) = "" ->
        clean_test_ids (Some ids) = Raise AttributeError)
  /\ (forall (items : list Item) item marker ids s,
        In item items -> get_marker item = Some marker ->
        kwargs_ids marker = Some ids ->
        In s ids -> trailing_digits (chomp s) = "" ->
        exists e, get_testrail_keys items = Raise e)
  /\ (forall (C : Type) (client_ops : Client C) item marker ids s rep (st : State (C := C)),
        get_marker item = Some marker -> kwargs_ids marker = Some ids ->
        In s ids -> trailing_digits (chomp s) = "" -> when rep = "call" ->
        pytest_runtest_makereport item rep st = (Raise AttributeError, st)).
Proof.
  assert (forall ids s, In s ids -> trailing_digits (chomp s) = "" ->
            clean_test_ids (Some ids) = Raise AttributeError) as Hraise.
  { intros ids s Hin Hs. unfold clean_test_ids.
    rewrite (rmap_search_raises ids s Hin); [reflexivity|].
    rewrite re_search_spec, Hs. reflexivity. }
  split; [|split; [|split; [|split; [|split]]]].
  - intros ids Hall. unfold clean_test_ids.
    assert (rmap search_test_id ids = Ok (map (fun s => trailing_digits (chomp s)) ids)) as ->.
    { induction Hall as [|s ids Hs _ IH]; [reflexivity|].
      cbn [rmap map]. unfold search_test_id at 1. rewrite re_search_spec.
      destruct (trailing_digits (chomp s)) eqn:E; [congruence|].
      cbn [rbind]. rewrite IH. reflexivity. }
    cbn [rbind]. induction Hall as [|s ids Hs _ IH]; [reflexivity|].
    cbn [rmap map]. rewrite int_of_str_spec;
      [|apply trailing_digits_all|exact Hs].
    cbn [rbind]. rewrite IH. reflexivity.
  - apply chomp_digits.
  - apply chomp_app_nl.
  - exact Hraise.
  - intros items item marker ids s Hitem Hm Hk Hin Hs.
    induction items as [|i items IH]; [contradiction|].
    cbn [get_testrail_keys]. destruct Hitem as [->|Hitem].
    + rewrite Hm, Hk, (Hraise ids s Hin Hs). eexists. reflexivity.
    + destruct (IH Hitem) as [e E]. rewrite E.
      destruct (get_marker i) as [mi|]; [|eexists; reflexivity].
      destruct (clean_test_ids (kwargs_ids mi)); eexists; reflexivity.
  - intros C client_ops item marker ids s rep st Hm Hk Hin Hs Hw.
    unfold pytest_runtest_makereport. rewrite Hm, Hk, Hw.
    destruct ids as [|i ids]; [contradiction|].
    cbn [String.eqb Ascii.eqb Bool.eqb ids_truthy andb].
    unfold bind, lift. rewrite (Hraise (i :: ids) s Hin Hs). reflexivity.
Qed.

Lemma clean_test_ids_trailing_run_witness :
  clean_test_ids (Some ["C123"; "testrail/C45" ++ nl]) = Ok [123; 45]
  /\ clean_test_ids (Some ["C1"; "C2x"]) = Raise AttributeError.
Proof.
  destruct clean_test_ids_trailing_run as (Hok & _ & _ & Hraise & _).
  split.
  - apply (Hok ["C123"; "testrail/C45" ++ nl]).
    repeat constructor; vm_compute; discriminate.
  - apply (Hraise ["C1"; "C2x"] "C2x"); [simpl; auto|reflexivity].
Defined.

(** C9 as stated fails: a string that ends in a newline has no trailing
    decimal digit, and yet the digits before its final newline are
    extracted. *)
Lemma clean_test_ids_final_newline :
  ~ (forall s : string,
       trailing_digits s = "" -> exists e, clean_test_ids (Some [s]) = Raise e).
Proof.
  intros H. destruct (H ("C12" ++ nl) eq_refl) as [e E].
  vm_compute in E. discriminate.
Qed.

(** C4. Whatever records were accumulated, after the two sort passes of
    [add_results] the list is a permutation of the one before, in which
    each record comes before every record of a greater case id and, among
    the records of its own case, before every record of a status id that
    is not smaller. *)
Theorem add_results_sorts_by_case_then_status :
  forall (C : Type) (client_ops : Client C) (py : Py.version) (testrun_id : Z)
         (st : State (C := C)),
    let before := results (fst st) in
    let after := results (fst (snd (add_results py testrun_id st))) in
    after = list_sort case_id (list_sort status_id before)
    /\ Permutation after before
    /\ StronglySorted case_then_status after
    /\ StronglySorted (fun a b => case_id a <= case_id b) after.
Proof.
  intros C client_ops py run [self w]. cbn [fst].
  destruct (add_results_spec py run self w) as (w' & E & _).
  rewrite E. cbn [fst snd results with_results]. unfold sorted_results.
  split; [reflexivity|]. split; [apply two_passes_perm|].
  split; [apply two_passes_sorted|].
  pose proof (two_passes_sorted (results self)) as S.
  induction S as [|x l Sl IH Hx]; constructor; [exact IH|].
  eapply Forall_impl; [|exact Hx]. unfold case_then_status. intros y. lia.
Qed.

Lemma Permutation_filter_keep {A} (f : A -> bool) (l l' : list A) :
  Permutation l l' -> Permutation (filter f l) (filter f l').
Proof.
  induction 1 as [|x l l' _ IH|x y l|l l' l'' _ IH1 _ IH2]; simpl.
  - constructor.
  - destruct (f x); [now constructor|exact IH].
  - destruct (f x), (f y); try apply Permutation_refl. apply perm_swap.
  - eapply perm_trans; eassumption.
Qed.

Lemma skipped_submissions (py : Py.version) (self : t) (run : Z) (l : list Result) :
  filter is_skipped_result (submissions py self run l)
  = if add_skips self
    then map (submission py self run) (filter (fun r => status_id r =? 2) l)
    else [].
Proof.
  unfold submissions, suppressed.
  induction l as [|r l IH]; [now destruct (add_skips self)|].
  cbn [filter]. destruct (add_skips self) eqn:A; cbn [negb andb] in *.
  - cbn [map filter is_skipped_result submission data_status_id result_data].
    destruct (status_id r =? 2); cbn [map]; now rewrite IH.
  - destruct (status_id r =? 2) eqn:S; cbn [negb]; [exact IH|].
    cbn [map filter is_skipped_result submission data_status_id result_data].
    now rewrite S.
Qed.

(** C5. A record whose status is skipped (2) makes [add_results] call
    the client zero times when [add_skips] is [False] (nothing at all
    changes) and exactly once when it is [True]; over a whole batch, the
    calls that carry the skipped status are none in the first case and
    one per skipped record in the second. *)
Theorem skipped_record_calls :
  forall (C : Type) (client_ops : Client C) (py : Py.version) (testrun_id : Z)
         (self : t) (w : World C) (r : Result),
    status_id r = 2 ->
    (add_skips self = false ->
       publish_result py testrun_id r (self, w) = (Ok tt, (self, w)))
    /\ (add_skips self = true ->
        exists w',
          publish_result py testrun_id r (self, w) = (Ok tt, (self, w'))
          /\ requests w' = (requests w ++ [submission py self testrun_id r])%list)
    /\ (exists new,
          requests (snd (snd (add_results py testrun_id (self, w))))
          = (requests w ++ new)%list
          /\ List.length (filter is_skipped_result new)
             = if add_skips self
               then List.length (filter (fun r => status_id r =? 2) (results self))
               else O).
Proof.
  intros C client_ops py run self w r Hr.
  split; [|split].
  - intros A. rewrite publish_result_spec. unfold suppressed.
    rewrite A, Hr. reflexivity.
  - intros A. rewrite publish_result_spec. unfold suppressed. rewrite A. cbn [negb andb].
    destruct (send_post _ _ _ _) as [response c].
    eexists. split; [reflexivity|]. reflexivity.
  - destruct (add_results_spec py run self w) as (w' & E & R & _).
    rewrite E. cbn [snd]. eexists. split; [exact R|].
    rewrite skipped_submissions. destruct (add_skips self); [|reflexivity].
    rewrite length_map. apply Permutation_length, Permutation_filter_keep.
    apply two_passes_perm.
Qed.

Lemma skipped_record_calls_witness :
  publish_result Py3 7 Scenario.skipped_result
    (Scenario.configured 7 0 false, Fake.world Scenario.service)
  = (Ok tt, (Scenario.configured 7 0 false, Fake.world Scenario.service)).
Proof.
  destruct (skipped_record_calls Fake.Server _ Py3 7 (Scenario.configured 7 0 false)
              (Fake.world Scenario.service) Scenario.skipped_result eq_refl) as (H & _).
  apply H. reflexivity.
Defined.

(** ** The world after a batch *)

Section BatchWorld.
Context {C : Type} {client_ops : Client C} (py : Py.version).

Lemma publish_result_world (run : Z) (r : Result) (self : t) (w : World C) :
  publish_result py run r (self, w) = (Ok tt, (self, world_after_record py self run w r)).
Proof.
  rewrite publish_result_spec. unfold world_after_record.
  destruct (suppressed (add_skips self) r); [reflexivity|].
  now destruct (send_post _ _ _ _).
Qed.

Lemma publish_loop_world (run : Z) (l : list Result) (self : t) (w : World C) :
  for_each l (publish_result py run) (self, w)
  = (Ok tt, (self, world_after_batch py self run l w)).
Proof.
  revert w. induction l as [|r l IH]; intros w; [reflexivity|].
  cbn [for_each]. unfold bind at 1. rewrite publish_result_world. apply IH.
Qed.

Lemma add_results_world (run : Z) (self : t) (w : World C) :
  add_results py run (self, w)
  = (Ok tt,
     (with_results (sorted_results (results self)) self,
      world_after_batch py self run (sorted_results (results self)) w)).
Proof.
  unfold add_results, bind at 1 2 3, set_self, get_self. cbn [fst snd].
  exact (publish_loop_world run (sorted_results (results self))
           (with_results (sorted_results (results self)) self) w).
Qed.

Lemma world_after_batch_app (run : Z) (self : t) (l1 l2 : list Result) (w : World C) :
  world_after_batch py self run (l1 ++ l2) w
  = world_after_batch py self run l2 (world_after_batch py self run l1 w).
Proof. apply fold_left_app. Qed.

Lemma world_after_batch_requests (run : Z) (self : t) (l : list Result) (w : World C) :
  requests (world_after_batch py self run l w)
  = (requests w ++ submissions py self run l)%list.
Proof.
  revert w. induction l as [|r l IH]; intros w.
  - cbn. now rewrite app_nil_r.
  - unfold world_after_batch in *. cbn [fold_left]. rewrite IH.
    unfold world_after_record, submissions. cbn [filter].
    destruct (suppressed (add_skips self) r); cbn [negb]; [reflexivity|].
    destruct (send_post _ _ _ _) as [response c]. cbn [requests map].
    now rewrite <- app_assoc.
Qed.

Lemma world_after_batch_stdout (run : Z) (self : t) (l : list Result) (w : World C) :
  exists printed,
    stdout (world_after_batch py self run l w) = (stdout w ++ printed)%list
    /\ Forall (fun line => exists r e, In r l /\ suppressed (add_skips self) r = false
                                       /\ line = not_published_line r e) printed.
Proof.
  revert w. induction l as [|r l IH]; intros w.
  - exists []. cbn. rewrite app_nil_r. auto.
  - unfold world_after_batch in *. cbn [fold_left].
    destruct (IH (world_after_record py self run w r)) as (printed & E & F).
    assert (Forall (fun line => exists r0 e, In r0 (r :: l)
                                  /\ suppressed (add_skips self) r0 = false
                                  /\ line = not_published_line r0 e) printed) as F'.
    { eapply Forall_impl; [|exact F]. intros line (r0 & e & Hin & Hs & Hl).
      exists r0, e. split; [now right|auto]. }
    rewrite E. unfold world_after_record.
    destruct (suppressed (add_skips self) r) eqn:Hs; [now exists printed|].
    destruct (send_post _ _ _ _) as [response c]. cbn [stdout].
    destruct (error_truthy (get_error c response)).
    + eexists. rewrite <- app_assoc. split; [reflexivity|].
      constructor; [|exact F']. exists r. eexists. split; [now left|auto].
    + exists printed. now rewrite app_nil_r.
Qed.

(** With a client that reports the error [e] for every submission, every
    record that is not suppressed gets its line. *)
Lemma world_after_batch_all_fail (run : Z) (self : t) (e : string) (l : list Result)
    (w : World C) :
  (forall c url data cert,
      get_error (snd (send_post c url data cert)) (fst (send_post c url data cert))
      = Some e) ->
  e <> "" ->
  stdout (world_after_batch py self run l w)
  = (stdout w
     ++ map (fun r => not_published_line r e)
            (filter (fun r => negb (suppressed (add_skips self) r)) l))%list.
Proof.
  intros Hfail Hne. revert w. induction l as [|r l IH]; intros w.
  - cbn. now rewrite app_nil_r.
  - unfold world_after_batch in *. cbn [fold_left filter]. rewrite IH.
    unfold world_after_record.
    destruct (suppressed (add_skips self) r); cbn [negb]; [reflexivity|].
    pose proof (Hfail (client w) (ADD_RESULT_URL run (case_id r))
                  (AddResult (result_data py self r)) (cert_check self)) as He.
    destruct (send_post _ _ _ _) as [response c]. cbn [fst snd] in He.
    cbn [stdout map]. rewrite He. cbn [error_truthy error_str].
    destruct e; [congruence|]. cbn [str_truthy]. now rewrite <- app_assoc.
Qed.

(** With a client that reports no error, nothing is printed. *)
Lemma world_after_batch_none_fail (run : Z) (self : t) (l : list Result) (w : World C) :
  (forall c url data cert,
      error_truthy (get_error (snd (send_post c url data cert))
                      (fst (send_post c url data cert))) = false) ->
  stdout (world_after_batch py self run l w) = stdout w.
Proof.
  intros Hok. revert w. induction l as [|r l IH]; intros w; [reflexivity|].
  unfold world_after_batch in *. cbn [fold_left]. rewrite IH.
  unfold world_after_record.
  destruct (suppressed (add_skips self) r); [reflexivity|].
  pose proof (Hok (client w) (ADD_RESULT_URL run (case_id r))
                (AddResult (result_data py self r)) (cert_check self)) as He.
  destruct (send_post _ _ _ _) as [response c]. cbn [fst snd] in He.
  cbn [stdout]. rewrite He. apply app_nil_r.
Qed.

End BatchWorld.

(** C6. [add_results] returns normally whatever the client answers, and
    leaves the world that its records make one after the other, in
    sorted order: each record that is not suppressed is submitted, and
    each one whose submission the client reports an error for gets one
    printed line, with its case id and the error, after which the batch
    goes on. So the calls are the submissions of all the records that are
    not suppressed; a record in the middle of the batch whose submission
    fails has its line printed and the records after it are submitted all
    the same; nothing else than such lines is printed; when every
    submission fails, every record that is not suppressed has its line,
    and when none fails nothing is printed. The same holds of one turn
    of the loop. *)
Theorem failed_submission_is_logged_and_skipped_over :
  forall (C : Type) (client_ops : Client C) (py : Py.version) (testrun_id : Z)
         (self : t) (w : World C),
    let sorted := sorted_results (results self) in
    let w' := world_after_batch py self testrun_id sorted w in
    let line (r : Result) (e : string) :=
      tag ++ "Info: Testcase #" ++ str_int (case_id r)
      ++ " not published for following reason: " ++ dquote ++ e ++ dquote in
    add_results py testrun_id (self, w) = (Ok tt, (with_results sorted self, w'))
    /\ requests w' = (requests w ++ submissions py self testrun_id sorted)%list
    /\ (exists w'',
          add_results py testrun_id (self, w)
          = (Ok tt, (with_results (sorted_results (results self)) self, w''))
          /\ requests w''
             = (requests w
                ++ submissions py self testrun_id (sorted_results (results self)))%list)
    /\ (forall (before after : list Result) (r : Result) (response : json) (c : C)
               (e : string),
          sorted = (before ++ r :: after)%list ->
          suppressed (add_skips self) r = false ->
          let w1 := world_after_batch py self testrun_id before w in
          send_post (client w1) (ADD_RESULT_URL testrun_id (case_id r))
            (AddResult (result_data py self r)) (cert_check self) = (response, c) ->
          get_error c response = Some e ->
          e <> "" ->
          exists printed_after,
            stdout w' = (stdout w1 ++ line r e :: printed_after)%list
            /\ requests w'
               = (requests w1 ++ submission py self testrun_id r
                  :: submissions py self testrun_id after)%list)
    /\ (exists printed,
          stdout w' = (stdout w ++ printed)%list
          /\ Forall (fun l => exists r e, In r sorted
                                 /\ suppressed (add_skips self) r = false
                                 /\ l = line r e) printed)
    /\ (forall e : string,
          (forall c url data cert,
              get_error (snd (send_post c url data cert))
                        (fst (send_post c url data cert)) = Some e) ->
          e <> "" ->
          stdout w'
          = (stdout w
             ++ map (fun r => line r e)
                    (filter (fun r => negb (suppressed (add_skips self) r)) sorted))%list)
    /\ ((forall c url data cert,
            error_truthy (get_error (snd (send_post c url data cert))
                            (fst (send_post c url data cert))) = false) ->
        stdout w' = stdout w)
    /\ (forall (r : Result) (response : json) (c : C) (e : string),
          suppressed (add_skips self) r = false ->
          send_post (client w) (ADD_RESULT_URL testrun_id (case_id r))
            (AddResult (result_data py self r)) (cert_check self) = (response, c) ->
          get_error c response = Some e ->
          e <> "" ->
          publish_result py testrun_id r (self, w)
          = (Ok tt,
             (self,
              {| client := c;
                 stdout := stdout w ++
                   [tag ++ "Info: Testcase #" ++ str_int (case_id r)
                    ++ " not published for following reason: "
                    ++ dquote ++ e ++ dquote];
                 requests := requests w ++ [submission py self testrun_id r];
                 utcnow := utcnow w |}))).
Proof.
  intros C client_ops py run self w sorted w' line.
  assert (add_results py run (self, w) = (Ok tt, (with_results sorted self, w'))) as Hadd
    by apply add_results_world.
  assert (requests w' = (requests w ++ submissions py self run sorted)%list) as Hreq
    by apply world_after_batch_requests.
  split; [exact Hadd|]. split; [exact Hreq|].
  split; [exists w'; split; [exact Hadd|exact Hreq]|].
  split; [|split; [|split; [|split]]].
  - intros before after r response c e Hsplit Hs w1 Hp He Hne.
    subst w'. rewrite Hsplit, world_after_batch_app. fold w1.
    change (world_after_batch py self run (r :: after) w1)
      with (world_after_batch py self run after (world_after_record py self run w1 r)).
    destruct (world_after_batch_stdout py run self after
                (world_after_record py self run w1 r)) as (printed & E & _).
    exists printed. rewrite E, world_after_batch_requests.
    unfold world_after_record. rewrite Hs, Hp, He. cbn [stdout requests error_truthy error_str].
    destruct e; [congruence|]. cbn [str_truthy].
    rewrite <- !app_assoc. split; reflexivity.
  - apply world_after_batch_stdout.
  - intros e Hfail Hne. now apply world_after_batch_all_fail.
  - intros Hok. now apply world_after_batch_none_fail.
  - intros r response c e Hs Hp He Hne.
    rewrite publish_result_spec, Hs, Hp, He. cbn [error_truthy error_str].
    destruct e; [congruence|]. reflexivity.
Qed.

Lemma failed_submission_is_logged_and_skipped_over_witness :
  requests
    (snd (snd (add_results Py3 9
                 (Scenario.accumulated 9 0 true
                    [Scenario.failed_result; Scenario.passed_result],
                  Fake.world Scenario.service))))
  = submissions Py3 (Scenario.configured 9 0 true) 9
      [Scenario.passed_result; Scenario.failed_result]
  /\ stdout
       (snd (snd (add_results Py3 9
                    (Scenario.accumulated 9 0 true
                       [Scenario.failed_result; Scenario.passed_result],
                     Fake.world Scenario.service))))
     = ["[testrail] Info: Testcase #1 not published for following reason: "
        ++ dquote ++ "not found" ++ dquote;
        "[testrail] Info: Testcase #2 not published for following reason: "
        ++ dquote ++ "not found" ++ dquote]
  /\ stdout
       (snd (snd (publish_result Py3 9 Scenario.failed_result
                    (Scenario.configured 9 0 true, Fake.world Scenario.service))))
     = ["[testrail] Info: Testcase #2 not published for following reason: "
        ++ dquote ++ "not found" ++ dquote].
Proof.
  pose proof (failed_submission_is_logged_and_skipped_over Fake.Server _ Py3 9
                (Scenario.accumulated 9 0 true
                   [Scenario.failed_result; Scenario.passed_result])
                (Fake.world Scenario.service)) as H.
  cbv zeta in H. destruct H as (E & R & _ & Hmid & _).
  split; [|split].
  - rewrite E. cbn [snd]. rewrite R. reflexivity.
  - rewrite E. cbn [snd].
    destruct (Hmid [Scenario.passed_result] [] Scenario.failed_result
                (JObj [("error", JStr "not found")]) Scenario.service "not found")
      as (printed_after & Hout & Hreq);
      [reflexivity|reflexivity|reflexivity|reflexivity|discriminate|].
    rewrite Hout.
    assert (printed_after = []) as ->.
    { apply (f_equal (@List.length string)) in Hout. rewrite length_app in Hout.
      cbn in Hout. destruct printed_after; [reflexivity|cbn in Hout; lia]. }
    reflexivity.
  - destruct (failed_submission_is_logged_and_skipped_over Fake.Server _ Py3 9
                (Scenario.configured 9 0 true)
                (Fake.world Scenario.service)) as (_ & _ & _ & _ & _ & _ & _ & H).
    rewrite (H Scenario.failed_result (JObj [("error", JStr "not found")])
               Scenario.service "not found");
      [reflexivity|reflexivity|reflexivity|reflexivity|discriminate].
Defined.

(** ** Publishing to the runs of a plan *)

Section PlanRuns.
Context {C : Type} {client_ops : Client C} (py : Py.version).

Lemma get_available_testruns_spec (plan : Z) (self : t) (w : World C)
    (response : json) (c : C) (runs : list Z) :
  send_get (client w) (GET_TESTPLAN_URL plan) (cert_check self) = (response, c) ->
  error_truthy (get_error c response) = false ->
  open_runs_of_plan response = Ok runs ->
  get_available_testruns plan (self, w)
  = (Ok runs,
     (self, {| client := c;
               stdout := stdout w;
               requests := requests w ++ [Get (GET_TESTPLAN_URL plan) (cert_check self)];
               utcnow := utcnow w |})).
Proof.
  intros Hg He Hr.
  unfold get_available_testruns, bind, client_send_get, client_get_error, lift.
  cbn [fst snd]. rewrite Hg. cbn [fst snd client]. rewrite He.
  unfold open_runs_of_plan in Hr. rewrite Hr. reflexivity.
Qed.

(** Every run of the list receives the submissions of the same sorted
    records. *)
Lemma runs_loop_spec (runs : list Z) (sorted : list Result) (self : t) (w : World C) :
  sorted_results (results self) = sorted ->
  exists self' w',
    for_each runs (add_results py) (self, w) = (Ok tt, (self', w'))
    /\ (self' = self \/ self' = with_results sorted self)
    /\ requests w'
       = (requests w ++ flat_map (fun run => submissions py self run sorted) runs)%list.
Proof.
  revert self w. induction runs as [|run runs IH]; intros self w Hs.
  - exists self, w. cbn. rewrite app_nil_r. auto.
  - cbn [for_each]. unfold bind at 1.
    destruct (add_results_spec py run self w) as (w1 & E & R & _).
    rewrite E, Hs in *.
    destruct (IH (with_results sorted self) w1) as (self' & w' & E' & Hself & R').
    { cbn [results with_results]. subst sorted. apply two_passes_idempotent. }
    exists self', w'. split; [exact E'|]. split.
    + right. destruct Hself as [->| ->]; reflexivity.
    + rewrite R', R. cbn [flat_map]. rewrite <- app_assoc. reflexivity.
Qed.

End PlanRuns.

(** ** After collection the target is never assigned again *)

Section TargetIsKept.
Context {C : Type} {client_ops : Client C} (py : Py.version).

Lemma add_result_spec (test_ids : list Z) (status : Z) (text : string) (d : Q)
    (self : t) (w : World C) :
  add_result test_ids status text d (self, w)
  = (Ok tt,
     (with_results
        (results self ++
         map (fun test_id => {| case_id := test_id; status_id := status;
                                comment := text; duration := d |}) test_ids)
        self, w)).
Proof.
  unfold add_result. revert self.
  induction test_ids as [|i ids IH]; intros self.
  - cbn. rewrite app_nil_r. now destruct self.
  - cbn [for_each map]. unfold bind at 1, set_self at 1. cbn [fst snd].
    rewrite IH. cbn [results with_results]. rewrite <- app_assoc. reflexivity.
Qed.

Lemma makereport_keeps_target (item : Item) (rep : TestReport) (st : State (C := C)) :
  target (fst (snd (pytest_runtest_makereport item rep st))) = target (fst st).
Proof.
  destruct st as [self w]. unfold pytest_runtest_makereport.
  destruct (get_marker item) as [marker|]; [|reflexivity].
  destruct (String.eqb (when rep) "call" && ids_truthy (kwargs_ids marker)); [|reflexivity].
  unfold bind, lift.
  destruct (clean_test_ids (kwargs_ids marker)) as [ids|e]; [|reflexivity].
  destruct (get_test_outcome (outcome rep)) as [status|e]; [|reflexivity].
  rewrite add_result_spec. reflexivity.
Qed.

Lemma sessionfinish_keeps_target (st : State (C := C)) :
  target (fst (snd (pytest_sessionfinish py st))) = target (fst st).
Proof.
  destruct st as [self w]. unfold pytest_sessionfinish.
  unfold bind at 1. unfold print at 1. cbn [fst snd].
  unfold bind at 1. unfold get_self at 1. cbn [fst snd].
  unfold bind at 1.
  destruct (results self) as [|r0 rs] eqn:Hres; [reflexivity|]. rewrite <- Hres.
  unfold bind at 1. unfold print at 1. cbn [fst snd stdout client requests utcnow].
  destruct (testrun_id self =? 0) eqn:Hrun; cbn [negb].
  - destruct (testplan_id self =? 0) eqn:Hplan; cbn [negb]; [reflexivity|].
    unfold bind at 1.
    match goal with
    | |- context [get_available_testruns ?p (self, ?w0)] =>
        assert (exists r w1, get_available_testruns p (self, w0) = (r, (self, w1)))
          as (r & w1 & E)
    end.
    { unfold get_available_testruns, bind, client_send_get, client_get_error,
        print, ret, lift. cbn [fst snd].
      destruct (send_get _ _ _) as [response c]. cbn [fst snd client].
      destruct (error_truthy (get_error c response)); do 2 eexists; reflexivity. }
    rewrite E. destruct r as [runs|e]; [|reflexivity].
    unfold bind at 1. unfold print at 1. cbn [fst snd].
    match goal with
    | |- context [for_each runs (add_results py) (self, ?w0)] =>
        destruct (runs_loop_spec py runs (sorted_results (results self)) self w0 eq_refl)
          as (self' & w' & E' & Hself & _)
    end.
    rewrite E'. unfold print. cbn [fst snd].
    destruct Hself as [->| ->]; reflexivity.
  - match goal with
    | |- context [add_results py ?i (self, ?w0)] =>
        destruct (add_results_spec py i self w0) as (w' & E & _)
    end.
    rewrite E. unfold print. cbn [fst snd]. reflexivity.
Qed.

End TargetIsKept.

(** C10. [add_results] leaves a permutation of the accumulated records:
    no record is dropped and none is changed. When the session finishes
    on a plan, every open run of the plan receives the submissions of
    the same sorted list of records, and the records the plugin holds in
    the end are still a permutation of the accumulated ones. *)
Theorem add_results_keeps_the_records :
  forall (C : Type) (client_ops : Client C) (py : Py.version),
    (forall (testrun_id : Z) (st : State (C := C)),
        Permutation (results (fst (snd (add_results py testrun_id st))))
                    (results (fst st)))
    /\ (forall (self : t) (w : World C) (response : json) (c : C) (runs : list Z),
          results self <> [] ->
          testrun_id self = 0 ->
          testplan_id self <> 0 ->
          send_get (client w) (GET_TESTPLAN_URL (testplan_id self)) (cert_check self)
          = (response, c) ->
          error_truthy (get_error c response) = false ->
          open_runs_of_plan response = Ok runs ->
          exists self' w',
            pytest_sessionfinish py (self, w) = (Ok tt, (self', w'))
            /\ Permutation (results self') (results self)
            /\ requests w'
               = (requests w
                  ++ Get (GET_TESTPLAN_URL (testplan_id self)) (cert_check self)
                  :: flat_map
                       (fun run =>
                          submissions py self run (sorted_results (results self)))
                       runs)%list).
Proof.
  intros C client_ops py. split.
  - intros run [self w]. destruct (add_results_spec py run self w) as (w' & E & _).
    rewrite E. cbn [fst snd results with_results]. apply two_passes_perm.
  - intros self w response c runs Hne Hrun Hplan Hg He Hr.
    unfold pytest_sessionfinish.
    unfold bind at 1. unfold print at 1. cbn [fst snd].
    unfold bind at 1. unfold get_self at 1. cbn [fst snd].
    unfold bind at 1.
    destruct (results self) as [|r0 rs] eqn:Hres; [congruence|]. rewrite <- Hres.
    apply Z.eqb_neq in Hplan. rewrite Hrun, Hplan. cbn [Z.eqb negb].
    unfold bind at 1. unfold print at 1. cbn [fst snd stdout client requests utcnow].
    unfold bind at 1.
    match goal with
    | |- context [get_available_testruns ?p (self, ?w0)] =>
        rewrite (get_available_testruns_spec p self w0 response c runs Hg He Hr)
    end.
    unfold bind at 1. unfold print at 1. cbn [fst snd stdout client requests utcnow].
    match goal with
    | |- context [for_each runs (add_results py) (self, ?w0)] =>
        destruct (runs_loop_spec py runs (sorted_results (results self)) self w0 eq_refl)
          as (self' & w' & E & Hself & R)
    end.
    rewrite E. unfold print. cbn [fst snd].
    do 2 eexists. split; [reflexivity|]. split.
    + destruct Hself as [->| ->]; [apply Permutation_refl|].
      cbn [results with_results]. apply two_passes_perm.
    + cbn [requests]. rewrite R. cbn [requests]. rewrite <- app_assoc. reflexivity.
Qed.

Lemma add_results_keeps_the_records_witness :
  map (fun q => match q with Get url _ => url | Post url _ _ => url end)
      (requests
         (snd (snd (pytest_sessionfinish Py3
                      (Scenario.accumulated 0 5 true
                         [Scenario.failed_result; Scenario.passed_result],
                       Fake.world Scenario.service)))))
  = ["get_plan/5";
     "add_result_for_case/11/1"; "add_result_for_case/11/2";
     "add_result_for_case/13/1"; "add_result_for_case/13/2"].
Proof.
  destruct (add_results_keeps_the_records Fake.Server _ Py3) as (_ & H).
  destruct (H (Scenario.accumulated 0 5 true
                 [Scenario.failed_result; Scenario.passed_result])
              (Fake.world Scenario.service)
              (Fake.answer Scenario.service "get_plan/5") Scenario.service [11; 13])
    as (self' & w' & E & _ & R);
    [discriminate|reflexivity|discriminate|reflexivity|reflexivity|reflexivity|].
  rewrite E. cbn [snd]. rewrite R. reflexivity.
Defined.

(** C1. During collection, once the case ids of the collected tests
    were extracted: when a plan id is configured and the plan is confirmed
    open, the plan is kept and the run id becomes 0, with no run created;
    otherwise, when a run id is configured and the run is confirmed open,
    the run is kept and the plan id becomes 0, with no run created;
    otherwise one request to create a run is posted, whose [case_ids]
    are the declared case ids of all the collected tests, one test after
    the other. *)
Theorem run_target_precedence :
  forall (C : Type) (client_ops : Client C) (items : list Item) (keys : list Z)
         (self : t) (w : World C),
    get_testrail_keys items = Ok keys ->
    (plan_selected self w = true ->
       exists w',
         pytest_collection_modifyitems items (self, w)
         = (Ok tt, (with_testrun_id 0 self, w'))
         /\ requests w' = (requests w ++ [Get (plan_url self) (cert_check self)])%list)
    /\ (plan_rejected self w = true -> run_selected self w = true ->
        exists w',
          pytest_collection_modifyitems items (self, w)
          = (Ok tt, (with_testplan_id 0 self, w'))
          /\ filter is_add_run (requests w') = filter is_add_run (requests w))
    /\ (plan_rejected self w = true -> run_rejected self w = true ->
        exists r self' w' fetches,
          pytest_collection_modifyitems items (self, w) = (r, (self', w'))
          /\ requests w' = (requests w ++ fetches ++ [add_run_request self w keys])%list
          /\ forallb is_get fetches = true)
    /\ (exists idss,
          Forall2 (fun item ids => declared_ids item = Ok ids) items idss
          /\ keys = List.concat idss).
Proof.
  intros C client_ops items keys self w Hk.
  split; [|split; [|split]].
  - intros Hp. exact (collection_selects_plan items keys self w Hk Hp).
  - intros Hp Hr. exact (collection_selects_run items keys self w Hk Hp Hr).
  - intros Hp Hr.
    destruct (collection_creates_run items keys self w Hk Hp Hr)
      as (r & self' & w' & fetches & E & R & G & _).
    exists r, self', w', fetches. auto.
  - exact (get_testrail_keys_concat items keys Hk).
Qed.

Lemma run_target_precedence_witness :
  (let st := snd (pytest_collection_modifyitems Scenario.items
                    (Scenario.configured 7 5 true, Fake.world Scenario.service)) in
   testplan_id (fst st) = 5 /\ testrun_id (fst st) = 0)
  /\ (let st := snd (pytest_collection_modifyitems Scenario.items
                       (Scenario.configured 7 6 true, Fake.world Scenario.service)) in
      testplan_id (fst st) = 0 /\ testrun_id (fst st) = 7)
  /\ (exists fetches,
        requests (snd (snd (pytest_collection_modifyitems Scenario.items
                              (Scenario.configured 8 6 true,
                               Fake.world Scenario.service))))
        = (fetches ++
           [add_run_request (Scenario.configured 8 6 true)
              (Fake.world Scenario.service) [1; 2; 3]])%list).
Proof.
  split; [|split].
  - destruct (run_target_precedence Fake.Server _ Scenario.items [1; 2; 3]
                (Scenario.configured 7 5 true) (Fake.world Scenario.service) eq_refl)
      as (H & _).
    destruct (H eq_refl) as (w' & E & _). rewrite E. split; reflexivity.
  - destruct (run_target_precedence Fake.Server _ Scenario.items [1; 2; 3]
                (Scenario.configured 7 6 true) (Fake.world Scenario.service) eq_refl)
      as (_ & H & _).
    destruct (H eq_refl eq_refl) as (w' & E & _). rewrite E. split; reflexivity.
  - destruct (run_target_precedence Fake.Server _ Scenario.items [1; 2; 3]
                (Scenario.configured 8 6 true) (Fake.world Scenario.service) eq_refl)
      as (_ & _ & H & _).
    destruct (H eq_refl eq_refl) as (r & self' & w' & fetches & E & R & _).
    exists fetches. rewrite E. cbn [snd]. rewrite R. reflexivity.
Defined.

(** C2 at a failing input. Plan 6 is configured and is completed, no
    run id is configured, and the service creates run 77: after
    collection the run id is 77 and the plan id is still 6, so both are
    nonzero, and they stay so until the session ends. When runs 8 and
    plan 6 are both configured and unavailable and the creation fails,
    both configured ids stay as they were. *)
Theorem created_run_leaves_the_plan_id :
  (let st := snd (pytest_collection_modifyitems Scenario.items
                    (Scenario.configured 0 6 true, Fake.world Scenario.service)) in
   testrun_id (fst st) = 77 /\ testplan_id (fst st) = 6)
  /\ (let st := snd (Scenario.session Py3
                       (Scenario.configured 0 6 true, Fake.world Scenario.service)) in
      testrun_id (fst st) = 77 /\ testplan_id (fst st) = 6)
  /\ (let st := snd (pytest_collection_modifyitems Scenario.items
                       (Scenario.configured 8 6 true,
                        Fake.world Scenario.service_no_create)) in
      testrun_id (fst st) = 8 /\ testplan_id (fst st) = 6).
Proof.
  repeat split; vm_compute; reflexivity.
Qed.

(** C3 at a failing input. Run 8 is configured and is completed, and
    the service refuses to create a run: the creation is attempted and
    its error is printed, the run id is still 8 after collection, and
    when the session finishes the one accumulated result is submitted to
    run 8. *)
Theorem failed_creation_leaves_the_configured_run :
  let start := (Scenario.configured 8 0 true, Fake.world Scenario.service_no_create) in
  let collected := snd (pytest_collection_modifyitems [Scenario.marked ["C1"]] start) in
  let finished := Scenario.session Py3 start in
  map is_add_run (requests (snd collected)) = [false; true]
  /\ stdout (snd collected)
     = ["[testrail] Failed to create testrun: " ++ dquote ++ "not found" ++ dquote]
  /\ testrun_id (fst collected) = 8
  /\ testplan_id (fst collected) = 0
  /\ fst finished = Ok tt
  /\ filter is_add_result (requests (snd (snd finished)))
     = [submission Py3 (Scenario.configured 8 0 true) 8 Scenario.passed_result].
Proof.
  repeat split; vm_compute; reflexivity.
Qed.

(** C7, amended. For every record with a comment that is not empty:
    when the comment is longer than 4000 characters, the submitted
    comment is the banner line, then the truncation marker, then the last
    4000 characters of the comment with every line indented by four
    spaces, so that it ends with exactly those 4000 characters when there
    is no newline among them; when the comment has at most 4000
    characters, the submitted comment is the banner line and then the
    whole comment with every line indented by four spaces. *)
Theorem comment_is_truncated_and_indented :
  forall (py : Py.version) (self : t) (r : Result),
    comment r <> "" ->
    ((COMMENT_SIZE_LIMIT < String.length (comment r))%nat ->
       let tail := last_chars COMMENT_SIZE_LIMIT (comment r) in
       data_comment (result_data py self r)
       = Some (banner ++ truncation_marker ++ indent tail)
       /\ (exists before, comment r = before ++ tail)
       /\ String.length tail = COMMENT_SIZE_LIMIT
       /\ (has_newline tail = false ->
           last_chars COMMENT_SIZE_LIMIT (banner ++ truncation_marker ++ indent tail)
           = tail))
    /\ ((String.length (comment r) <= COMMENT_SIZE_LIMIT)%nat ->
        data_comment (result_data py self r) = Some (banner ++ indent (comment r))).
Proof.
  intros py self r Hne.
  assert (str_truthy (comment r) = true) as Ht
    by (destruct (comment r) eqn:E; [congruence|reflexivity]).
  split.
  - intros Hlen tail. cbn [result_data data_comment]. rewrite Ht, comment_field_spec.
    apply Nat.ltb_lt in Hlen as Hb. rewrite Hb.
    destruct (last_chars_suffix COMMENT_SIZE_LIMIT (comment r)) as (pre & E & L); [lia|].
    fold tail in E, L.
    split; [reflexivity|]. split; [now exists pre|]. split; [exact L|].
    intros Hnl. rewrite (indent_one_line tail Hnl).
    rewrite <- !append_assoc. rewrite <- L at 1. apply last_chars_app.
  - intros Hlen. cbn [result_data data_comment]. rewrite Ht, comment_field_spec.
    assert ((COMMENT_SIZE_LIMIT <? String.length (comment r))%nat = false) as ->
      by (apply Nat.ltb_ge; exact Hlen).
    rewrite last_chars_short by exact Hlen. reflexivity.
Qed.

Lemma comment_is_truncated_and_indented_witness :
  data_comment (result_data Py3 (Scenario.configured 7 0 true) Scenario.failed_result)
  = Some (banner ++ indent "assert 1 == 2").
Proof.
  destruct (comment_is_truncated_and_indented Py3 (Scenario.configured 7 0 true)
              Scenario.failed_result) as (_ & H).
  - discriminate.
  - apply H. apply Nat.leb_le. vm_compute. reflexivity.
Defined.

(** C7 as stated fails on a comment of 4001 characters with a newline
    among its last 4000: the text after the truncation marker does not
    end with the last 4000 characters of the comment, because of the
    spaces put after the newline. *)
Lemma truncated_comment_tail_differs :
  ~ (forall (py : Py.version) (self : t) (r : Result),
       comment r <> "" ->
       (COMMENT_SIZE_LIMIT < String.length (comment r))%nat ->
       exists body,
         data_comment (result_data py self r)
         = Some (banner ++ truncation_marker ++ body)
         /\ last_chars COMMENT_SIZE_LIMIT body
            = last_chars COMMENT_SIZE_LIMIT (comment r)).
Proof.
  intros H.
  destruct (H Py3 (Scenario.configured 7 0 true)
              {| case_id := 1; status_id := 5;
                 comment := Scenario.long_comment; duration := 1 |})
    as (body & E & T).
  - discriminate.
  - apply Nat.ltb_lt. vm_compute. reflexivity.
  - cbn [comment] in T.
    cbn [result_data data_comment comment] in E.
    change (str_truthy Scenario.long_comment) with true in E.
    rewrite comment_field_spec in E.
    change ((COMMENT_SIZE_LIMIT <? String.length Scenario.long_comment)%nat) with true in E.
    injection E as E. subst body.
    assert (String.eqb
              (last_chars COMMENT_SIZE_LIMIT
                 (indent (last_chars COMMENT_SIZE_LIMIT Scenario.long_comment)))
              (last_chars COMMENT_SIZE_LIMIT Scenario.long_comment) = false) as N
      by (vm_compute; reflexivity).
    rewrite T, String.eqb_refl in N. discriminate.
Qed.



(** * Further properties of plugin.py *)

Import Vocabulary.

(** ** Outcomes and the per-test hook *)

(** X1. [get_test_outcome] knows the three outcomes of pytest, which it
    maps to 1, 5 and 2, and raises [KeyError] for every other text. *)
Theorem get_test_outcome_domain :
  forall outcome : string,
    (outcome = "passed" /\ get_test_outcome outcome = Ok 1)
    \/ (outcome = "failed" /\ get_test_outcome outcome = Ok 5)
    \/ (outcome = "skipped" /\ get_test_outcome outcome = Ok 2)
    \/ (outcome <> "passed" /\ outcome <> "failed" /\ outcome <> "skipped"
        /\ get_test_outcome outcome = Raise KeyError).
Proof.
  intros outcome. unfold get_test_outcome, PYTEST_TO_TESTRAIL_STATUS. cbn [assoc].
  destruct (String.eqb_spec outcome "passed") as [->|H1]; [left; auto|].
  destruct (String.eqb_spec outcome "failed") as [->|H2]; [right; left; auto|].
  destruct (String.eqb_spec outcome "skipped") as [->|H3]; [right; right; left; auto|].
  right. right. right. auto.
Qed.

Lemma with_results_same (self : t) : with_results (results self) self = self.
Proof. now destruct self. Qed.

(** The ids that end in a run of digits, maybe before one final newline,
    are cleaned to the numbers of those runs. *)
Lemma clean_test_ids_ok (ids : list string) :
  Forall (fun s => trailing_digits (chomp s) <> "") ids ->
  clean_test_ids (Some ids)
  = Ok (map (fun s => decimal_value (trailing_digits (chomp s))) ids).
Proof.
  intros Hall. unfold clean_test_ids.
  assert (rmap search_test_id ids = Ok (map (fun s => trailing_digits (chomp s)) ids)) as ->.
  { induction Hall as [|s ids Hs _ IH]; [reflexivity|].
    cbn [rmap map]. unfold search_test_id at 1. rewrite re_search_spec.
    destruct (trailing_digits (chomp s)) eqn:E; [congruence|].
    cbn [rbind]. rewrite IH. reflexivity. }
  cbn [rbind]. induction Hall as [|s ids Hs _ IH]; [reflexivity|].
  cbn [rmap map]. rewrite int_of_str_spec; [|apply trailing_digits_all|exact Hs].
  cbn [rbind]. rewrite IH. reflexivity.
Qed.

(** X2. The per-test hook does nothing at all for a test without the
    mark, for a phase other than [call], and for a mark whose ids are
    missing or empty. *)
Theorem makereport_ignores :
  forall (C : Type) (client_ops : Client C) (item : Item) (rep : TestReport)
         (st : State (C := C)),
    get_marker item = None
    \/ when rep <> "call"
    \/ (exists marker, get_marker item = Some marker
                       /\ (kwargs_ids marker = None \/ kwargs_ids marker = Some [])) ->
    pytest_runtest_makereport item rep st = (Ok tt, st).
Proof.
  intros C client_ops item rep st H. unfold pytest_runtest_makereport.
  destruct H as [H|[H|(marker & Hm & H)]].
  - now rewrite H.
  - destruct (get_marker item); [|reflexivity].
    apply String.eqb_neq in H. now rewrite H.
  - rewrite Hm. destruct H as [->| ->]; cbn [ids_truthy]; now rewrite andb_false_r.
Qed.

Lemma makereport_ignores_witness :
  pytest_runtest_makereport (test_with_case ["C1"])
    {| when := "setup"; outcome := "passed"; longrepr := ""; rep_duration := 0 |}
    (Scenario.configured 7 0 true, Fake.world Scenario.service)
  = (Ok tt, (Scenario.configured 7 0 true, Fake.world Scenario.service)).
Proof.
  apply (makereport_ignores Fake.Server _ (test_with_case ["C1"])).
  right. left. discriminate.
Defined.

(** X3. In the [call] phase of a marked test whose ids are well formed
    and whose outcome is known, the hook appends one record per declared
    id, in the order of the mark, each with the mapped status, the
    failure text and the duration of the report; the records that were
    there stay in front, and nothing else changes. *)
Theorem makereport_records :
  forall (C : Type) (client_ops : Client C) (item : Item) (marker : Marker)
         (ids : list string) (rep : TestReport) (status : Z) (st : State (C := C)),
    get_marker item = Some marker ->
    kwargs_ids marker = Some ids ->
    ids <> [] ->
    when rep = "call" ->
    Forall (fun s => trailing_digits (chomp s) <> "") ids ->
    get_test_outcome (outcome rep) = Ok status ->
    pytest_runtest_makereport item rep st
    = (Ok tt,
       (with_results
          (results (fst st)
           ++ map (fun s => record_for status (longrepr rep) (rep_duration rep)
                              (decimal_value (trailing_digits (chomp s)))) ids)
          (fst st),
        snd st)).
Proof.
  intros C client_ops item marker ids rep status [self w] Hm Hk Hne Hw Hall Ho.
  unfold pytest_runtest_makereport. rewrite Hm, Hk, Hw.
  destruct ids as [|i ids]; [congruence|].
  cbn [String.eqb Ascii.eqb Bool.eqb ids_truthy andb].
  unfold bind, lift. rewrite (clean_test_ids_ok (i :: ids) Hall), Ho.
  rewrite add_result_spec. cbn [fst snd]. rewrite map_map. reflexivity.
Qed.

Lemma makereport_records_witness :
  results (fst (snd (pytest_runtest_makereport (test_with_case ["C1"; "C22"])
                       Scenario.passed_report
                       (Scenario.accumulated 7 0 true [Scenario.failed_result],
                        Fake.world Scenario.service))))
  = [Scenario.failed_result;
     record_for 1 "" (3 # 10) 1; record_for 1 "" (3 # 10) 22].
Proof.
  rewrite (makereport_records Fake.Server _ (test_with_case ["C1"; "C22"])
             (pytestrail.case ["C1"; "C22"]) ["C1"; "C22"] Scenario.passed_report 1).
  - reflexivity.
  - reflexivity.
  - reflexivity.
  - discriminate.
  - reflexivity.
  - repeat constructor; vm_compute; discriminate.
  - reflexivity.
Defined.

Lemma makereport_appends_spec {C : Type} {client_ops : Client C} (item : Item)
    (rep : TestReport) (st : State (C := C)) :
  exists r new,
    pytest_runtest_makereport item rep st
    = (r, (with_results (results (fst st) ++ new) (fst st), snd st))
    /\ (r <> Ok tt -> new = []).
Proof.
  destruct st as [self w]. cbn [fst snd].
  assert (forall r, exists new : list Result,
             (r, (self, w)) = (r, (with_results (results self ++ new) self, w))
             /\ (r <> Ok tt -> new = [])) as Hsame.
  { intros r. exists []. rewrite app_nil_r, with_results_same. auto. }
  unfold pytest_runtest_makereport.
  destruct (get_marker item) as [marker|]; [|eexists; apply Hsame].
  destruct (String.eqb (when rep) "call" && ids_truthy (kwargs_ids marker));
    [|eexists; apply Hsame].
  unfold bind, lift.
  destruct (clean_test_ids (kwargs_ids marker)) as [ids|e]; [|eexists; apply Hsame].
  destruct (get_test_outcome (outcome rep)) as [status|e]; [|eexists; apply Hsame].
  rewrite add_result_spec. do 2 eexists. split; [reflexivity|]. congruence.
Qed.

(** X4. Whatever the test and the report, the per-test hook makes no
    call, prints nothing and leaves the clock alone; of the plugin it
    only changes [results], and only by appending: when it raises,
    nothing was appended. *)
Theorem makereport_only_appends :
  forall (C : Type) (client_ops : Client C) (item : Item) (rep : TestReport)
         (st : State (C := C)),
    exists r new,
      pytest_runtest_makereport item rep st
      = (r, (with_results (results (fst st) ++ new) (fst st), snd st))
      /\ (r <> Ok tt -> new = []).
Proof.
  intros C client_ops item rep st. apply makereport_appends_spec.
Qed.

(** ** The end of the session *)

Section SessionFinish.
Context {C : Type} {client_ops : Client C} (py : Py.version).

Lemma sessionfinish_start (self : t) (w : World C) :
  pytest_sessionfinish py (self, w)
  = let w0 := {| client := client w;
                 stdout := stdout w ++ [tag ++ "Start publishing"];
                 requests := requests w;
                 utcnow := utcnow w |} in
    bind
      (match results self with
       | _ :: _ =>
           bind (print (tag ++ "Testcases to publish: "
                        ++ join ", " (map (fun r => str_int (case_id r)) (results self))))
             (fun _ =>
                if negb (testrun_id self =? 0) then add_results py (testrun_id self)
                else if negb (testplan_id self =? 0) then
                  bind (get_available_testruns (testplan_id self)) (fun testruns =>
                  bind (print (tag ++ "Testruns to update: "
                               ++ join ", " (map str_int testruns)))
                    (fun _ => for_each testruns (add_results py)))
                else print (tag ++ "No data published"))
       | [] => ret tt
       end)
      (fun _ => print (tag ++ "End publishing")) (self, w0).
Proof. reflexivity. Qed.

End SessionFinish.

(** X5. When no result was accumulated, or when neither a run id nor a
    plan id is set, the session-finish hook calls the client not once and
    leaves the plugin as it is; it prints its opening and closing lines,
    and between them, when there are results without a target, the
    cases and [No data published]. *)
Theorem sessionfinish_publishes_nothing :
  forall (C : Type) (client_ops : Client C) (py : Py.version) (self : t) (w : World C),
    (results self = [] ->
       pytest_sessionfinish py (self, w)
       = (Ok tt,
          (self, {| client := client w;
                    stdout := stdout w ++ [tag ++ "Start publishing";
                                           tag ++ "End publishing"];
                    requests := requests w;
                    utcnow := utcnow w |})))
    /\ (results self <> [] -> testrun_id self = 0 -> testplan_id self = 0 ->
        pytest_sessionfinish py (self, w)
        = (Ok tt,
           (self, {| client := client w;
                     stdout := stdout w ++
                       [tag ++ "Start publishing";
                        tag ++ "Testcases to publish: "
                        ++ join ", " (map (fun r => str_int (case_id r)) (results self));
                        tag ++ "No data published";
                        tag ++ "End publishing"];
                     requests := requests w;
                     utcnow := utcnow w |}))).
Proof.
  intros C client_ops py self w. split.
  - intros H. rewrite sessionfinish_start, H. unfold bind, ret, print. cbn.
    rewrite <- app_assoc. reflexivity.
  - intros Hne Hr Hp. rewrite sessionfinish_start.
    destruct (results self) as [|r0 rs] eqn:E; [congruence|]. rewrite <- E.
    rewrite Hr, Hp. unfold bind, ret, print. cbn [fst snd Z.eqb negb client stdout
      requests utcnow]. rewrite <- !app_assoc. reflexivity.
Qed.

Lemma sessionfinish_publishes_nothing_witness :
  requests (snd (snd (pytest_sessionfinish Py3
                        (Scenario.accumulated 0 0 true [Scenario.passed_result],
                         Fake.world Scenario.service))))
  = [].
Proof.
  destruct (sessionfinish_publishes_nothing Fake.Server _ Py3
              (Scenario.accumulated 0 0 true [Scenario.passed_result])
              (Fake.world Scenario.service)) as (_ & H).
  rewrite H; [reflexivity|discriminate|reflexivity|reflexivity].
Defined.

(** X6. A run id that is set wins over a plan id when the session
    finishes: the results go to that run only, sorted, and the plan is
    not even fetched. *)
Theorem sessionfinish_prefers_the_run :
  forall (C : Type) (client_ops : Client C) (py : Py.version) (self : t) (w : World C),
    results self <> [] ->
    testrun_id self <> 0 ->
    exists w',
      pytest_sessionfinish py (self, w)
      = (Ok tt, (with_results (sorted_results (results self)) self, w'))
      /\ requests w'
         = (requests w
            ++ submissions py self (testrun_id self) (sorted_results (results self)))%list.
Proof.
  intros C client_ops py self w Hne Hr. rewrite sessionfinish_start.
  destruct (results self) as [|r0 rs] eqn:E; [congruence|]. rewrite <- E.
  apply Z.eqb_neq in Hr. rewrite Hr. cbn [negb].
  cbv zeta. unfold bind at 1 2. unfold print at 1. cbn [fst snd].
  match goal with
  | |- context [add_results py ?i (self, ?w0)] =>
      destruct (add_results_spec py i self w0) as (w' & E' & R & _)
  end.
  rewrite E'. unfold print. cbn [fst snd].
  eexists. split; [reflexivity|]. cbn [requests]. rewrite R. reflexivity.
Qed.

Lemma sessionfinish_prefers_the_run_witness :
  map (fun q => match q with Get url _ => url | Post url _ _ => url end)
      (requests (snd (snd (pytest_sessionfinish Py3
                             (Scenario.accumulated 7 5 true [Scenario.passed_result],
                              Fake.world Scenario.service)))))
  = ["add_result_for_case/7/1"].
Proof.
  destruct (sessionfinish_prefers_the_run Fake.Server _ Py3
              (Scenario.accumulated 7 5 true [Scenario.passed_result])
              (Fake.world Scenario.service)) as (w' & E & R);
    [discriminate|discriminate|].
  rewrite E. cbn [snd]. rewrite R. reflexivity.
Defined.

Lemma get_available_testruns_cases {C : Type} {client_ops : Client C} (plan : Z)
    (self : t) (w : World C) (response : json) (c : C) :
  send_get (client w) (GET_TESTPLAN_URL plan) (cert_check self) = (response, c) ->
  get_available_testruns plan (self, w)
  = if error_truthy (get_error c response) then
      (Ok [],
       (self, {| client := c;
                 stdout := stdout w ++
                   [tag ++ "Failed to retrieve testplan: " ++ dquote
                    ++ error_str (get_error c response) ++ dquote];
                 requests := requests w ++ [Get (GET_TESTPLAN_URL plan) (cert_check self)];
                 utcnow := utcnow w |}))
    else
      (open_runs_of_plan response,
       (self, {| client := c;
                 stdout := stdout w;
                 requests := requests w ++ [Get (GET_TESTPLAN_URL plan) (cert_check self)];
                 utcnow := utcnow w |})).
Proof.
  intros Hg.
  unfold get_available_testruns, bind, client_send_get, client_get_error, print, ret, lift.
  cbn [fst snd]. rewrite Hg. cbn [fst snd client].
  destruct (error_truthy (get_error c response)); reflexivity.
Qed.

(** X7. When the session finishes on a plan and the fetch of the plan
    reports an error, nothing is submitted: the only call is the fetch,
    the hook returns normally, and the records are left as they were,
    not even sorted. *)
Theorem sessionfinish_plan_error :
  forall (C : Type) (client_ops : Client C) (py : Py.version) (self : t) (w : World C)
         (response : json) (c : C),
    results self <> [] ->
    testrun_id self = 0 ->
    testplan_id self <> 0 ->
    send_get (client w) (GET_TESTPLAN_URL (testplan_id self)) (cert_check self)
    = (response, c) ->
    error_truthy (get_error c response) = true ->
    exists w',
      pytest_sessionfinish py (self, w) = (Ok tt, (self, w'))
      /\ requests w'
         = (requests w ++ [Get (GET_TESTPLAN_URL (testplan_id self)) (cert_check self)])%list.
Proof.
  intros C client_ops py self w response c Hne Hr Hp Hg He.
  rewrite sessionfinish_start.
  destruct (results self) as [|r0 rs] eqn:E; [congruence|]. rewrite <- E.
  apply Z.eqb_neq in Hp. rewrite Hr, Hp. cbn [Z.eqb negb].
  cbv zeta. unfold bind at 1 2. unfold print at 1. cbn [fst snd].
  unfold bind at 1.
  match goal with
  | |- context [get_available_testruns ?p (self, ?w0)] =>
      rewrite (get_available_testruns_cases p self w0 response c Hg)
  end.
  rewrite He. unfold bind, print, ret. cbn [for_each fst snd join map].
  eexists. split; reflexivity.
Qed.

Lemma sessionfinish_plan_error_witness :
  requests (snd (snd (pytest_sessionfinish Py3
                        (Scenario.accumulated 0 9 true [Scenario.passed_result],
                         Fake.world Scenario.service))))
  = [Get "get_plan/9" true].
Proof.
  destruct (sessionfinish_plan_error Fake.Server _ Py3
              (Scenario.accumulated 0 9 true [Scenario.passed_result])
              (Fake.world Scenario.service)
              (Fake.answer Scenario.service "get_plan/9") Scenario.service)
    as (w' & E & R);
    [discriminate|reflexivity|discriminate|reflexivity|reflexivity|].
  rewrite E. cbn [snd]. rewrite R. reflexivity.
Defined.



Lemma open_runs_json (runs : list (Z * bool)) :
  open_runs (map run_json runs)
  = Ok (map fst (filter (fun run => negb (snd run)) runs)).
Proof.
  induction runs as [|[id completed] runs IH]; [reflexivity|].
  cbn [map open_runs run_json getitem assoc String.eqb Ascii.eqb Bool.eqb rbind
       truthy fst snd filter].
  rewrite IH. destruct completed; reflexivity.
Qed.

Lemma open_runs_of_plan_json (completed : bool) (entries : list (list (Z * bool))) :
  open_runs_of_plan (plan_json completed entries)
  = Ok (map fst (filter (fun run => negb (snd run)) (List.concat entries))).
Proof.
  unfold open_runs_of_plan, plan_json.
  cbn [getitem assoc String.eqb Ascii.eqb Bool.eqb rbind iter].
  induction entries as [|runs entries IH]; [reflexivity|].
  cbn [map open_runs_of_entries entry_json getitem assoc String.eqb Ascii.eqb Bool.eqb
       rbind iter List.concat].
  rewrite open_runs_json. cbn [rbind]. rewrite IH. cbn [rbind].
  rewrite filter_app, map_app. reflexivity.
Qed.

(** X9. When the plan is fetched without error and its answer is made
    of entries that each list their runs, [get_available_testruns]
    returns the ids of the runs that are not completed, entry after
    entry and in the order of each entry, whether the plan itself is
    completed or not; it makes that one fetch and leaves the plugin as
    it is. *)
Theorem get_available_testruns_open_runs :
  forall (C : Type) (client_ops : Client C) (plan : Z) (self : t) (w : World C)
         (c : C) (completed : bool) (entries : list (list (Z * bool))),
    send_get (client w) (GET_TESTPLAN_URL plan) (cert_check self)
    = (plan_json completed entries, c) ->
    error_truthy (get_error c (plan_json completed entries)) = false ->
    get_available_testruns plan (self, w)
    = (Ok (map fst (filter (fun run => negb (snd run)) (List.concat entries))),
       (self, {| client := c;
                 stdout := stdout w;
                 requests := requests w ++ [Get (GET_TESTPLAN_URL plan) (cert_check self)];
                 utcnow := utcnow w |})).
Proof.
  intros C client_ops plan self w c completed entries Hg He.
  rewrite (get_available_testruns_cases plan self w _ c Hg), He.
  rewrite open_runs_of_plan_json. reflexivity.
Qed.

Lemma get_available_testruns_open_runs_witness :
  fst (get_available_testruns 5
         (Scenario.configured 0 5 true, Fake.world Scenario.service))
  = Ok [11; 13].
Proof.
  rewrite (get_available_testruns_open_runs Fake.Server _ 5
             (Scenario.configured 0 5 true) (Fake.world Scenario.service)
             Scenario.service false [[(11, false); (12, true)]; [(13, false)]]);
    reflexivity.
Defined.

(** ** The availability checks *)

Section Availability.
Context {C : Type} {client_ops : Client C}.

(** One shape for the three checks: a fetch of [url], then the verdict. *)
Lemma availability_shape (check : M (State (C := C)) bool) (url : t -> string)
    (what : string) :
  (forall s,
      check s
      = bind get_self (fun self =>
        bind (client_send_get (url self)) (fun response =>
        bind (client_get_error response) (fun error =>
        if error_truthy error then
          bind (print (tag ++ what ++ dquote ++ error_str error ++ dquote))
               (fun _ => ret false)
        else
          bind (lift (getitem response "is_completed"))
               (fun completed => ret (is_False completed))))) s) ->
  forall (self : t) (w : World C),
  exists r w',
    check (self, w) = (r, (self, w'))
    /\ requests w' = (requests w ++ [Get (url self) (cert_check self)])%list
    /\ (r = Ok true <-> confirmed_open (client w) (url self) (cert_check self) = true)
    /\ (r = Ok false <-> not_available (client w) (url self) (cert_check self) = true)
    /\ ((exists e, r = Raise e)
        <-> confirmed_open (client w) (url self) (cert_check self) = false
            /\ not_available (client w) (url self) (cert_check self) = false).
Proof.
  intros Hshape self w. rewrite Hshape.
  unfold confirmed_open, not_available, bind, get_self, client_send_get,
    client_get_error, print, ret, lift. cbn [fst snd].
  destruct (send_get _ _ _) as [response c]. cbn [fst snd client].
  destruct (error_truthy (get_error c response)); cbn [negb andb orb];
    [|destruct (getitem response "is_completed") as [v|e]; [destruct (is_False v)|]];
    cbn [negb];
    (do 2 eexists; split; [reflexivity|]; split; [reflexivity|]);
    repeat split; intros;
    repeat match goal with
           | H : exists _, _ |- _ => destruct H
           | H : _ /\ _ |- _ => destruct H
           end;
    try congruence; try (eexists; reflexivity).
Qed.

End Availability.

(** X10. Each of the three availability checks fetches its entity once
    and never changes the plugin. It answers [True] exactly when the
    fetch reports no error and [is_completed] is the value [False];
    [False] exactly when the fetch reports an error or [is_completed] is
    any other value; and it raises exactly when no error is reported and
    the answer has no [is_completed]. *)
Theorem availability_checks :
  forall (C : Type) (client_ops : Client C) (self : t) (w : World C),
    let verdict (check : M (State (C := C)) bool) (url : string) :=
      exists r w',
        check (self, w) = (r, (self, w'))
        /\ requests w' = (requests w ++ [Get url (cert_check self)])%list
        /\ (r = Ok true <-> confirmed_open (client w) url (cert_check self) = true)
        /\ (r = Ok false <-> not_available (client w) url (cert_check self) = true)
        /\ ((exists e, r = Raise e)
            <-> confirmed_open (client w) url (cert_check self) = false
                /\ not_available (client w) url (cert_check self) = false) in
    verdict is_testrun_available (GET_TESTRUN_URL (testrun_id self))
    /\ verdict is_testplan_available (GET_TESTPLAN_URL (testplan_id self))
    /\ verdict is_milestone_available (GET_MILESTONE_URL (milestone_id self)).
Proof.
  intros C client_ops self w verdict. subst verdict. cbv beta.
  split; [|split].
  - apply (availability_shape is_testrun_available
             (fun self => GET_TESTRUN_URL (testrun_id self)) "Failed to retrieve testrun: ").
    reflexivity.
  - apply (availability_shape is_testplan_available
             (fun self => GET_TESTPLAN_URL (testplan_id self))
             "Failed to retrieve testplan: ").
    reflexivity.
  - apply (availability_shape is_milestone_available
             (fun self => GET_MILESTONE_URL (milestone_id self))
             "Failed to retrieve milestone: ").
    reflexivity.
Qed.

(** X11. The two readings of [is_completed] differ. For a run whose
    flag is a false value other than [False] (null, 0, an empty text),
    the availability check says the run is not available, while
    [get_available_testruns] lists the same run of a plan as open. *)
Theorem completion_flag_is_read_two_ways :
  forall (C : Type) (client_ops : Client C) (self : t) (w : World C) (c : C)
         (flag : json) (id : Z),
    truthy flag = false ->
    is_False flag = false ->
    send_get (client w) (GET_TESTRUN_URL (testrun_id self)) (cert_check self)
    = (JObj [("id", JInt id); ("is_completed", flag)], c) ->
    get_error c (JObj [("id", JInt id); ("is_completed", flag)]) = None ->
    fst (is_testrun_available (self, w)) = Ok false
    /\ open_runs [JObj [("id", JInt id); ("is_completed", flag)]] = Ok [id].
Proof.
  intros C client_ops self w c flag id Ht Hf Hg He. split.
  - unfold is_testrun_available, bind, get_self, client_send_get, client_get_error,
      print, ret, lift. cbn [fst snd]. rewrite Hg. cbn [fst snd client]. rewrite He.
    cbn [error_truthy getitem assoc String.eqb Ascii.eqb Bool.eqb]. now rewrite Hf.
  - cbn [open_runs getitem assoc String.eqb Ascii.eqb Bool.eqb rbind as_int].
    now rewrite Ht.
Qed.

Lemma completion_flag_is_read_two_ways_witness :
  fst (is_testrun_available
         (Scenario.configured 3 0 true,
          Fake.world [("get_run/3", JObj [("id", JInt 3); ("is_completed", JNull)])]))
  = Ok false
  /\ open_runs [JObj [("id", JInt 3); ("is_completed", JNull)]] = Ok [3].
Proof.
  apply (completion_flag_is_read_two_ways Fake.Server _ (Scenario.configured 3 0 true)
           (Fake.world [("get_run/3", JObj [("id", JInt 3); ("is_completed", JNull)])])
           [("get_run/3", JObj [("id", JInt 3); ("is_completed", JNull)])] JNull 3);
    reflexivity.
Defined.

(** ** Creating and closing a run *)

(** X12. [create_test_run] posts the run once. When the client reports
    an error the plugin is left as it is; when the answer carries an id
    the plugin adopts it as its run id and nothing else changes; when the
    answer has neither an error nor an id, [KeyError] is raised after the
    request was sent, and the plugin is left as it is. *)
Theorem create_test_run_outcomes :
  forall (C : Type) (client_ops : Client C) (a p u m : Z) (name : string)
         (keys : list Z) (self : t) (w : World C) (response : json) (c : C),
    let request :=
      Post (ADD_TESTRUN_URL p)
           (AddRun {| data_suite_id := u; data_name := name; data_assignedto_id := a;
                      data_include_all := false; data_case_ids := keys;
                      data_milestone_id := m |})
           (cert_check self) in
    send_post (client w) (ADD_TESTRUN_URL p)
      (AddRun {| data_suite_id := u; data_name := name; data_assignedto_id := a;
                 data_include_all := false; data_case_ids := keys;
                 data_milestone_id := m |})
      (cert_check self) = (response, c) ->
    exists r self' w',
      create_test_run a p u name keys m (self, w) = (r, (self', w'))
      /\ requests w' = (requests w ++ [request])%list
      /\ (error_truthy (get_error c response) = true -> r = Ok tt /\ self' = self)
      /\ (error_truthy (get_error c response) = false ->
          forall id, getitem response "id" = Ok (JInt id) ->
                     r = Ok tt /\ self' = with_testrun_id id self)
      /\ (error_truthy (get_error c response) = false ->
          getitem response "id" = Raise KeyError ->
          r = Raise KeyError /\ self' = self).
Proof.
  intros C client_ops a p u m name keys self w response c request Hp. subst request.
  unfold create_test_run, bind, get_self, set_self, client_send_post,
    client_get_error, print, ret, lift. cbn [fst snd]. rewrite Hp. cbn [fst snd client].
  destruct (error_truthy (get_error c response)).
  - do 3 eexists. split; [reflexivity|]. split; [reflexivity|].
    repeat split; intros; congruence.
  - destruct (getitem response "id") as [v|e] eqn:Hid; cbn [rbind].
    + destruct (as_int v) as [id|e] eqn:Hv.
      * do 3 eexists. split; [reflexivity|]. split; [reflexivity|].
        repeat split; intros; try congruence.
        -- destruct v; try discriminate. injection Hv as <-. cbn [fst]. congruence.
      * do 3 eexists. split; [reflexivity|]. split; [reflexivity|].
        repeat split; intros; try congruence.
        -- destruct v; try discriminate; congruence.
        -- destruct v; try discriminate; congruence.
    + do 3 eexists. split; [reflexivity|]. split; [reflexivity|].
      repeat split; intros; congruence.
Qed.

Lemma create_test_run_outcomes_witness :
  testrun_id
    (fst (snd (create_test_run 42 1 2 "Nightly" [1; 2] 0
                 (Scenario.configured 0 0 true, Fake.world Scenario.service))))
  = 77.
Proof.
  destruct (create_test_run_outcomes Fake.Server _ 42 1 2 0 "Nightly" [1; 2]
              (Scenario.configured 0 0 true) (Fake.world Scenario.service)
              (JObj [("id", JInt 77)]) Scenario.service)
    as (r & self' & w' & E & _ & _ & H & _); [reflexivity|].
  rewrite E. cbn [fst snd]. destruct (H eq_refl 77 eq_refl) as [_ ->]. reflexivity.
Defined.

(** ** The requests each hook can make *)

Section Emits.
Context {C : Type} {client_ops : Client C}.
Variable P : Request -> Prop.

Let ST : Type := State (C := C).

Lemma emits_same {A} (m : M ST A) :
  (forall s, snd (snd (m s)) = snd s) -> emits P m.
Proof.
  intros H s. exists []. rewrite H, app_nil_r. auto.
Qed.

Lemma emits_ret {A} (a : A) : emits P (ret (S := ST) a).
Proof. apply emits_same. reflexivity. Qed.

Lemma emits_lift {A} (r : result A) : emits P (lift (S := ST) r).
Proof. apply emits_same. reflexivity. Qed.

Lemma emits_get_self : emits P (get_self (C := C)).
Proof. apply emits_same. reflexivity. Qed.

Lemma emits_set_self (f : t -> t) : emits P (set_self (C := C) f).
Proof. apply emits_same. reflexivity. Qed.

Lemma emits_get_utcnow : emits P (get_utcnow (C := C)).
Proof. apply emits_same. reflexivity. Qed.

Lemma emits_get_error (response : json) : emits P (client_get_error (C := C) response).
Proof. apply emits_same. reflexivity. Qed.

Lemma emits_print (line : string) : emits P (print (C := C) line).
Proof. intros s. exists []. cbn. rewrite app_nil_r. auto. Qed.

Lemma emits_send_get (url : string) :
  (forall cert, P (Get url cert)) -> emits P (client_send_get url).
Proof.
  intros H s. unfold client_send_get.
  destruct (send_get _ _ _) as [response c]. cbn. eexists. split; [reflexivity|].
  constructor; [apply H|constructor].
Qed.

Lemma emits_send_post (url : string) (data : PostData) :
  (forall cert, P (Post url data cert)) -> emits P (client_send_post url data).
Proof.
  intros H s. unfold client_send_post.
  destruct (send_post _ _ _ _) as [response c]. cbn. eexists. split; [reflexivity|].
  constructor; [apply H|constructor].
Qed.

Lemma emits_bind {A B} (m : M ST A) (k : A -> M ST B) :
  emits P m -> (forall a, emits P (k a)) -> emits P (bind m k).
Proof.
  intros Hm Hk s. unfold bind. destruct (Hm s) as (new1 & R1 & F1).
  destruct (m s) as [[a|e] s1]; cbn [snd] in R1.
  - destruct (Hk a s1) as (new2 & R2 & F2).
    exists (new1 ++ new2)%list. rewrite R2, R1, app_assoc. split; [reflexivity|].
    apply Forall_app. auto.
  - exists new1. auto.
Qed.

Lemma emits_for_each {X} (l : list X) (body : X -> M ST unit) :
  (forall x, emits P (body x)) -> emits P (for_each l body).
Proof.
  intros H. induction l as [|x l IH]; cbn [for_each].
  - apply emits_ret.
  - apply emits_bind; [apply H|intros _; exact IH].
Qed.

Lemma emits_if {A} (b : bool) (m1 m2 : M ST A) :
  emits P m1 -> emits P m2 -> emits P (if b then m1 else m2).
Proof. destruct b; auto. Qed.

End Emits.

Create HintDb emits.
#[local] Hint Resolve emits_ret emits_lift emits_get_self emits_set_self
  emits_get_utcnow emits_get_error emits_print emits_bind emits_for_each emits_if
  : emits.

Section HookRequests.
Context {C : Type} {client_ops : Client C} (py : Py.version).

Lemma emits_check_plan :
  emits collection_request (is_testplan_available (C := C)).
Proof.
  unfold is_testplan_available.
  apply emits_bind; [auto with emits|intros self].
  apply emits_bind.
  - apply emits_send_get. intros cert. left. eauto.
  - intros response. auto 10 with emits.
Qed.

Lemma emits_check_run :
  emits collection_request (is_testrun_available (C := C)).
Proof.
  unfold is_testrun_available.
  apply emits_bind; [auto with emits|intros self].
  apply emits_bind.
  - apply emits_send_get. intros cert. right. left. eauto.
  - intros response. auto 10 with emits.
Qed.

Lemma emits_create (a p u : Z) (name : string) (keys : list Z) (m : Z) :
  emits collection_request (create_test_run (C := C) a p u name keys m).
Proof.
  unfold create_test_run.
  apply emits_bind.
  - apply emits_send_post. intros cert. right. right. eauto.
  - intros response. auto 10 with emits.
Qed.

Lemma emits_collection (items : list Item) :
  emits collection_request (pytest_collection_modifyitems (C := C) items).
Proof.
  unfold pytest_collection_modifyitems, and_then.
  apply emits_bind; [auto with emits|intros keys].
  apply emits_bind; [auto with emits|intros self].
  apply emits_bind; [apply emits_if; [apply emits_check_plan|auto with emits]|intros plan].
  apply emits_if; [auto with emits|].
  apply emits_bind; [apply emits_if; [apply emits_check_run|auto with emits]|intros run].
  apply emits_if; [auto with emits|].
  apply emits_bind.
  - destruct (testrun_name self); auto 10 with emits.
  - intros _. apply emits_bind; [auto with emits|intros self2]. apply emits_create.
Qed.

Lemma emits_makereport (item : Item) (rep : TestReport) :
  emits (fun _ => False) (pytest_runtest_makereport (C := C) item rep).
Proof.
  apply emits_same. intros s.
  destruct (makereport_appends_spec item rep s) as (r & new & E & _).
  now rewrite E.
Qed.

Lemma emits_add_results (run : Z) : emits finish_request (add_results (C := C) py run).
Proof.
  intros [self w]. destruct (add_results_spec py run self w) as (w' & E & R & _).
  rewrite E. cbn [snd]. eexists. split; [exact R|].
  unfold submissions. apply Forall_map, Forall_forall. intros r _.
  right. unfold submission. eauto.
Qed.

Lemma emits_get_available_testruns (plan : Z) :
  emits finish_request (get_available_testruns (C := C) plan).
Proof.
  unfold get_available_testruns.
  apply emits_bind.
  - apply emits_send_get. intros cert. left. eauto.
  - intros response. auto 10 with emits.
Qed.

Lemma emits_sessionfinish :
  emits finish_request (pytest_sessionfinish (C := C) py).
Proof.
  unfold pytest_sessionfinish.
  apply emits_bind; [auto with emits|intros _].
  apply emits_bind; [auto with emits|intros self].
  apply emits_bind; [|auto with emits].
  destruct (results self) as [|r0 rs]; [auto with emits|].
  apply emits_bind; [auto with emits|intros _].
  apply emits_if; [apply emits_add_results|].
  apply emits_if; [|auto with emits].
  apply emits_bind; [apply emits_get_available_testruns|intros runs].
  apply emits_bind; [auto with emits|intros _].
  apply emits_for_each. intros run. apply emits_add_results.
Qed.

End HookRequests.

(** X13. The requests of the hooks. Whatever the client answers, the
    collection hook only fetches plans and runs and posts run creations;
    the per-test hook makes no request; the session-finish hook only
    fetches plans and posts results. So no hook ever posts a request
    without payload, as [close_test_run] does, and none fetches a
    milestone: the [close_run] flag and [is_milestone_available] play no
    part in a session. *)
Theorem hooks_requests :
  forall (C : Type) (client_ops : Client C) (py : Py.version),
    (forall items, emits collection_request (pytest_collection_modifyitems (C := C) items))
    /\ (forall item rep,
          emits (fun _ => False) (pytest_runtest_makereport (C := C) item rep))
    /\ emits finish_request (pytest_sessionfinish (C := C) py)
    /\ (forall q, collection_request q \/ finish_request q ->
          (forall url cert, q <> Post url NoData cert)
          /\ (forall milestone cert, q <> Get (GET_MILESTONE_URL milestone) cert)).
Proof.
  intros C client_ops py.
  split; [exact emits_collection|].
  split; [exact emits_makereport|].
  split; [exact (emits_sessionfinish py)|].
  intros q [[H|[H|H]]|[H|H]].
  - destruct H as (plan & cert & ->). split; intros; discriminate.
  - destruct H as (run & cert & ->). split; intros; discriminate.
  - destruct H as (project & data & cert & ->). split; intros; discriminate.
  - destruct H as (plan & cert & ->). split; intros; discriminate.
  - destruct H as (run & case & data & cert & ->). split; intros; discriminate.
Qed.

(** X14. [close_test_run] posts [close_run/<run id>] once, without
    payload. When the client reports an error the plugin is left as it
    is; when the answer carries an id, that id becomes the run id. *)
Theorem close_test_run_outcomes :
  forall (C : Type) (client_ops : Client C) (self : t) (w : World C)
         (response : json) (c : C),
    send_post (client w) (CLOSE_TESTRUN_URL (testrun_id self)) NoData (cert_check self)
    = (response, c) ->
    exists r self' w',
      close_test_run (self, w) = (r, (self', w'))
      /\ requests w'
         = (requests w
            ++ [Post (CLOSE_TESTRUN_URL (testrun_id self)) NoData (cert_check self)])%list
      /\ (error_truthy (get_error c response) = true -> r = Ok tt /\ self' = self)
      /\ (error_truthy (get_error c response) = false ->
          forall id, getitem response "id" = Ok (JInt id) ->
                     r = Ok tt /\ self' = with_testrun_id id self).
Proof.
  intros C client_ops self w response c Hp.
  unfold close_test_run, bind, get_self, set_self, client_send_post,
    client_get_error, print, ret, lift. cbn [fst snd]. rewrite Hp. cbn [fst snd client].
  destruct (error_truthy (get_error c response)).
  - do 3 eexists. split; [reflexivity|]. split; [reflexivity|].
    split; intros; [auto|congruence].
  - destruct (getitem response "id") as [v|e] eqn:Hid; cbn [rbind].
    + destruct (as_int v) as [id|e] eqn:Hv.
      * do 3 eexists. split; [reflexivity|]. split; [reflexivity|].
        split; intros; [congruence|].
        destruct v; try discriminate. injection Hv as <-. cbn [fst]. split; congruence.
      * do 3 eexists. split; [reflexivity|]. split; [reflexivity|].
        split; intros; [congruence|]. destruct v; try discriminate; congruence.
    + do 3 eexists. split; [reflexivity|]. split; [reflexivity|].
      split; intros; congruence.
Qed.

Lemma close_test_run_outcomes_witness :
  requests (snd (snd (close_test_run
                        (Scenario.configured 7 0 true, Fake.world Scenario.service))))
  = [Post "close_run/7" NoData true].
Proof.
  destruct (close_test_run_outcomes Fake.Server _ (Scenario.configured 7 0 true)
              (Fake.world Scenario.service)
              (Fake.answer Scenario.service "close_run/7") Scenario.service)
    as (r & self' & w' & E & R & _); [reflexivity|].
  rewrite E. cbn [snd]. rewrite R. reflexivity.
Defined.

(** ** Ids as text and back *)

Section DecimalText.

Lemma string_of_uint_digits (d : Decimal.uint) :
  all_digits (NilEmpty.string_of_uint d) = true.
Proof. induction d; simpl; auto. Qed.

(** Reading the digits of [d] from the left continues the number read
    so far. *)
Lemma int_digits_uint (d d' : Decimal.uint) :
  int_digits (Z.of_N (Unsigned.of_lu d')) (NilEmpty.string_of_uint d)
  = Ok (Z.of_N (Unsigned.of_lu (Decimal.revapp d d'))).
Proof.
  revert d'. induction d; intros d'; cbn [NilEmpty.string_of_uint Decimal.revapp];
    [reflexivity|..];
    cbn [int_digits];
    match goal with
    | |- context [is_digit ?c] => change (is_digit c) with true
    end;
    cbv iota;
    match goal with
    | |- int_digits ?acc _ = Ok (Z.of_N (Unsigned.of_lu (Decimal.revapp _ ?e))) =>
        replace acc with (Z.of_N (Unsigned.of_lu e));
        [apply IHd|
         cbn [Unsigned.of_lu]; unfold digit_value;
         match goal with
         | |- context [Z.of_nat (nat_of_ascii ?c)] =>
             let v := eval vm_compute in (Z.of_nat (nat_of_ascii c)) in
             change (Z.of_nat (nat_of_ascii c)) with v
         end;
         lia]
    end.
Qed.

Lemma str_int_text (n : Z) :
  0 <= n ->
  all_digits (str_int n) = true
  /\ str_int n <> ""
  /\ int_of_str (str_int n) = Ok n.
Proof.
  intros Hn. destruct n as [|p|p]; [repeat split; discriminate| |lia].
  unfold str_int. cbn [Z.to_int NilZero.string_of_int].
  assert (NilZero.string_of_uint (Pos.to_uint p) = NilEmpty.string_of_uint (Pos.to_uint p))
    as ->.
  { pose proof (Unsigned.to_uint_nonnil p). now destruct (Pos.to_uint p). }
  assert (NilEmpty.string_of_uint (Pos.to_uint p) <> "") as Hne.
  { pose proof (Unsigned.to_uint_nonnil p). destruct (Pos.to_uint p); discriminate || congruence. }
  split; [apply string_of_uint_digits|]. split; [exact Hne|].
  destruct (NilEmpty.string_of_uint (Pos.to_uint p)) eqn:E; [congruence|].
  unfold int_of_str. rewrite <- E.
  change 0 with (Z.of_N (Unsigned.of_lu Decimal.Nil)).
  rewrite int_digits_uint. fold (Decimal.rev (Pos.to_uint p)).
  rewrite <- Unsigned.of_uint_alt, Unsigned.of_to. reflexivity.
Qed.

Lemma trailing_digits_after (prefix d : string) :
  trailing_digits prefix = "" -> all_digits d = true ->
  trailing_digits (prefix ++ d) = d.
Proof.
  intros Hp Hd. induction prefix as [|c prefix IH].
  - now apply trailing_digits_id.
  - cbn [trailing_digits] in Hp.
    destruct (all_digits (String c prefix)) eqn:A; [discriminate|].
    change (String c prefix ++ d) with (String c (prefix ++ d)).
    cbn [trailing_digits].
    change (String c (prefix ++ d)) with (String c prefix ++ d).
    rewrite all_digits_app, A. cbn [andb]. apply IH. exact Hp.
Qed.

End DecimalText.

(** X15. Ids written the usual way come back as they were: for every
    prefix that does not end in a digit (as [C]) and all numbers that are
    not negative, cleaning the texts [<prefix><n>] gives the numbers, and
    so does collecting tests decorated with [@pytestrail.case] and one
    such text each. *)
Theorem case_ids_round_trip :
  forall (prefix : string) (ns : list Z),
    trailing_digits prefix = "" ->
    Forall (fun n => 0 <= n) ns ->
    clean_test_ids (Some (map (fun n => prefix ++ str_int n) ns)) = Ok ns
    /\ get_testrail_keys (map (fun n => test_with_case [prefix ++ str_int n]) ns) = Ok ns.
Proof.
  intros prefix ns Hp Hns.
  assert (forall n, 0 <= n ->
            trailing_digits (chomp (prefix ++ str_int n)) = str_int n
            /\ str_int n <> "" /\ decimal_value (str_int n) = n) as Hone.
  { intros n Hn. destruct (str_int_text n Hn) as (Hd & Hne & Hi).
    assert (trailing_digits (prefix ++ str_int n) = str_int n) as Ht
      by (apply trailing_digits_after; assumption).
    rewrite chomp_digits by (rewrite Ht; exact Hne).
    split; [exact Ht|]. split; [exact Hne|].
    rewrite (int_of_str_spec _ Hd Hne) in Hi. congruence. }
  assert (forall n, 0 <= n -> clean_test_ids (Some [prefix ++ str_int n]) = Ok [n]) as Hclean.
  { intros n Hn. destruct (Hone n Hn) as (Ht & Hne & Hv).
    rewrite clean_test_ids_ok by (constructor; [congruence|constructor]).
    cbn [map]. now rewrite Ht, Hv. }
  split.
  - rewrite clean_test_ids_ok.
    + rewrite map_map. f_equal. rewrite <- (map_id ns) at 2.
      apply map_ext_in. intros n Hin. rewrite Forall_forall in Hns.
      destruct (Hone n (Hns n Hin)) as (Ht & _ & Hv). now rewrite Ht, Hv.
    + apply Forall_map. eapply Forall_impl; [|exact Hns]. intros n Hn.
      destruct (Hone n Hn) as (Ht & Hne & _). congruence.
  - induction Hns as [|n ns Hn _ IH]; [reflexivity|].
    cbn [map get_testrail_keys test_with_case get_marker pytestrail.case kwargs_ids].
    rewrite (Hclean n Hn). cbn [rbind]. rewrite IH. reflexivity.
Qed.

Lemma case_ids_round_trip_witness :
  clean_test_ids (Some (map (fun n => "C" ++ str_int n) [12; 0; 345])) = Ok [12; 0; 345].
Proof.
  apply (case_ids_round_trip "C" [12; 0; 345]).
  - reflexivity.
  - repeat constructor; lia.
Defined.

Lemma get_testrail_keys_app (l1 l2 : list Item) :
  get_testrail_keys (l1 ++ l2)
  = rbind (get_testrail_keys l1) (fun keys1 =>
    rbind (get_testrail_keys l2) (fun keys2 => Ok (keys1 ++ keys2)%list)).
Proof.
  induction l1 as [|item l1 IH].
  - cbn. destruct (get_testrail_keys l2); reflexivity.
  - cbn [app get_testrail_keys]. destruct (get_marker item) as [marker|]; [|exact IH].
    destruct (clean_test_ids (kwargs_ids marker)) as [ids|e]; [|reflexivity].
    cbn [rbind]. rewrite IH.
    destruct (get_testrail_keys l1) as [k1|e]; [|reflexivity]. cbn [rbind].
    destruct (get_testrail_keys l2) as [k2|e]; [|reflexivity]. cbn [rbind].
    now rewrite app_assoc.
Qed.

(** X16. The keys of the collected tests are gathered test by test:
    the keys of two lists of tests put one after the other are the keys
    of the first followed by those of the second, so an id declared by
    several tests is listed once per test; an exception of the first
    list wins over one of the second. Tests without the mark add
    nothing. *)
Theorem get_testrail_keys_composes :
  forall (l1 l2 : list Item),
    get_testrail_keys (l1 ++ l2)
    = rbind (get_testrail_keys l1) (fun keys1 =>
      rbind (get_testrail_keys l2) (fun keys2 => Ok (keys1 ++ keys2)%list))
    /\ get_testrail_keys (filter (fun item => match get_marker item with
                                              | Some _ => true
                                              | None => false
                                              end) l1)
       = get_testrail_keys l1.
Proof.
  intros l1 l2. split; [apply get_testrail_keys_app|].
  induction l1 as [|item l1 IH]; [reflexivity|].
  cbn [filter]. destruct (get_marker item) as [marker|] eqn:Hm.
  - cbn [get_testrail_keys]. now rewrite Hm, IH.
  - cbn [get_testrail_keys]. now rewrite Hm.
Qed.

(** X17. The ids are read before anything else during collection: when
    their extraction raises, the collection hook raises the same
    exception and has called the client not once, printed nothing and
    changed nothing. A test whose mark carries no ids makes the
    extraction raise [TypeError] when the tests before it are well
    formed, although the per-test hook would ignore that test. *)
Theorem collection_reads_ids_first :
  forall (C : Type) (client_ops : Client C),
    (forall (items : list Item) (e : exn) (st : State (C := C)),
        get_testrail_keys items = Raise e ->
        pytest_collection_modifyitems items st = (Raise e, st))
    /\ (forall (before after : list Item) (keys : list Z) (item : Item) (marker : Marker),
          get_testrail_keys before = Ok keys ->
          get_marker item = Some marker ->
          kwargs_ids marker = None ->
          get_testrail_keys (before ++ item :: after) = Raise TypeError
          /\ forall rep (st : State (C := C)),
               pytest_runtest_makereport item rep st = (Ok tt, st)).
Proof.
  intros C client_ops. split.
  - intros items e st H. unfold pytest_collection_modifyitems, bind, lift. now rewrite H.
  - intros before after keys item marker Hb Hm Hk. split.
    + rewrite get_testrail_keys_app, Hb. cbn [rbind get_testrail_keys].
      rewrite Hm, Hk. reflexivity.
    + intros rep st. unfold pytest_runtest_makereport. rewrite Hm, Hk.
      cbn [ids_truthy]. now rewrite andb_false_r.
Qed.

Lemma collection_reads_ids_first_witness :
  pytest_collection_modifyitems
    [Scenario.marked ["C1"]; {| get_marker := Some {| kwargs_ids := None |} |}]
    (Scenario.configured 7 0 true, Fake.world Scenario.service)
  = (Raise TypeError, (Scenario.configured 7 0 true, Fake.world Scenario.service)).
Proof.
  destruct (collection_reads_ids_first Fake.Server _) as (H1 & H2).
  apply H1.
  apply (H2 [Scenario.marked ["C1"]] [] [1]
            {| get_marker := Some {| kwargs_ids := None |} |} {| kwargs_ids := None |});
    reflexivity.
Defined.

(** ** The paths of the requests *)

Section Paths.

Lemma str_int_inj (n m : Z) : str_int n = str_int m -> n = m.
Proof.
  unfold str_int. intros H.
  assert (forall z, Z.to_int z <> Decimal.Pos Decimal.Nil
                    /\ Z.to_int z <> Decimal.Neg Decimal.Nil) as Hnn.
  { intros [|p|p]; cbn [Z.to_int]; split; try discriminate;
      intros E; injection E as E; now apply Unsigned.to_uint_nonnil in E. }
  apply (f_equal NilZero.int_of_string) in H.
  rewrite !NilZero.isi in H by apply Hnn.
  injection H as H. now apply DecimalZ.to_int_inj.
Qed.

Lemma string_of_uint_no_slash (d : Decimal.uint) :
  has_slash (NilEmpty.string_of_uint d) = false.
Proof. induction d; simpl; auto. Qed.

Lemma str_int_no_slash (n : Z) : has_slash (str_int n) = false.
Proof.
  unfold str_int.
  assert (forall d, has_slash (NilZero.string_of_uint d) = false) as H.
  { intros d. destruct d; try reflexivity;
      apply (string_of_uint_no_slash (_ d)) || apply string_of_uint_no_slash. }
  destruct (Z.to_int n) as [d|d]; cbn [NilZero.string_of_int has_slash]; [apply H|].
  now rewrite H.
Qed.

(** Two texts without a slash that are followed by a slash and more are
    told apart by the slash. *)
Lemma split_at_slash (a a' b b' : string) :
  has_slash a = false -> has_slash a' = false ->
  a ++ "/" ++ b = a' ++ "/" ++ b' -> a = a' /\ b = b'.
Proof.
  revert a'. induction a as [|x a IH]; intros a' Ha Ha' H.
  - destruct a' as [|y a']; cbn in H.
    + injection H as H. auto.
    + injection H as Hy _. subst y. cbn in Ha'. discriminate.
  - destruct a' as [|y a']; cbn in H.
    + injection H as Hx _. subst x. cbn in Ha. discriminate.
    + injection H as -> H. cbn [has_slash] in Ha, Ha'.
      apply orb_false_iff in Ha as [_ Ha]. apply orb_false_iff in Ha' as [_ Ha'].
      destruct (IH a' Ha Ha' H) as [-> ->]. auto.
Qed.

End Paths.

(** X18. The path of a submission tells the run and the case: two
    submissions have the same path only when they are for the same run
    and the same case. The other paths tell their id in the same way. *)
Theorem paths_tell_their_ids :
  (forall run case run' case' : Z,
      ADD_RESULT_URL run case = ADD_RESULT_URL run' case' -> run = run' /\ case = case')
  /\ (forall n m, ADD_TESTRUN_URL n = ADD_TESTRUN_URL m -> n = m)
  /\ (forall n m, GET_TESTRUN_URL n = GET_TESTRUN_URL m -> n = m)
  /\ (forall n m, GET_TESTPLAN_URL n = GET_TESTPLAN_URL m -> n = m)
  /\ (forall n m, GET_MILESTONE_URL n = GET_MILESTONE_URL m -> n = m)
  /\ (forall n m, CLOSE_TESTRUN_URL n = CLOSE_TESTRUN_URL m -> n = m).
Proof.
  split; [|repeat split; intros n m H; injection H as H; now apply str_int_inj].
  intros run case run' case' H. unfold ADD_RESULT_URL in H.
  injection H as H.
  apply split_at_slash in H; try apply str_int_no_slash.
  destruct H as [H1 H2]. split; now apply str_int_inj.
Qed.

Lemma paths_tell_their_ids_witness : 7 = 7 /\ 12 = 12.
Proof.
  destruct paths_tell_their_ids as (Hr & _). exact (Hr 7 12 7 12 eq_refl).
Defined.

(** ** The order of a batch *)

(** X19. The two sort passes of [add_results] amount to one stable
    sort on the pair (case id, status id): the records are left in the
    order that sort gives. *)
Theorem add_results_is_one_composite_sort :
  forall (C : Type) (client_ops : Client C) (py : Py.version) (testrun_id : Z)
         (st : State (C := C)),
    results (fst (snd (add_results py testrun_id st)))
    = stable_sort composite_leb (results (fst st)).
Proof.
  intros C client_ops py run [self w].
  destruct (add_results_spec py run self w) as (w' & E & _).
  rewrite E. cbn [fst snd results with_results]. apply two_passes_composite.
Qed.

(** X20. The sort of [add_results] is stable and idempotent: the
    records that share their case id and their status id stay in the
    order in which they were accumulated, and a second call, as for the
    next run of a plan, leaves the records in the order of the first. *)
Theorem add_results_order_is_stable :
  forall (C : Type) (client_ops : Client C) (py : Py.version) (run run' : Z)
         (st : State (C := C)),
    let once := snd (add_results py run st) in
    let twice := snd (add_results py run' once) in
    (forall a : Result,
        filter (fun b => (case_id a =? case_id b) && (status_id a =? status_id b))
               (results (fst once))
        = filter (fun b => (case_id a =? case_id b) && (status_id a =? status_id b))
                 (results (fst st)))
    /\ results (fst twice) = results (fst once).
Proof.
  intros C client_ops py run run' [self w] once twice. subst once twice.
  destruct (add_results_spec py run self w) as (w' & E & _). rewrite E. cbn [fst snd].
  destruct (add_results_spec py run' (with_results (sorted_results (results self)) self) w')
    as (w'' & E' & _). rewrite E'. cbn [fst snd results with_results].
  split; [|apply two_passes_idempotent].
  intros a.
  assert (forall b, (case_id a =? case_id b) && (status_id a =? status_id b)
                    = same_key composite_leb a b) as Hk.
  { intros b. unfold same_key, composite_leb.
    destruct (Z.eqb_spec (case_id a) (case_id b)), (Z.eqb_spec (status_id a) (status_id b)),
      (Z.ltb_spec (case_id a) (case_id b)), (Z.ltb_spec (case_id b) (case_id a)),
      (Z.eqb_spec (case_id b) (case_id a)),
      (Z.leb_spec (status_id a) (status_id b)), (Z.leb_spec (status_id b) (status_id a));
      simpl; try reflexivity; lia. }
  rewrite !(filter_ext _ _ Hk). apply two_passes_stable.
Qed.

(** X21. The submissions of a batch go out in sorted order: they are
    the submissions of the records that are not suppressed, each record
    before every record of a greater case id and, for one case, before
    every record of a status id that is not smaller, so that the last
    result sent for a case is its worst. *)
Theorem submissions_go_out_sorted :
  forall (C : Type) (client_ops : Client C) (py : Py.version) (testrun_id : Z)
         (self : t) (w : World C),
    exists published,
      requests (snd (snd (add_results py testrun_id (self, w))))
      = (requests w ++ map (submission py self testrun_id) published)%list
      /\ StronglySorted case_then_status published
      /\ (forall r, In r published
                    <-> In r (results self) /\ suppressed (add_skips self) r = false).
Proof.
  intros C client_ops py run self w.
  destruct (add_results_spec py run self w) as (w' & E & R & _).
  rewrite E. cbn [snd].
  exists (filter (fun r => negb (suppressed (add_skips self) r))
                 (sorted_results (results self))).
  split; [exact R|]. split.
  - apply StronglySorted_filter_keep, two_passes_sorted.
  - intros r. rewrite filter_In, negb_true_iff.
    split; intros [Hin Hs]; (split; [|exact Hs]).
    + eapply Permutation_in; [apply two_passes_perm|exact Hin].
    + eapply Permutation_in; [apply Permutation_sym, two_passes_perm|exact Hin].
Qed.

(** ** The size of a comment and the seconds of a duration *)

Section Sizes.

Lemma replace_newlines_length (s : string) :
  String.length (replace_char newline (nl ++ "    ") s)
  = (String.length s + 4 * count_newlines s)%nat.
Proof.
  induction s as [|c s IH]; [reflexivity|].
  cbn [replace_char count_newlines]. destruct (Ascii.eqb c newline).
  - rewrite append_length, IH. cbn [String.length nl append]. lia.
  - cbn [String.length]. rewrite IH. lia.
Qed.

Lemma count_newlines_le (s : string) : (count_newlines s <= String.length s)%nat.
Proof.
  induction s as [|c s IH]; [apply Nat.le_refl|].
  cbn [count_newlines String.length]. destruct (Ascii.eqb c newline); lia.
Qed.

Lemma drop_length (n : nat) (s : string) :
  String.length (drop n s) = (String.length s - n)%nat.
Proof.
  revert s. induction n as [|n IH]; intros s; [cbn; lia|].
  destruct s as [|c s]; [reflexivity|]. cbn [drop String.length]. rewrite IH. lia.
Qed.

Lemma last_chars_length (n : nat) (s : string) :
  String.length (last_chars n s) = Nat.min n (String.length s).
Proof. unfold last_chars. rewrite drop_length. lia. Qed.

End Sizes.

(** X22. The size of a submitted comment. It is the 19 characters of
    the banner, the 18 of the truncation marker when the comment is
    longer than 4000, and then the kept text (at most 4000 characters)
    with four spaces in front and four more after each of its newlines.
    So the comment that is sent can be longer than 4000 characters, but
    never longer than 20041. *)
Theorem comment_field_size :
  forall comment : string,
    let kept := last_chars COMMENT_SIZE_LIMIT comment in
    String.length (comment_field comment)
    = (19 + (if (COMMENT_SIZE_LIMIT <? String.length comment)%nat then 18 else 0)
       + 4 + String.length kept + 4 * count_newlines kept)%nat
    /\ String.length kept = Nat.min COMMENT_SIZE_LIMIT (String.length comment)
    /\ Z.of_nat (String.length (comment_field comment)) <= 20041.
Proof.
  intros text kept.
  assert (String.length kept = Nat.min COMMENT_SIZE_LIMIT (String.length text)) as Hk
    by apply last_chars_length.
  assert (String.length (comment_field text)
          = (19 + (if (COMMENT_SIZE_LIMIT <? String.length text)%nat then 18 else 0)
             + 4 + String.length kept + 4 * count_newlines kept)%nat) as Hl.
  { unfold comment_field. fold kept. rewrite !append_length, replace_newlines_length.
    destruct (COMMENT_SIZE_LIMIT <? String.length text)%nat; cbn [String.length nl append];
      lia. }
  split; [exact Hl|]. split; [exact Hk|].
  rewrite Hl. pose proof (count_newlines_le kept) as Hc.
  assert (String.length kept <= 4000)%nat as Hb.
  { rewrite Hk. change COMMENT_SIZE_LIMIT with 4000%nat. apply Nat.le_min_l. }
  destruct (COMMENT_SIZE_LIMIT <? String.length text)%nat; lia.
Qed.

Section WholeSeconds.
Local Open Scope Q_scope.

Lemma nearest_whole (n k : Z) :
  inject_Z n - (1 # 2) <= inject_Z k -> inject_Z k <= inject_Z n + (1 # 2) -> n = k.
Proof.
  intros L U.
  assert (inject_Z n < inject_Z (k + 1)) as A by (rewrite inject_Z_succ; lra).
  assert (inject_Z k < inject_Z (n + 1)) as B by (rewrite inject_Z_succ; lra).
  rewrite <- Zlt_Qlt in A, B. lia.
Qed.

Lemma int_round_whole (py : Py.version) (k : Z) : int_round py (inject_Z k) = k.
Proof.
  destruct (int_round_nearest py (inject_Z k)) as [L U]. now apply nearest_whole.
Qed.

(** Two whole numbers within one half of [x] are equal, or [x] is
    halfway between them. *)
Lemma nearest_differ (x : Q) (n m : Z) :
  inject_Z n - (1 # 2) <= x -> x <= inject_Z n + (1 # 2) ->
  inject_Z m - (1 # 2) <= x -> x <= inject_Z m + (1 # 2) ->
  (n < m)%Z -> x == inject_Z n + (1 # 2).
Proof.
  intros Ln Un Lm Um H.
  assert (inject_Z (n + 1) <= inject_Z m) as A by (rewrite <- Zle_Qle; lia).
  rewrite inject_Z_succ in A. lra.
Qed.

End WholeSeconds.

(** X23. A duration of a whole number of seconds, one at least, is
    submitted as that number. The two interpreter lines submit the same
    [elapsed] for every duration, except for a duration of one second or
    more that is exactly halfway between two whole numbers. *)
Theorem elapsed_across_interpreters :
  (forall (py : Py.version) (k : Z),
      1 <= k -> elapsed_field py (inject_Z k) = str_int k ++ "s")
  /\ (forall d : Q,
        elapsed_field Py2 d <> elapsed_field Py3 d ->
        exists k, 1 <= k /\ (d == inject_Z k + (1 # 2))%Q).
Proof.
  split.
  - intros py k Hk. unfold elapsed_field.
    assert (Qltb (inject_Z k) 1 = false) as ->.
    { destruct (Qltb (inject_Z k) 1) eqn:E; [|reflexivity].
      apply Qltb_lt in E. change 1%Q with (inject_Z 1) in E.
      rewrite <- Zlt_Qlt in E. lia. }
    now rewrite int_round_whole.
  - intros d H. unfold elapsed_field in H.
    destruct (Qltb d 1) eqn:E; [congruence|].
    assert (1 <= d)%Q as Hd.
    { apply Qnot_lt_le. intros L. apply Qltb_lt in L. congruence. }
    destruct (int_round_nearest Py2 d) as [L2 U2].
    destruct (int_round_nearest Py3 d) as [L3 U3].
    pose proof (int_round_ge_1 Py2 d Hd) as G2.
    pose proof (int_round_ge_1 Py3 d Hd) as G3.
    destruct (Z.lt_trichotomy (int_round Py2 d) (int_round Py3 d)) as [Hlt|[Heq|Hgt]].
    + exists (int_round Py2 d). split; [exact G2|].
      exact (nearest_differ d _ _ L2 U2 L3 U3 Hlt).
    + rewrite Heq in H. congruence.
    + exists (int_round Py3 d). split; [exact G3|].
      exact (nearest_differ d _ _ L3 U3 L2 U2 Hgt).
Qed.

Lemma elapsed_across_interpreters_witness :
  elapsed_field Py2 (inject_Z 12) = "12s" /\ elapsed_field Py3 (inject_Z 12) = "12s".
Proof.
  destruct elapsed_across_interpreters as (H & _).
  split; [apply (H Py2 12)|apply (H Py3 12)]; lia.
Defined.

(** ** What each hook changes of the plugin *)

Section Maintains.
Context {C : Type} {client_ops : Client C}.
Variable R : t -> t -> Prop.
Hypothesis R_refl : forall a, R a a.
Hypothesis R_trans : forall a b c, R a b -> R b c -> R a c.

Let ST : Type := State (C := C).

Lemma maintains_same {A} (m : M ST A) :
  (forall s, fst (snd (m s)) = fst s) -> maintains R m.
Proof. intros H s. rewrite H. apply R_refl. Qed.

Lemma maintains_bind {A B} (m : M ST A) (k : A -> M ST B) :
  maintains R m -> (forall a, maintains R (k a)) -> maintains R (bind m k).
Proof.
  intros Hm Hk s. unfold bind. pose proof (Hm s) as H1.
  destruct (m s) as [[a|e] s1]; cbn [fst snd] in *.
  - eapply R_trans; [exact H1|apply Hk].
  - exact H1.
Qed.

Lemma maintains_set_self (f : t -> t) :
  (forall a, R a (f a)) -> maintains R (set_self (C := C) f).
Proof. intros H s. apply H. Qed.

Lemma maintains_if {A} (b : bool) (m1 m2 : M ST A) :
  maintains R m1 -> maintains R m2 -> maintains R (if b then m1 else m2).
Proof. destruct b; auto. Qed.

End Maintains.

Lemma same_but_target_refl (a : t) : same_but_target a a.
Proof. unfold same_but_target. auto 12. Qed.

Lemma same_but_target_trans (a b c : t) :
  same_but_target a b -> same_but_target b c -> same_but_target a c.
Proof.
  unfold same_but_target.
  intros (A1 & A2 & A3 & A4 & A5 & A6 & A7 & A8 & A9)
         (B1 & B2 & B3 & B4 & B5 & B6 & B7 & B8 & B9).
  repeat split; congruence.
Qed.

(** X24. The collection hook assigns nothing but the target: whatever
    the client answers and however the hook ends, the plugin it leaves
    has the results and the settings it had; only the run id, the plan
    id and the run name can differ. *)
Theorem collection_assigns_only_the_target :
  forall (C : Type) (client_ops : Client C) (items : list Item),
    maintains same_but_target (pytest_collection_modifyitems (C := C) items).
Proof.
  intros C client_ops items.
  pose proof same_but_target_refl as Rr. pose proof same_but_target_trans as Rt.
  assert (forall A (m : M (State (C := C)) A),
             (forall s, fst (snd (m s)) = fst s) -> maintains same_but_target m) as Hsame
    by (intros A m; apply maintains_same; exact Rr).
  assert (forall A B (m : M (State (C := C)) A) (k : A -> M _ B),
             maintains same_but_target m -> (forall a, maintains same_but_target (k a)) ->
             maintains same_but_target (bind m k)) as Hbind
    by (intros A B m k; apply maintains_bind; assumption).
  assert (maintains same_but_target (is_testplan_available (C := C))) as Hplan.
  { intros [self w].
    destruct (availability_shape is_testplan_available
                (fun self => GET_TESTPLAN_URL (testplan_id self))
                "Failed to retrieve testplan: " (fun s => eq_refl) self w)
      as (r & w' & E & _). rewrite E. apply Rr. }
  assert (maintains same_but_target (is_testrun_available (C := C))) as Hrun.
  { intros [self w].
    destruct (availability_shape is_testrun_available
                (fun self => GET_TESTRUN_URL (testrun_id self))
                "Failed to retrieve testrun: " (fun s => eq_refl) self w)
      as (r & w' & E & _). rewrite E. apply Rr. }
  unfold pytest_collection_modifyitems, and_then.
  apply Hbind; [apply Hsame; reflexivity|intros keys].
  apply Hbind; [apply Hsame; reflexivity|intros self].
  apply Hbind; [apply maintains_if; [exact Hplan|apply Hsame; reflexivity]|intros plan].
  apply maintains_if.
  { apply maintains_set_self. intros a. unfold same_but_target. cbn. auto 12. }
  apply Hbind; [apply maintains_if; [exact Hrun|apply Hsame; reflexivity]|intros run].
  apply maintains_if.
  { apply maintains_set_self. intros a. unfold same_but_target. cbn. auto 12. }
  apply Hbind.
  - destruct (testrun_name self) eqn:Hn; [apply Hsame; reflexivity|].
    apply Hbind; [apply Hsame; reflexivity|intros now].
    intros [a w]. unfold set_self, same_but_target. cbn. auto 12.
  - intros _. apply Hbind; [apply Hsame; reflexivity|intros self2].
    intros [a w].
    destruct (create_test_run_spec (assign_user_id self2) (project_id self2)
                (suite_id self2)
                (match testrun_name self2 with Some n => n | None => "None" end)
                keys (milestone_id self2) a w) as (r & a' & w' & E & _).
    rewrite E. cbn [fst snd].
    revert E. unfold create_test_run, bind, get_self, set_self, client_send_post,
      client_get_error, print, ret, lift. cbn [fst snd].
    destruct (send_post _ _ _ _) as [response c]. cbn [fst snd client].
    destruct (error_truthy (get_error c response)).
    + intros [= _ <- _]. apply Rr.
    + destruct (rbind (getitem response "id") as_int) as [id|e].
      * intros [= _ <- _]. unfold same_but_target. cbn. auto 12.
      * intros [= _ <- _]. apply Rr.
Qed.

(** X25. The session-finish hook changes nothing of the plugin but
    the order of its results: whatever the client answers and however the
    hook ends, the plugin it leaves is the one it started with, with the
    results either untouched or sorted by case id and status id. *)
Theorem sessionfinish_only_sorts :
  forall (C : Type) (client_ops : Client C) (py : Py.version) (st : State (C := C)),
    exists l,
      fst (snd (pytest_sessionfinish py st)) = with_results l (fst st)
      /\ (l = results (fst st) \/ l = sorted_results (results (fst st))).
Proof.
  intros C client_ops py [self w]. cbn [fst].
  assert (exists l, self = with_results l self
                    /\ (l = results self \/ l = sorted_results (results self))) as Hsame
    by (exists (results self); rewrite with_results_same; auto).
  assert (exists l, with_results (sorted_results (results self)) self = with_results l self
                    /\ (l = results self \/ l = sorted_results (results self))) as Hsorted
    by (eexists; split; [reflexivity|now right]).
  rewrite sessionfinish_start. cbv zeta.
  destruct (results self) as [|r0 rs] eqn:Hres; [exact Hsame|]. rewrite <- Hres in *.
  unfold bind at 1 2. unfold print at 1. cbn [fst snd].
  destruct (testrun_id self =? 0) eqn:Hrun; cbn [negb].
  - destruct (testplan_id self =? 0) eqn:Hplan; cbn [negb]; [exact Hsame|].
    unfold bind at 1.
    match goal with
    | |- context [get_available_testruns ?p (self, ?w0)] =>
        assert (exists r w1, get_available_testruns p (self, w0) = (r, (self, w1)))
          as (r & w1 & E)
    end.
    { unfold get_available_testruns, bind, client_send_get, client_get_error,
        print, ret, lift. cbn [fst snd].
      destruct (send_get _ _ _) as [response c]. cbn [fst snd client].
      destruct (error_truthy (get_error c response)); do 2 eexists; reflexivity. }
    rewrite E. destruct r as [runs|e]; [|exact Hsame].
    unfold bind at 1. unfold print at 1. cbn [fst snd].
    match goal with
    | |- context [for_each runs (add_results py) (self, ?w0)] =>
        destruct (runs_loop_spec py runs (sorted_results (results self)) self w0 eq_refl)
          as (self' & w' & E' & Hself & _)
    end.
    rewrite E'. unfold print. cbn [fst snd].
    destruct Hself as [->| ->]; [exact Hsame|exact Hsorted].
  - match goal with
    | |- context [add_results py ?i (self, ?w0)] =>
        destruct (add_results_spec py i self w0) as (w' & E & _)
    end.
    rewrite E. unfold print. cbn [fst snd]. exact Hsorted.
Qed.
